(** * hands_stacking: gesture classification, particle bodies and the
      dual-object lifecycle

    A shallow embedding of [src/js/gestures.js], [src/js/earth.js] and the
    frame glue of [src/js/main.js], with the hand selection of mediapipe.js,
    the smoothing of [src/js/hud.js] and the callbacks of a session.

    Conventions of the embedding.
    - A JavaScript number is an exact rational ([Q]); results that are numbers
      are compared with [==] (equality of rationals). Rounding of doubles and
      the special values NaN and Infinity are outside the model.
    - [Date.now()] is an integer count of milliseconds ([Z]); each read of the
      clock is an explicit argument of the function that performs it.
    - [Math.sqrt] is a member of the runtime interface [MathRuntime]; every
      theorem holds for every implementation of it.
    - A function that can raise a [TypeError] (a property read on
      [undefined]) returns [option]; [None] is the exception.
    - A [Float32Array] is a [list Q] of fixed length: a read outside the array
      never happens on the arrays the program builds, and a write outside it is
      ignored, as stdpp's list insert does.
    - Module-level [let] variables are fields of explicit state records that
      are passed through the calls. *)

From Stdlib Require Import QArith Qabs Qminmax ZArith Lia Lqa.
From Stdlib Require Qpower.
From stdpp Require Import base option list strings.

Open Scope Q_scope.

(** ** Numbers *)

(** [x < y] and [x > y] on numbers, as booleans. *)
Definition Qltb (x y : Q) : bool := negb (Qle_bool y x).
Definition Qgtb (x y : Q) : bool := Qltb y x.

(** [x || d] on a number: [0] is falsy. *)
Definition num_or (x d : Q) : Q := if Qeq_bool x 0 then d else x.

(** [x || null] on a number that may be [undefined]. *)
Definition num_or_null (x : option Q) : option Q :=
  match x with
  | Some v => if Qeq_bool v 0 then None else Some v
  | None => None
  end.

Definition Math_abs (x : Q) : Q := Qabs x.
Definition Math_sign (x : Q) : Q := inject_Z (Z.sgn (Qnum x)).
Definition Math_min (x y : Q) : Q := Qmin x y.
Definition Math_max (x y : Q) : Q := Qmax x y.
Definition Math_pow (x : Q) (n : Z) : Q := x ^ n.

(** The part of the runtime's [Math] object that has no rational model. *)
Class MathRuntime := { Math_sqrt : Q -> Q }.

(** ** gestures.js *)

Module Gestures.

Definition PINCH_THRESHOLD : Q := 0.06.
Definition WAVE_VELOCITY_THRESHOLD : Q := 0.02.
Definition SPREAD_THRESHOLD : Q := 0.3.
Definition CONVERGE_THRESHOLD : Q := 0.15.
Definition SAME_LOCATION_THRESHOLD : Q := 0.12.
Definition HISTORY_LENGTH : nat := 5.

(** A landmark [{x, y, z}]. *)
Record Point := { px : Q; py : Q; pz : Q }.

(** One hand: the array of landmarks; an absent hand is [None] at the use. *)
Abbreviation Landmarks := (list Point).

(** An entry of [handHistory]: [{x, y, time}]. *)
Record Sample := { sx : Q; sy : Q; time : Z }.

Inductive HandType := left_hand | right_hand.

(** [const handHistory = { left: [], right: [] }]. *)
Record HandHistory := { hist_left : list Sample; hist_right : list Sample }.

Definition handHistory_init : HandHistory := {| hist_left := []; hist_right := [] |}.

Definition history_get (hh : HandHistory) (t : HandType) : list Sample :=
  match t with left_hand => hist_left hh | right_hand => hist_right hh end.

Definition history_set (hh : HandHistory) (t : HandType) (h : list Sample) : HandHistory :=
  match t with
  | left_hand => {| hist_left := h; hist_right := hist_right hh |}
  | right_hand => {| hist_left := hist_left hh; hist_right := h |}
  end.

Record Pinch := { isPinching : bool; distance : Q }.
Record Wave := { isWaving : bool; velocity : Q; direction : Q }.
Record Spread := { isSpreading : bool; spread_delta : Q; spread_currentDistance : Q }.
Record Converge := { isConverging : bool; converge_delta : Q; converge_currentDistance : Q }.

Record HandState := {
  detected : bool;
  pinch : Pinch;
  wave : Wave;
  grasping : bool;
  open : bool
}.

Record BothHands := {
  both_detected : bool;
  sameLocation : bool;
  spreading : bool;
  converging : bool;
  both_grasping : bool
}.

Record GestureState := {
  gs_left : HandState;
  gs_right : HandState;
  bothHands : BothHands;
  handsDistance : Q;
  spreadDelta : Q;
  convergeDelta : Q
}.

(** [previousState.handsDistance]: [undefined] on the initial [{}]. *)
Definition prev_handsDistance (previousState : option GestureState) : option Q :=
  handsDistance <$> previousState.

Section WithMath.
Context {M : MathRuntime}.

Definition distance3D (p1 p2 : Point) : Q :=
  let dx := px p1 - px p2 in
  let dy := py p1 - py p2 in
  let dz := num_or (pz p1) 0 - num_or (pz p2) 0 in
  Math_sqrt (dx * dx + dy * dy + dz * dz).

Definition distance2D (p1 p2 : Point) : Q :=
  let dx := px p1 - px p2 in
  let dy := py p1 - py p2 in
  Math_sqrt (dx * dx + dy * dy).

Definition palm_indices : list nat := [0; 5; 9; 13; 17]%nat.

(** [getPalmCenter]: the [forEach] accumulates into [x], [y], [z]; reading a
    missing landmark raises. *)
Definition getPalmCenter (landmarks : Landmarks) : option Point :=
  acc ← foldl (fun (acc : option (Q * Q * Q)) (i : nat) =>
                 '(x, y, z) ← acc;
                 p ← landmarks !! i;
                 Some (x + px p, y + py p, z + num_or (pz p) 0))
              (Some (0, 0, 0)) palm_indices;
  let '(x, y, z) := acc in
  let n := inject_Z (Z.of_nat (length palm_indices)) in
  Some {| px := x / n; py := y / n; pz := z / n |}.

Definition no_pinch : Pinch := {| isPinching := false; distance := 1 |}.

Definition detectPinch (landmarks : option Landmarks) : option Pinch :=
  match landmarks with
  | None => Some no_pinch
  | Some l =>
    if Nat.ltb (length l) 21 then Some no_pinch
    else
      thumbTip ← l !! 4%nat;
      indexTip ← l !! 8%nat;
      let dist := distance3D thumbTip indexTip in
      Some {| isPinching := Qltb dist PINCH_THRESHOLD; distance := dist |}
  end.

Definition no_wave : Wave := {| isWaving := false; velocity := 0; direction := 0 |}.

(** [while (history.length > HISTORY_LENGTH) history.shift()]; the fuel is the
    length of the array, one more than the loop can use. *)
Fixpoint shift_excess (fuel : nat) (history : list Sample) : list Sample :=
  match fuel with
  | O => history
  | S fuel' =>
    if Nat.ltb HISTORY_LENGTH (length history)
    then shift_excess fuel' (tail history)
    else history
  end.

(** [detectWave]; [now] is the value of [Date.now()] read at the push. The
    second component is [handHistory] after the call. *)
Definition detectWave (landmarks : option Landmarks) (handType : HandType)
    (now : Z) (hh : HandHistory) : option (Wave * HandHistory) :=
  match landmarks with
  | None => Some (no_wave, hh)
  | Some l =>
    if Nat.ltb (length l) 21 then Some (no_wave, hh)
    else
      palmCenter ← getPalmCenter l;
      let pushed := history_get hh handType
                    ++ [{| sx := px palmCenter; sy := py palmCenter; time := now |}] in
      let history := shift_excess (length pushed) pushed in
      let hh' := history_set hh handType history in
      if Nat.ltb (length history) 2 then Some (no_wave, hh')
      else
        oldest ← history !! 0%nat;
        newest ← history !! (length history - 1)%nat;
        let timeDelta := inject_Z (time newest - time oldest) / 1000 in
        if Qltb timeDelta 0.01 then Some (no_wave, hh')
        else
          let xVelocity := (sx newest - sx oldest) / timeDelta in
          let absVelocity := Math_abs xVelocity in
          Some ({| isWaving := Qgtb absVelocity WAVE_VELOCITY_THRESHOLD;
                   velocity := absVelocity;
                   direction := Math_sign xVelocity |}, hh')
  end.

Definition isSameLocation (leftLandmarks rightLandmarks : option Landmarks) : option bool :=
  match leftLandmarks, rightLandmarks with
  | Some l, Some r =>
    leftPalm ← getPalmCenter l;
    rightPalm ← getPalmCenter r;
    Some (Qltb (distance2D leftPalm rightPalm) SAME_LOCATION_THRESHOLD)
  | _, _ => Some false
  end.

Definition getHandsDistance (leftLandmarks rightLandmarks : option Landmarks) : option Q :=
  match leftLandmarks, rightLandmarks with
  | Some l, Some r =>
    leftPalm ← getPalmCenter l;
    rightPalm ← getPalmCenter r;
    Some (distance2D leftPalm rightPalm)
  | _, _ => Some 0
  end.

(** [!leftLandmarks || !rightLandmarks]. *)
Definition either_absent (leftLandmarks rightLandmarks : option Landmarks) : bool :=
  match leftLandmarks, rightLandmarks with
  | Some _, Some _ => false
  | _, _ => true
  end.

(** [previousDistance] is a number or [null] ([None]). *)
Definition detectSpread (leftLandmarks rightLandmarks : option Landmarks)
    (previousDistance : option Q) : option Spread :=
  currentDistance ← getHandsDistance leftLandmarks rightLandmarks;
  match either_absent leftLandmarks rightLandmarks, previousDistance with
  | false, Some previous =>
    let delta := currentDistance - previous in
    Some {| isSpreading := Qgtb delta 0.02 && Qgtb currentDistance SPREAD_THRESHOLD;
            spread_delta := delta;
            spread_currentDistance := currentDistance |}
  | _, _ =>
    Some {| isSpreading := false; spread_delta := 0;
            spread_currentDistance := currentDistance |}
  end.

Definition detectConverge (leftLandmarks rightLandmarks : option Landmarks)
    (previousDistance : option Q) : option Converge :=
  currentDistance ← getHandsDistance leftLandmarks rightLandmarks;
  match either_absent leftLandmarks rightLandmarks, previousDistance with
  | false, Some previous =>
    let delta := previous - currentDistance in
    Some {| isConverging := Qgtb delta 0.02 && Qltb currentDistance CONVERGE_THRESHOLD;
            converge_delta := delta;
            converge_currentDistance := currentDistance |}
  | _, _ =>
    Some {| isConverging := false; converge_delta := 0;
            converge_currentDistance := currentDistance |}
  end.

(** The body of a [for ... of fingerChecks] loop: one finger compared with the
    wrist, counted when [test tipToWrist otherToWrist] holds. *)
Definition count_fingers (test : Q -> Q -> bool) (l : Landmarks)
    (fingerChecks : list (nat * nat)) : option nat :=
  foldl (fun (count : option nat) '(tipIdx, otherIdx) =>
           c ← count;
           tip ← l !! tipIdx;
           other ← l !! otherIdx;
           wrist ← l !! 0%nat;
           let tipToWrist := distance2D tip wrist in
           let otherToWrist := distance2D other wrist in
           Some (if test tipToWrist otherToWrist then S c else c))
        (Some O) fingerChecks.

Definition grasp_checks : list (nat * nat) := [(8, 5); (12, 9); (16, 13); (20, 17)]%nat.
Definition open_checks : list (nat * nat) := [(8, 6); (12, 10); (16, 14); (20, 18)]%nat.

Definition isGrasping (landmarks : option Landmarks) : option bool :=
  match landmarks with
  | None => Some false
  | Some l =>
    if Nat.ltb (length l) 21 then Some false
    else
      curledCount ← count_fingers (fun tipToWrist baseToWrist =>
                                     Qltb tipToWrist (baseToWrist * 1.2)) l grasp_checks;
      Some (Nat.leb 3 curledCount)
  end.

Definition isOpenHand (landmarks : option Landmarks) : option bool :=
  match landmarks with
  | None => Some false
  | Some l =>
    if Nat.ltb (length l) 21 then Some false
    else
      extendedCount ← count_fingers (fun tipToWrist pipToWrist =>
                                       Qgtb tipToWrist (pipToWrist * 1.1)) l open_checks;
      Some (Nat.leb 3 extendedCount)
  end.

Definition detectGrasp (leftLandmarks rightLandmarks : option Landmarks) : option bool :=
  if either_absent leftLandmarks rightLandmarks then Some false
  else
    graspLeft ← isGrasping leftLandmarks;
    graspRight ← (if graspLeft then isGrasping rightLandmarks else Some false);
    let bothGrasping := graspLeft && graspRight in
    samePlace ← isSameLocation leftLandmarks rightLandmarks;
    Some (bothGrasping && samePlace).

(** [getGestureState]; [nowLeft] and [nowRight] are the clock values read by
    the two [detectWave] calls, in that order. The result carries
    [handHistory] after the call. *)
Definition getGestureState (leftLandmarks rightLandmarks : option Landmarks)
    (previousState : option GestureState) (nowLeft nowRight : Z)
    (hh : HandHistory) : option (GestureState * HandHistory) :=
  leftPinch ← detectPinch leftLandmarks;
  rightPinch ← detectPinch rightLandmarks;
  '(leftWave, hh1) ← detectWave leftLandmarks left_hand nowLeft hh;
  '(rightWave, hh2) ← detectWave rightLandmarks right_hand nowRight hh1;
  spread ← detectSpread leftLandmarks rightLandmarks
             (num_or_null (prev_handsDistance previousState));
  converge ← detectConverge leftLandmarks rightLandmarks
               (num_or_null (prev_handsDistance previousState));
  grasp ← detectGrasp leftLandmarks rightLandmarks;
  sameLoc ← isSameLocation leftLandmarks rightLandmarks;
  hd ← getHandsDistance leftLandmarks rightLandmarks;
  leftGrasping ← isGrasping leftLandmarks;
  leftOpen ← isOpenHand leftLandmarks;
  rightGrasping ← isGrasping rightLandmarks;
  rightOpen ← isOpenHand rightLandmarks;
  Some ({| gs_left := {| detected := bool_decide (is_Some leftLandmarks);
                         pinch := leftPinch; wave := leftWave;
                         grasping := leftGrasping; open := leftOpen |};
           gs_right := {| detected := bool_decide (is_Some rightLandmarks);
                          pinch := rightPinch; wave := rightWave;
                          grasping := rightGrasping; open := rightOpen |};
           bothHands := {| both_detected := bool_decide (is_Some leftLandmarks)
                                            && bool_decide (is_Some rightLandmarks);
                           sameLocation := sameLoc;
                           spreading := isSpreading spread;
                           converging := isConverging converge;
                           both_grasping := grasp |};
           handsDistance := hd;
           spreadDelta := spread_delta spread;
           convergeDelta := converge_delta converge |}, hh2).

End WithMath.

End Gestures.

(** ** earth.js *)

Module Earth.

Definition PARTICLE_COUNT : nat := 3500.
(** The literal [800] of the outer cloud. *)
Definition OUTER_COUNT : nat := 800.

(** A [THREE.Points] child: the array of its position attribute, the
    [needsUpdate] request on that attribute, and its own rotation. *)
Record Points := {
  positions : list Q;
  needsUpdate : bool;
  points_rotation_x : Q;
  points_rotation_y : Q
}.

(** [group.userData]. *)
Record UserData := {
  earthParticles : Points;
  particles : Points;
  particlePositions : list Q;
  earthParticlePositions : list Q;
  particleVelocities : list Q;
  earthParticleVelocities : list Q;
  dispersed : bool;
  dispersionAmount : Q
}.

(** A [THREE.Group] made by [createEarthInstance]. [scale] is the uniform
    scale written by [setScalar]. *)
Record Group := {
  name : string;
  position_x : Q;
  position_y : Q;
  position_z : Q;
  rotation_x : Q;
  rotation_y : Q;
  scale : Q;
  visible : bool;
  userData : UserData
}.

Definition set_positions (a : list Q) (p : Points) : Points :=
  {| positions := a; needsUpdate := needsUpdate p;
     points_rotation_x := points_rotation_x p; points_rotation_y := points_rotation_y p |}.

Definition set_needsUpdate (b : bool) (p : Points) : Points :=
  {| positions := positions p; needsUpdate := b;
     points_rotation_x := points_rotation_x p; points_rotation_y := points_rotation_y p |}.

Definition set_points_rotation (rx ry : Q) (p : Points) : Points :=
  {| positions := positions p; needsUpdate := needsUpdate p;
     points_rotation_x := rx; points_rotation_y := ry |}.

Definition set_earthParticles (p : Points) (u : UserData) : UserData :=
  {| earthParticles := p; particles := particles u;
     particlePositions := particlePositions u;
     earthParticlePositions := earthParticlePositions u;
     particleVelocities := particleVelocities u;
     earthParticleVelocities := earthParticleVelocities u;
     dispersed := dispersed u; dispersionAmount := dispersionAmount u |}.

Definition set_particles (p : Points) (u : UserData) : UserData :=
  {| earthParticles := earthParticles u; particles := p;
     particlePositions := particlePositions u;
     earthParticlePositions := earthParticlePositions u;
     particleVelocities := particleVelocities u;
     earthParticleVelocities := earthParticleVelocities u;
     dispersed := dispersed u; dispersionAmount := dispersionAmount u |}.

Definition set_particleVelocities (v : list Q) (u : UserData) : UserData :=
  {| earthParticles := earthParticles u; particles := particles u;
     particlePositions := particlePositions u;
     earthParticlePositions := earthParticlePositions u;
     particleVelocities := v;
     earthParticleVelocities := earthParticleVelocities u;
     dispersed := dispersed u; dispersionAmount := dispersionAmount u |}.

Definition set_earthParticleVelocities (v : list Q) (u : UserData) : UserData :=
  {| earthParticles := earthParticles u; particles := particles u;
     particlePositions := particlePositions u;
     earthParticlePositions := earthParticlePositions u;
     particleVelocities := particleVelocities u;
     earthParticleVelocities := v;
     dispersed := dispersed u; dispersionAmount := dispersionAmount u |}.

Definition set_dispersed (b : bool) (u : UserData) : UserData :=
  {| earthParticles := earthParticles u; particles := particles u;
     particlePositions := particlePositions u;
     earthParticlePositions := earthParticlePositions u;
     particleVelocities := particleVelocities u;
     earthParticleVelocities := earthParticleVelocities u;
     dispersed := b; dispersionAmount := dispersionAmount u |}.

Definition set_dispersionAmount (d : Q) (u : UserData) : UserData :=
  {| earthParticles := earthParticles u; particles := particles u;
     particlePositions := particlePositions u;
     earthParticlePositions := earthParticlePositions u;
     particleVelocities := particleVelocities u;
     earthParticleVelocities := earthParticleVelocities u;
     dispersed := dispersed u; dispersionAmount := d |}.

Definition set_userData (u : UserData) (g : Group) : Group :=
  {| name := name g; position_x := position_x g; position_y := position_y g;
     position_z := position_z g; rotation_x := rotation_x g; rotation_y := rotation_y g;
     scale := scale g; visible := visible g; userData := u |}.

Definition set_name (s : string) (g : Group) : Group :=
  {| name := s; position_x := position_x g; position_y := position_y g;
     position_z := position_z g; rotation_x := rotation_x g; rotation_y := rotation_y g;
     scale := scale g; visible := visible g; userData := userData g |}.

Definition set_position (x y z : Q) (g : Group) : Group :=
  {| name := name g; position_x := x; position_y := y; position_z := z;
     rotation_x := rotation_x g; rotation_y := rotation_y g;
     scale := scale g; visible := visible g; userData := userData g |}.

Definition set_position_x (x : Q) (g : Group) : Group :=
  set_position x (position_y g) (position_z g) g.

Definition set_rotation (rx ry : Q) (g : Group) : Group :=
  {| name := name g; position_x := position_x g; position_y := position_y g;
     position_z := position_z g; rotation_x := rx; rotation_y := ry;
     scale := scale g; visible := visible g; userData := userData g |}.

Definition set_rotation_y (ry : Q) (g : Group) : Group := set_rotation (rotation_x g) ry g.

Definition setScalar (s : Q) (g : Group) : Group :=
  {| name := name g; position_x := position_x g; position_y := position_y g;
     position_z := position_z g; rotation_x := rotation_x g; rotation_y := rotation_y g;
     scale := s; visible := visible g; userData := userData g |}.

Definition set_visible (b : bool) (g : Group) : Group :=
  {| name := name g; position_x := position_x g; position_y := position_y g;
     position_z := position_z g; rotation_x := rotation_x g; rotation_y := rotation_y g;
     scale := scale g; visible := b; userData := userData g |}.

(** The arrays that [createEarthParticleSystem] and [createOuterParticleSystem]
    fill from [Math.random] and the trigonometric functions: an input of the
    model, of lengths [PARTICLE_COUNT * 3] and [800 * 3]. *)
Record Generated := { gen_earth : list Q; gen_outer : list Q }.

Definition new_points (a : list Q) : Points :=
  {| positions := a; needsUpdate := false; points_rotation_x := 0; points_rotation_y := 0 |}.

(** [createEarthInstance]; a new [THREE.Group] sits at the origin with scale 1,
    visible and unnamed. The two [slice()] calls copy the arrays. *)
Definition createEarthInstance (g : Generated) : Group :=
  {| name := ""; position_x := 0; position_y := 0; position_z := 0;
     rotation_x := 0; rotation_y := 0; scale := 1; visible := true;
     userData :=
       {| earthParticles := new_points (gen_earth g);
          particles := new_points (gen_outer g);
          particlePositions := gen_outer g;
          earthParticlePositions := gen_earth g;
          particleVelocities := replicate (OUTER_COUNT * 3) 0;
          earthParticleVelocities := replicate (PARTICLE_COUNT * 3) 0;
          dispersed := false;
          dispersionAmount := 0 |} |}.

(** The module-level variables of earth.js, the children of the scene (by
    name) and the [mergeAnimation] callback waiting in
    [requestAnimationFrame], present as the [startTime] it closed over. *)
Record State := {
  earthGroup : option Group;
  leftEarth : option Group;
  rightEarth : option Group;
  isDualMode : bool;
  isMerging : bool;
  earthRotation_x : Q;
  earthRotation_y : Q;
  earthScale : Q;
  targetScale : Q;
  scene : list string;
  pendingMerge : option Z
}.

Definition state_init : State :=
  {| earthGroup := None; leftEarth := None; rightEarth := None;
     isDualMode := false; isMerging := false;
     earthRotation_x := 0; earthRotation_y := 0; earthScale := 1; targetScale := 1;
     scene := []; pendingMerge := None |}.

Definition set_earthGroup (o : option Group) (s : State) : State :=
  {| earthGroup := o; leftEarth := leftEarth s; rightEarth := rightEarth s;
     isDualMode := isDualMode s; isMerging := isMerging s;
     earthRotation_x := earthRotation_x s; earthRotation_y := earthRotation_y s;
     earthScale := earthScale s; targetScale := targetScale s;
     scene := scene s; pendingMerge := pendingMerge s |}.

Definition set_leftEarth (o : option Group) (s : State) : State :=
  {| earthGroup := earthGroup s; leftEarth := o; rightEarth := rightEarth s;
     isDualMode := isDualMode s; isMerging := isMerging s;
     earthRotation_x := earthRotation_x s; earthRotation_y := earthRotation_y s;
     earthScale := earthScale s; targetScale := targetScale s;
     scene := scene s; pendingMerge := pendingMerge s |}.

Definition set_rightEarth (o : option Group) (s : State) : State :=
  {| earthGroup := earthGroup s; leftEarth := leftEarth s; rightEarth := o;
     isDualMode := isDualMode s; isMerging := isMerging s;
     earthRotation_x := earthRotation_x s; earthRotation_y := earthRotation_y s;
     earthScale := earthScale s; targetScale := targetScale s;
     scene := scene s; pendingMerge := pendingMerge s |}.

Definition set_isDualMode (b : bool) (s : State) : State :=
  {| earthGroup := earthGroup s; leftEarth := leftEarth s; rightEarth := rightEarth s;
     isDualMode := b; isMerging := isMerging s;
     earthRotation_x := earthRotation_x s; earthRotation_y := earthRotation_y s;
     earthScale := earthScale s; targetScale := targetScale s;
     scene := scene s; pendingMerge := pendingMerge s |}.

Definition set_isMerging (b : bool) (s : State) : State :=
  {| earthGroup := earthGroup s; leftEarth := leftEarth s; rightEarth := rightEarth s;
     isDualMode := isDualMode s; isMerging := b;
     earthRotation_x := earthRotation_x s; earthRotation_y := earthRotation_y s;
     earthScale := earthScale s; targetScale := targetScale s;
     scene := scene s; pendingMerge := pendingMerge s |}.

Definition set_earthRotation_y (r : Q) (s : State) : State :=
  {| earthGroup := earthGroup s; leftEarth := leftEarth s; rightEarth := rightEarth s;
     isDualMode := isDualMode s; isMerging := isMerging s;
     earthRotation_x := earthRotation_x s; earthRotation_y := r;
     earthScale := earthScale s; targetScale := targetScale s;
     scene := scene s; pendingMerge := pendingMerge s |}.

Definition set_earthScale (r : Q) (s : State) : State :=
  {| earthGroup := earthGroup s; leftEarth := leftEarth s; rightEarth := rightEarth s;
     isDualMode := isDualMode s; isMerging := isMerging s;
     earthRotation_x := earthRotation_x s; earthRotation_y := earthRotation_y s;
     earthScale := r; targetScale := targetScale s;
     scene := scene s; pendingMerge := pendingMerge s |}.

Definition set_targetScale (r : Q) (s : State) : State :=
  {| earthGroup := earthGroup s; leftEarth := leftEarth s; rightEarth := rightEarth s;
     isDualMode := isDualMode s; isMerging := isMerging s;
     earthRotation_x := earthRotation_x s; earthRotation_y := earthRotation_y s;
     earthScale := earthScale s; targetScale := r;
     scene := scene s; pendingMerge := pendingMerge s |}.

Definition set_scene (l : list string) (s : State) : State :=
  {| earthGroup := earthGroup s; leftEarth := leftEarth s; rightEarth := rightEarth s;
     isDualMode := isDualMode s; isMerging := isMerging s;
     earthRotation_x := earthRotation_x s; earthRotation_y := earthRotation_y s;
     earthScale := earthScale s; targetScale := targetScale s;
     scene := l; pendingMerge := pendingMerge s |}.

Definition set_pendingMerge (o : option Z) (s : State) : State :=
  {| earthGroup := earthGroup s; leftEarth := leftEarth s; rightEarth := rightEarth s;
     isDualMode := isDualMode s; isMerging := isMerging s;
     earthRotation_x := earthRotation_x s; earthRotation_y := earthRotation_y s;
     earthScale := earthScale s; targetScale := targetScale s;
     scene := scene s; pendingMerge := o |}.

(** [scene.add(object)] and [scene.remove(object)] on the list of children. *)
Definition scene_add (n : string) (s : State) : State := set_scene (scene s ++ [n]) s.
Definition scene_remove (n : string) (s : State) : State :=
  set_scene (filter (λ m, m ≠ n) (scene s)) s.

(** [initEarth] (the mouse handlers are DOM callbacks and are left out). *)
Definition initEarth (g : Generated) (s : State) : State :=
  let e := set_name "mainEarth" (set_position 0 0 (-3) (createEarthInstance g)) in
  scene_add "mainEarth" (set_earthGroup (Some e) s).

Definition clamp_scale (t : Q) : Q := Math_max 0.3 (Math_min 2 t).

Definition handlePinchZoom (pinchDistance prevPinchDistance : Q) (s : State) : State :=
  if Qgtb prevPinchDistance 0 then
    let delta := pinchDistance - prevPinchDistance in
    set_targetScale (clamp_scale (targetScale s + delta * 5)) s
  else s.

Definition handleWaveRotation (velocity direction : Q) (s : State) : State :=
  set_earthRotation_y (earthRotation_y s + velocity * direction * 0.5) s.

(** [spawnDualEarths]; [gl] and [gr] are the arrays generated for the two new
    instances. *)
Definition spawnDualEarths (gl gr : Generated) (s : State) : State :=
  if isDualMode s then s
  else
    let s := set_isDualMode true s in
    let s := set_earthGroup (set_visible false <$> earthGroup s) s in
    let l := set_name "leftEarth"
               (setScalar 0.7 (set_position (-1.2) 0 (-3) (createEarthInstance gl))) in
    let s := scene_add "leftEarth" (set_leftEarth (Some l) s) in
    let r := set_name "rightEarth"
               (setScalar 0.7 (set_position 1.2 0 (-3) (createEarthInstance gr))) in
    scene_add "rightEarth" (set_rightEarth (Some r) s).

Definition merge_duration : Q := 1000.

(** [mergeEarths]; [now] is the [Date.now()] stored in [startTime]. The call
    only registers the animation callback. *)
Definition mergeEarths (now : Z) (s : State) : State :=
  if negb (isDualMode s) || isMerging s then s
  else set_pendingMerge (Some now) (set_isMerging true s).

(** One run of the [mergeAnimation] callback, at clock value [now]. While
    [progress < 1] the callback registers itself again. *)
Definition mergeAnimation (now : Z) (s : State) : State :=
  match pendingMerge s with
  | None => s
  | Some startTime =>
    let elapsed := inject_Z (now - startTime) in
    let progress := Math_min (elapsed / merge_duration) 1 in
    let eased := 1 - Math_pow (1 - progress) 3 in
    let s :=
      match leftEarth s, rightEarth s with
      | Some l, Some r =>
        let l := set_position_x (-1.2 * (1 - eased)) l in
        let r := set_position_x (1.2 * (1 - eased)) r in
        let scale := 0.7 + 0.3 * eased in
        let l := setScalar (scale * (1 - progress * 0.5)) l in
        let r := setScalar (scale * (1 - progress * 0.5)) r in
        set_rightEarth (Some r) (set_leftEarth (Some l) s)
      | _, _ => s
      end in
    if Qltb progress 1 then s
    else
      let s := match leftEarth s with
               | Some _ => scene_remove "leftEarth" s
               | None => s
               end in
      let s := match rightEarth s with
               | Some _ => scene_remove "rightEarth" s
               | None => s
               end in
      let s := set_rightEarth None (set_leftEarth None s) in
      let s := set_earthGroup (setScalar 1 <$> (set_visible true <$> earthGroup s)) s in
      set_pendingMerge None (set_isMerging false (set_isDualMode false s))
  end.

(** *** Particle bodies *)

(** [for (let i = 0; i < n * 3; i += 3) body] and
    [for (let i = 0; i < n; i++) body], threading the arrays the body writes. *)
Definition for_step3 {S : Type} (n : nat) (body : nat -> S -> S) (s : S) : S :=
  foldl (λ s k, body (3 * k)%nat s) s (seq 0 n).

Definition for_each {S : Type} (n : nat) (body : nat -> S -> S) (s : S) : S :=
  foldl (λ s i, body i s) s (seq 0 n).

(** [a[i]] on a typed array. *)
Definition rd (a : list Q) (i : nat) : Q := default 0 (a !! i).

Section WithMath.
Context {M : MathRuntime}.

(** One round of the loop of [disperseParticles] over one body, at index [i];
    [gain] is [0.025] for the globe and [0.03] for the outer cloud. *)
Definition disperse_body (gain intensity : Q) (positions : list Q) (i : nat)
    (velocities : list Q) : list Q :=
  let x := rd positions i in
  let y := rd positions (i + 1) in
  let z := rd positions (i + 2) in
  let len := Math_sqrt (x * x + y * y + z * z) in
  if Qgtb len 0 then
    let velocities := <[i := rd velocities i + (x / len) * intensity * gain]> velocities in
    let velocities :=
      <[(i + 1)%nat := rd velocities (i + 1) + (y / len) * intensity * gain]> velocities in
    <[(i + 2)%nat := rd velocities (i + 2) + (z / len) * intensity * gain]> velocities
  else velocities.

Definition disperse_loop (n : nat) (gain intensity : Q) (positions velocities : list Q)
    : list Q :=
  for_step3 n (disperse_body gain intensity positions) velocities.

(** [disperseParticles] on a non-null [earth]. Every instance carries both
    particle systems and both velocity arrays, so the guards on them and the
    [|| new Float32Array(...)] fallbacks are not taken. *)
Definition disperseParticles (earth : Group) (intensity : Q) : Group :=
  let u := userData earth in
  let u := set_dispersed true u in
  let u := set_dispersionAmount
             (Math_min 1 (num_or (dispersionAmount u) 0 + intensity * 0.1)) u in
  let u := set_earthParticleVelocities
             (disperse_loop PARTICLE_COUNT 0.025 intensity
                (positions (earthParticles u)) (earthParticleVelocities u)) u in
  let u := set_particleVelocities
             (disperse_loop OUTER_COUNT 0.03 intensity
                (positions (particles u)) (particleVelocities u)) u in
  set_userData u earth.

End WithMath.

(** [positions[i] += (basePositions[i] - positions[i]) * intensity * rate]. *)
Definition converge_body (rate intensity : Q) (basePositions : list Q) (i : nat)
    (positions : list Q) : list Q :=
  <[i := rd positions i + (rd basePositions i - rd positions i) * intensity * rate]>
    positions.

Definition converge_loop (n : nat) (rate intensity : Q) (basePositions positions : list Q)
    : list Q :=
  for_each n (converge_body rate intensity basePositions) positions.

(** [velocities[i] *= 0.9]. *)
Definition decay_loop (n : nat) (velocities : list Q) : list Q :=
  for_each n (λ i velocities, <[i := rd velocities i * 0.9]> velocities) velocities.

(** [convergeParticles] on a non-null [earth]. *)
Definition convergeParticles (earth : Group) (intensity : Q) : Group :=
  let u := userData earth in
  let u := set_dispersionAmount
             (Math_max 0 (num_or (dispersionAmount u) 0 - intensity * 0.15)) u in
  let u := set_earthParticles
             (set_needsUpdate true
                (set_positions
                   (converge_loop (PARTICLE_COUNT * 3) 0.12 intensity
                      (earthParticlePositions u) (positions (earthParticles u)))
                   (earthParticles u))) u in
  let u := set_earthParticleVelocities
             (decay_loop (PARTICLE_COUNT * 3) (earthParticleVelocities u)) u in
  let u := set_particles
             (set_needsUpdate true
                (set_positions
                   (converge_loop (OUTER_COUNT * 3) 0.1 intensity
                      (particlePositions u) (positions (particles u)))
                   (particles u))) u in
  let u := if Qle_bool (dispersionAmount u) 0 then set_dispersed false u else u in
  set_userData u earth.

(** One round of the integration loop of [updateParticles] over one body, at
    index [i]: the arrays and the local [hasMotion]. *)
Definition integrate_body (damping : Q) (i : nat) (s : list Q * list Q * bool)
    : list Q * list Q * bool :=
  let '(positions, velocities, hasMotion) := s in
  let positions := <[i := rd positions i + rd velocities i]> positions in
  let positions := <[(i + 1)%nat := rd positions (i + 1) + rd velocities (i + 1)]> positions in
  let positions := <[(i + 2)%nat := rd positions (i + 2) + rd velocities (i + 2)]> positions in
  let velocities := <[i := rd velocities i * damping]> velocities in
  let velocities := <[(i + 1)%nat := rd velocities (i + 1) * damping]> velocities in
  let velocities := <[(i + 2)%nat := rd velocities (i + 2) * damping]> velocities in
  let hasMotion := if Qgtb (Math_abs (rd velocities i)) 0.0001 then true else hasMotion in
  (positions, velocities, hasMotion).

Definition integrate_loop (n : nat) (damping : Q) (positions velocities : list Q)
    : list Q * list Q * bool :=
  for_step3 n (integrate_body damping) (positions, velocities, false).

(** [if (hasMotion) attribute.needsUpdate = true]. *)
Definition request_update (hasMotion : bool) (p : Points) : Points :=
  if hasMotion then set_needsUpdate true p else p.

(** [updateParticles] on a non-null [earth]. *)
Definition updateParticles (earth : Group) (deltaTime : Q) : Group :=
  let u := userData earth in
  let '(positions1, velocities1, hasMotion1) :=
    integrate_loop PARTICLE_COUNT 0.97
      (positions (earthParticles u)) (earthParticleVelocities u) in
  let u := set_earthParticleVelocities velocities1
             (set_earthParticles
                (request_update hasMotion1 (set_positions positions1 (earthParticles u))) u) in
  let '(positions2, velocities2, hasMotion2) :=
    integrate_loop OUTER_COUNT 0.98
      (positions (particles u)) (particleVelocities u) in
  let u := set_particleVelocities velocities2
             (set_particles
                (request_update hasMotion2 (set_positions positions2 (particles u))) u) in
  let u := if negb (dispersed u) then
             set_particles
               (set_points_rotation
                  (points_rotation_x (particles u) + deltaTime * 0.02)
                  (points_rotation_y (particles u) + deltaTime * 0.05)
                  (particles u)) u
           else u in
  set_userData u earth.

(** [updateEarth]. *)
Definition updateEarth (deltaTime : Q) (s : State) : State :=
  let s := set_earthScale (earthScale s + (targetScale s - earthScale s) * 0.1) s in
  let s :=
    match earthGroup s with
    | Some g =>
      if visible g then
        let g := set_rotation (earthRotation_x s) (rotation_y g) g in
        let g := set_rotation_y (rotation_y g + deltaTime * 0.1) g in
        let g := set_rotation_y (rotation_y g + earthRotation_y s * 0.02) g in
        let s := set_earthRotation_y (earthRotation_y s * 0.95) s in
        let g := setScalar (earthScale s) g in
        set_earthGroup (Some (updateParticles g deltaTime)) s
      else s
    | None => s
    end in
  if isDualMode s && negb (isMerging s) then
    let s :=
      match leftEarth s with
      | Some l =>
        let l := set_rotation_y (rotation_y l + deltaTime * 0.15) l in
        set_leftEarth (Some (updateParticles l deltaTime)) s
      | None => s
      end in
    match rightEarth s with
    | Some r =>
      let r := set_rotation_y (rotation_y r - deltaTime * 0.15) r in
      set_rightEarth (Some (updateParticles r deltaTime)) s
    | None => s
    end
  else s.

Inductive LifecycleState := SINGLE | DUAL | MERGING.

Definition getEarthMode (s : State) : LifecycleState :=
  if isMerging s then MERGING else if isDualMode s then DUAL else SINGLE.

Definition isDualEarthMode (s : State) : bool := isDualMode s.
Definition getLeftEarth (s : State) : option Group := leftEarth s.
Definition getRightEarth (s : State) : option Group := rightEarth s.
Definition getMainEarth (s : State) : option Group := earthGroup s.

End Earth.

(** ** main.js *)

Module Main.
Import Gestures Earth.

(** The module-level state of main.js that the frame logic reads and writes.
    [dualEarthCooldown] only ever holds [0], [90] and the integers between. *)
Record MainState := {
  previousGestureState : option GestureState;
  previousPinchDistance : Q;
  dualEarthCooldown : Z
}.

Definition main_init : MainState :=
  {| previousGestureState := None; previousPinchDistance := 0; dualEarthCooldown := 0 |}.

(** Everything that lives across frames: main.js, earth.js (with the scene)
    and the [handHistory] of gestures.js. *)
Record World := {
  main_state : MainState;
  earth_state : Earth.State;
  hand_history : HandHistory
}.

(** What one frame reads from outside: the two hands returned by [getHand],
    the clock values seen by the two [detectWave] calls and by [mergeEarths],
    the arrays generated if two instances are created, and [clock.getDelta()]. *)
Record Frame := {
  leftHand : option Landmarks;
  rightHand : option Landmarks;
  nowLeft : Z;
  nowRight : Z;
  nowMerge : Z;
  genLeft : Generated;
  genRight : Generated;
  deltaTime : Q
}.

Definition set_cooldown (c : Z) (m : MainState) : MainState :=
  {| previousGestureState := previousGestureState m;
     previousPinchDistance := previousPinchDistance m;
     dualEarthCooldown := c |}.

Definition set_previousPinchDistance (d : Q) (m : MainState) : MainState :=
  {| previousGestureState := previousGestureState m;
     previousPinchDistance := d;
     dualEarthCooldown := dualEarthCooldown m |}.

Definition set_previousGestureState (g : option GestureState) (m : MainState) : MainState :=
  {| previousGestureState := g;
     previousPinchDistance := previousPinchDistance m;
     dualEarthCooldown := dualEarthCooldown m |}.

(** [scene.getObjectByName('mainEarth')] followed by a mutation of the object
    found: the object is the one [earthGroup] refers to. *)
Definition with_mainEarth (f : Group -> Group) (s : Earth.State) : Earth.State :=
  if bool_decide ("mainEarth" ∈ scene s) then set_earthGroup (f <$> earthGroup s) s else s.

Section WithMath.
Context {M : MathRuntime}.

(** The spawn evaluation of [processGestures]: the guarded call of
    [spawnDualEarths] with the assignment of the cooldown. *)
Definition spawn_evaluation (gestureState : GestureState) (gl gr : Generated)
    (ms : MainState * Earth.State) : MainState * Earth.State :=
  let '(m, s) := ms in
  if both_detected (bothHands gestureState) && negb (isDualEarthMode s) then
    if (dualEarthCooldown m <=? 0)%Z then
      (set_cooldown 90 m, spawnDualEarths gl gr s)
    else (m, s)
  else (m, s).

(** [dualEarthCooldown = Math.max(0, dualEarthCooldown - 1)]. *)
Definition cooldown_tick (m : MainState) : MainState :=
  set_cooldown (Z.max 0 (dualEarthCooldown m - 1)) m.

(** The branch of [processGestures] taken when [isDualEarthMode()] is false. *)
Definition single_mode (gestureState : GestureState)
    (ms : MainState * Earth.State) : MainState * Earth.State :=
  let '(m, s) := ms in
  let l := gs_left gestureState in
  let r := gs_right gestureState in
  let s := if grasping l || grasping r
           then with_mainEarth (λ g, convergeParticles g 0.8) s else s in
  let s := if open l || open r
           then with_mainEarth (λ g, disperseParticles g 0.5) s else s in
  let '(m, s) :=
    if isPinching (pinch l) || isPinching (pinch r) then
      let currentPinch := if isPinching (pinch l) then distance (pinch l)
                          else distance (pinch r) in
      let s := if Qgtb (previousPinchDistance m) 0
               then handlePinchZoom currentPinch (previousPinchDistance m) s else s in
      (set_previousPinchDistance currentPinch m, s)
    else (set_previousPinchDistance 0 m, s) in
  let s := if isWaving (wave l)
           then handleWaveRotation (velocity (wave l)) (- direction (wave l)) s else s in
  let s := if isWaving (wave r)
           then handleWaveRotation (velocity (wave r)) (- direction (wave r)) s else s in
  (m, s).

(** The gestures of one hand applied to its own instance in dual mode. *)
Definition hand_controls (h : HandState) (earth : Group) : Group :=
  let earth := if grasping h then convergeParticles earth 0.8 else earth in
  let earth := if open h then disperseParticles earth 0.5 else earth in
  if isWaving (wave h)
  then set_rotation_y (rotation_y earth + velocity (wave h) * 0.15) earth
  else earth.

(** The branch of [processGestures] taken when [isDualEarthMode()] is true;
    [now] is the clock value a starting merge records. *)
Definition dual_mode (gestureState : GestureState) (now : Z)
    (ms : MainState * Earth.State) : MainState * Earth.State :=
  let '(m, s) := ms in
  let l := gs_left gestureState in
  let r := gs_right gestureState in
  let s := if detected l
           then set_leftEarth (hand_controls l <$> getLeftEarth s) s else s in
  let s := if detected r
           then set_rightEarth (hand_controls r <$> getRightEarth s) s else s in
  let s := if both_grasping (bothHands gestureState) then mergeEarths now s else s in
  let s := if negb (both_detected (bothHands gestureState)) && (detected l || detected r)
           then if (dualEarthCooldown m <=? 0)%Z then mergeEarths now s else s
           else s in
  (m, s).

(** [processGestures]. The status display and the gesture name only feed the
    HUD and are left out. *)
Definition processGestures (fr : Frame) (w : World) : option World :=
  let m := main_state w in
  '(gestureState, hh) ← getGestureState (leftHand fr) (rightHand fr)
                           (previousGestureState m) (nowLeft fr) (nowRight fr)
                           (hand_history w);
  let '(m, s) := spawn_evaluation gestureState (genLeft fr) (genRight fr)
                   (m, earth_state w) in
  let m := cooldown_tick m in
  let '(m, s) := if negb (isDualEarthMode s)
                 then single_mode gestureState (m, s)
                 else dual_mode gestureState (nowMerge fr) (m, s) in
  let m := set_previousGestureState (Some gestureState) m in
  Some {| main_state := m; earth_state := s; hand_history := hh |}.

(** The part of [animate] that touches the state, once initialised: the
    gestures, then the earth update. *)
Definition animate (fr : Frame) (w : World) : option World :=
  w ← processGestures fr w;
  Some {| main_state := main_state w;
          earth_state := updateEarth (deltaTime fr) (earth_state w);
          hand_history := hand_history w |}.

End WithMath.

End Main.

(** ** Notions used in the statements *)

Module Notions.
Import Gestures Earth Main.

(** A hand as the tracker delivers it: absent, or 21 landmarks. *)
Definition wf_hand (h : option Landmarks) : Prop :=
  match h with
  | Some l => length l = 21%nat
  | None => True
  end.

(** The first component of every particle of a flat array. *)
Fixpoint x_components (a : list Q) : list Q :=
  match a with
  | x :: _ :: _ :: rest => x :: x_components rest
  | _ => []
  end.

(** Some first component, once damped, is above the motion threshold. *)
Definition x_exceeds (damping : Q) (velocities : list Q) : bool :=
  existsb (λ vx, Qgtb (Math_abs (vx * damping)) 0.0001) (x_components velocities).

(** Arrays of the sizes the loops run over. *)
Definition wf_group (e : Group) : Prop :=
  length (positions (earthParticles (userData e))) = (3 * PARTICLE_COUNT)%nat ∧
  length (earthParticleVelocities (userData e)) = (3 * PARTICLE_COUNT)%nat ∧
  length (positions (particles (userData e))) = (3 * OUTER_COUNT)%nat ∧
  length (particleVelocities (userData e)) = (3 * OUTER_COUNT)%nat.

#[global] Instance wf_group_dec (e : Group) : Decision (wf_group e).
Proof. unfold wf_group. apply _. Defined.

(** Both particle systems of an instance sit on their base positions. *)
Definition at_rest (e : Group) : Prop :=
  Forall2 Qeq (positions (earthParticles (userData e)))
              (earthParticlePositions (userData e)) ∧
  Forall2 Qeq (positions (particles (userData e))) (particlePositions (userData e)).

(** The four arrays of an instance that the physics step works on. *)
Definition bodies (e : Group) : list Q * list Q * list Q * list Q :=
  (positions (earthParticles (userData e)), earthParticleVelocities (userData e),
   positions (particles (userData e)), particleVelocities (userData e)).

(** An instance across the earth update of one frame: when [live], its arrays
    are those of one [updateParticles]; otherwise they are untouched. *)
Definition stepped (dt : Q) (live : bool) (before after : option Group) : Prop :=
  match before with
  | Some e => ∃ e', after = Some e' ∧
                bodies e' = if live then bodies (updateParticles e dt) else bodies e
  | None => True
  end.

(** The state while a merge that began at [t0] is in flight. *)
Definition in_flight (t0 : Z) (g : Group) (s : Earth.State) : Prop :=
  pendingMerge s = Some t0 ∧ isMerging s = true ∧ isDualMode s = true ∧
  earthGroup s = Some g ∧ is_Some (leftEarth s) ∧ is_Some (rightEarth s).

(** The merge decision of the dual branch of [processGestures], from the
    gesture state and the cooldown after this frame's tick. *)
Definition merge_requested (gs : GestureState) (cooldown : Z) : bool :=
  both_grasping (bothHands gs)
  || (negb (both_detected (bothHands gs))
      && (detected (gs_left gs) || detected (gs_right gs))
      && (cooldown <=? 0)%Z).

End Notions.

(** ** Sample data *)

Module Samples.
Import Gestures Earth Main Notions.

(** A runtime for evaluating the model on concrete inputs: the square root
    truncated to six decimals. *)
Definition sqrt_6 (x : Q) : Q :=
  inject_Z (Z.sqrt (Qnum x * 10 ^ 12 / Zpos (Qden x))) / inject_Z (10 ^ 6).

Definition runtime_6 : MathRuntime := {| Math_sqrt := sqrt_6 |}.

(** A synthetic hand with the wrist at [(cx, cy)], the four finger tips at
    distance [tip] above it and every other landmark at distance [0.1]. *)
Definition hand (cx cy tip : Q) : Landmarks :=
  map (λ i : nat,
         if bool_decide (i = 0%nat) then {| px := cx; py := cy; pz := 0 |}
         else if bool_decide (i ∈ [8; 12; 16; 20]%nat)
              then {| px := cx; py := cy - tip; pz := 0 |}
              else {| px := cx; py := cy - 0.1; pz := 0 |})
      (seq 0 21).

Definition fist (cx cy : Q) : Landmarks := hand cx cy 0.1.
Definition open_hand (cx cy : Q) : Landmarks := hand cx cy 0.2.

(** A history holding one earlier sample of the left palm. *)
Definition one_sample_history : HandHistory :=
  {| hist_left := [{| sx := 0.25; sy := 0.5; time := 0 |}]; hist_right := [] |}.

Definition idle_hand : HandState :=
  {| detected := false; pinch := no_pinch; wave := no_wave;
     grasping := false; open := false |}.

Definition seen_hand : HandState :=
  {| detected := true; pinch := {| isPinching := false; distance := 0.1 |};
     wave := no_wave; grasping := false; open := true |}.

(** Gesture states of earlier frames: no hand, one hand, two hands apart. *)
Definition idle_state : GestureState :=
  {| gs_left := idle_hand; gs_right := idle_hand;
     bothHands := {| both_detected := false; sameLocation := false; spreading := false;
                     converging := false; both_grasping := false |};
     handsDistance := 0; spreadDelta := 0; convergeDelta := 0 |}.

Definition one_hand_seen : GestureState :=
  {| gs_left := seen_hand; gs_right := idle_hand;
     bothHands := {| both_detected := false; sameLocation := false; spreading := false;
                     converging := false; both_grasping := false |};
     handsDistance := 0; spreadDelta := 0; convergeDelta := 0 |}.

Definition two_hands_seen : GestureState :=
  {| gs_left := seen_hand; gs_right := seen_hand;
     bothHands := {| both_detected := true; sameLocation := false; spreading := false;
                     converging := false; both_grasping := false |};
     handsDistance := 0.4; spreadDelta := 0; convergeDelta := 0 |}.

Definition generated_sample : Generated :=
  {| gen_earth := replicate (PARTICLE_COUNT * 3) 0.5;
     gen_outer := replicate (OUTER_COUNT * 3) 0.75 |}.

(** The state after [initEarth]. *)
Definition single_state : Earth.State := initEarth generated_sample state_init.

(** Dual mode entered from [single_state], with the cooldown run down. *)
Definition dual_state : Earth.State :=
  spawnDualEarths generated_sample generated_sample single_state.

Definition dual_world : World :=
  {| main_state := main_init; earth_state := dual_state;
     hand_history := handHistory_init |}.

Definition frame (l r : option Landmarks) (now : Z) : Frame :=
  {| leftHand := l; rightHand := r; nowLeft := now; nowRight := now; nowMerge := now;
     genLeft := generated_sample; genRight := generated_sample; deltaTime := 0.016 |}.

(** A frame in which only the left hand is seen, open. *)
Definition open_left_frame : Frame := frame (Some (open_hand 0.5 0.5)) None 100.

End Samples.

(** ** The rest of the program *)

(** *** gestures.js: the label shown for a gesture state *)

Module Display.
Import Gestures.

(** [getGestureName]. *)
Definition getGestureName (gestureState : GestureState) : string :=
  if both_grasping (bothHands gestureState) then "CLASPED - MERGE"
  else if grasping (gs_left gestureState) || grasping (gs_right gestureState)
  then "FIST - CONVERGE"
  else if open (gs_left gestureState) || open (gs_right gestureState)
  then "OPEN - DISPERSE"
  else if both_detected (bothHands gestureState) then "DUAL EARTH MODE"
  else if isPinching (pinch (gs_left gestureState))
          || isPinching (pinch (gs_right gestureState))
  then "PINCH - ZOOM"
  else if isWaving (wave (gs_left gestureState)) || isWaving (wave (gs_right gestureState))
  then "WAVE - ROTATE"
  else if detected (gs_left gestureState) || detected (gs_right gestureState)
  then "HAND DETECTED"
  else "AWAITING INPUT".

End Display.

(** *** mediapipe.js: the hands of the latest tracking result *)

Module MediaPipe.
Import Gestures.

(** The part of [latestHandResults] that is read: the landmark sets, absent
    when the tracker reports none, and the [label] of each entry of
    [multiHandedness]. *)
Record HandResults := {
  multiHandLandmarks : option (list Landmarks);
  multiHandedness : list string
}.

(** [multiHandedness[index]?.label || 'Unknown']: a missing entry and an empty
    label both give ['Unknown']. *)
Definition label_or_unknown (entry : option string) : string :=
  match entry with
  | Some label => if String.eqb label "" then "Unknown" else label
  | None => "Unknown"
  end.

(** An element of the array returned by [getHands]. *)
Record Hand := { landmarks : Landmarks; handedness : string }.

(** [getHands]; the label is mirrored for the selfie view. *)
Definition getHands (latestHandResults : option HandResults) : list Hand :=
  match latestHandResults with
  | None => []
  | Some results =>
    match multiHandLandmarks results with
    | None => []
    | Some sets =>
      imap (λ index landmarks,
              let handedness := label_or_unknown (multiHandedness results !! index) in
              {| landmarks := landmarks;
                 handedness := if String.eqb handedness "Left" then "Right" else "Left" |})
           sets
    end
  end.

(** [getHand]: the first hand of that mirrored handedness, or [null]. *)
Definition getHand (handType : string) (latestHandResults : option HandResults)
    : option Landmarks :=
  (λ found, landmarks (snd found))
    <$> list_find (λ h, handedness h = handType) (getHands latestHandResults).

End MediaPipe.

(** *** earth.js: the mouse handlers of [setupMouseControls] *)

Module Controls.
Import Earth.

(** [isDragging] and [lastMousePos]. *)
Record Mouse := { isDragging : bool; lastMousePos : Q * Q }.

Definition mouse_init : Mouse := {| isDragging := false; lastMousePos := (0, 0) |}.

(** The events the canvas listens to, with the fields that are read. *)
Inductive MouseEvent :=
| mousedown (clientX clientY : Q)
| mousemove (clientX clientY : Q)
| mouseup
| mouseleave
| wheel (deltaY : Q).

Definition set_earthRotation_x (r : Q) (s : State) : State :=
  {| earthGroup := earthGroup s; leftEarth := leftEarth s; rightEarth := rightEarth s;
     isDualMode := isDualMode s; isMerging := isMerging s;
     earthRotation_x := r; earthRotation_y := earthRotation_y s;
     earthScale := earthScale s; targetScale := targetScale s;
     scene := scene s; pendingMerge := pendingMerge s |}.

(** The five listeners, as one handler on the mouse state and the module
    state. *)
Definition on_mouse (e : MouseEvent) (ms : Mouse * State) : Mouse * State :=
  let '(m, s) := ms in
  match e with
  | mousedown clientX clientY =>
    ({| isDragging := true; lastMousePos := (clientX, clientY) |}, s)
  | mousemove clientX clientY =>
    if negb (isDragging m) then (m, s)
    else
      let deltaX := clientX - fst (lastMousePos m) in
      let deltaY := clientY - snd (lastMousePos m) in
      let s := set_earthRotation_y (earthRotation_y s + deltaX * 0.005) s in
      let s := set_earthRotation_x (earthRotation_x s + deltaY * 0.005) s in
      ({| isDragging := isDragging m; lastMousePos := (clientX, clientY) |}, s)
  | mouseup => ({| isDragging := false; lastMousePos := lastMousePos m |}, s)
  | mouseleave => ({| isDragging := false; lastMousePos := lastMousePos m |}, s)
  | wheel deltaY => (m, set_targetScale (clamp_scale (targetScale s + deltaY * -0.001)) s)
  end.

End Controls.

(** *** hud.js: the smoothed position of the HUD *)

Module Hud.
Import Gestures.

Definition HUD_OFFSET_X : Q := 0.3.
Definition SMOOTHING : Q := 0.1.

(** The position of [hudGroup], once [createHUD3D] has made it, and
    [currentHUDPosition]. *)
Record HudState := { hudGroup : option Point; currentHUDPosition : Point }.

Definition hud_init : HudState :=
  {| hudGroup := None; currentHUDPosition := {| px := 0; py := 0; pz := -2 |} |}.

(** [createHUD3D], as far as the position goes: a new group at the origin. *)
Definition createHUD3D (h : HudState) : HudState :=
  {| hudGroup := Some {| px := 0; py := 0; pz := 0 |};
     currentHUDPosition := currentHUDPosition h |}.

(** The target of the smoothing for a face position. *)
Definition hud_target (facePosition : Point) : Point :=
  {| px := ((1 - px facePosition) - 0.5) * 4 + HUD_OFFSET_X;
     py := (0.5 - py facePosition) * 3;
     pz := -2 + (pz facePosition * 2) |}.

(** [updateHUDPosition] (the orientation set by [lookAt] is left out). *)
Definition updateHUDPosition (facePosition : option Point) (h : HudState) : HudState :=
  match hudGroup h with
  | None => h
  | Some _ =>
    let current :=
      match facePosition with
      | Some f =>
        let c := currentHUDPosition h in
        let t := hud_target f in
        {| px := px c + (px t - px c) * SMOOTHING;
           py := py c + (py t - py c) * SMOOTHING;
           pz := pz c + (pz t - pz c) * SMOOTHING |}
      | None => currentHUDPosition h
      end in
    {| hudGroup := Some current; currentHUDPosition := current |}
  end.

End Hud.

(** *** The callbacks the browser runs *)

Module Runtime.
Import Gestures Earth Main Controls.

(** The state a session carries: the world of the frame logic and the mouse. *)
Record Session := { world : World; mouse : Mouse }.

(** One callback: a display frame running [animate], a run of the pending
    [mergeAnimation], or a mouse event on the canvas. *)
Inductive Event :=
| frame_event (fr : Frame)
| merge_tick (now : Z)
| mouse_event (e : MouseEvent).

Definition set_earth_state (s : Earth.State) (w : World) : World :=
  {| main_state := main_state w; earth_state := s; hand_history := hand_history w |}.

(** The session after [init]: [initEarth] has run on the arrays [g]. *)
Definition session_init (g : Generated) : Session :=
  {| world := {| main_state := main_init; earth_state := initEarth g state_init;
                 hand_history := handHistory_init |};
     mouse := mouse_init |}.

Section WithMath.
Context {M : MathRuntime}.

Definition handle (ev : Event) (ss : Session) : option Session :=
  match ev with
  | frame_event fr =>
    w ← animate fr (world ss);
    Some {| world := w; mouse := mouse ss |}
  | merge_tick now =>
    Some {| world := set_earth_state (mergeAnimation now (earth_state (world ss))) (world ss);
            mouse := mouse ss |}
  | mouse_event e =>
    let '(m, s) := on_mouse e (mouse ss, earth_state (world ss)) in
    Some {| world := set_earth_state s (world ss); mouse := m |}
  end.

(** The callbacks run one after the other; an exception ends the run. *)
Fixpoint run (events : list Event) (ss : Session) : option Session :=
  match events with
  | [] => Some ss
  | ev :: rest => ss' ← handle ev ss; run rest ss'
  end.

End WithMath.

End Runtime.

(** *** Notions of the further statements *)

Module Invariants.
Import Gestures Earth Main Notions Controls Runtime.

(** The arrays [createEarthParticleSystem] and [createOuterParticleSystem]
    return have the sizes they are allocated with. *)
Definition wf_generated (g : Generated) : Prop :=
  length (gen_earth g) = (3 * PARTICLE_COUNT)%nat ∧
  length (gen_outer g) = (3 * OUTER_COUNT)%nat.

(** All six arrays of an instance have the sizes of their loops. *)
Definition wf_instance (e : Group) : Prop :=
  wf_group e ∧
  length (earthParticlePositions (userData e)) = (3 * PARTICLE_COUNT)%nat ∧
  length (particlePositions (userData e)) = (3 * OUTER_COUNT)%nat.

(** The frames of a run carry hands of 21 landmarks and arrays of the
    allocated sizes. *)
Definition wf_frame (fr : Frame) : Prop :=
  wf_hand (leftHand fr) ∧ wf_hand (rightHand fr) ∧
  wf_generated (genLeft fr) ∧ wf_generated (genRight fr).

Definition wf_event (ev : Event) : Prop :=
  match ev with
  | frame_event fr => wf_frame fr
  | _ => True
  end.

(** The flags, the instances, the pending callback and the scene agree. *)
Definition lifecycle_consistent (s : Earth.State) : Prop :=
  (∃ g, earthGroup s = Some g ∧ visible g = negb (isDualMode s)) ∧
  (isMerging s = true → isDualMode s = true) ∧
  (is_Some (pendingMerge s) ↔ isMerging s = true) ∧
  (is_Some (leftEarth s) ↔ isDualMode s = true) ∧
  (is_Some (rightEarth s) ↔ isDualMode s = true) ∧
  scene s = "mainEarth" :: (if isDualMode s then ["leftEarth"; "rightEarth"] else []).

Definition scales_in_range (s : Earth.State) : Prop :=
  0.3 <= targetScale s ∧ targetScale s <= 2 ∧ 0.3 <= earthScale s ∧ earthScale s <= 2.

Definition history_bounded (hh : HandHistory) : Prop :=
  (length (hist_left hh) <= 5)%nat ∧ (length (hist_right hh) <= 5)%nat.

Definition instances_wf (s : Earth.State) : Prop :=
  ∀ e, earthGroup s = Some e ∨ leftEarth s = Some e ∨ rightEarth s = Some e → wf_instance e.

(** A change inside an instance that keeps its visibility and the sizes of
    its arrays, and a change of a state that keeps the flags, the scene and
    the pending callback, changes instances only in that way, and keeps the
    scales in range. *)
Definition instance_kept (g g' : Group) : Prop :=
  visible g' = visible g ∧ (wf_instance g → wf_instance g').

Definition state_kept (s s' : Earth.State) : Prop :=
  isDualMode s' = isDualMode s ∧ isMerging s' = isMerging s ∧
  scene s' = scene s ∧ pendingMerge s' = pendingMerge s ∧
  option_Forall2 instance_kept (earthGroup s) (earthGroup s') ∧
  option_Forall2 instance_kept (leftEarth s) (leftEarth s') ∧
  option_Forall2 instance_kept (rightEarth s) (rightEarth s') ∧
  (scales_in_range s → scales_in_range s').

(** A state of earth.js as the callbacks keep it, and a session with the
    cooldown and the hand histories in their ranges. *)
Definition state_ok (s : Earth.State) : Prop :=
  lifecycle_consistent s ∧ scales_in_range s ∧ instances_wf s.

Definition session_ok (ss : Session) : Prop :=
  state_ok (earth_state (world ss)) ∧
  (0 <= dualEarthCooldown (main_state (world ss)) <= 90)%Z ∧
  history_bounded (hand_history (world ss)).

(** Component [c] of the velocity of particle [k] after a dispersing kick:
    pushed along the position vector of the particle, unless the length of
    that vector is not positive. *)
Definition kicked {M : MathRuntime} (gain intensity : Q) (positions velocities : list Q)
    (k c : nat) : Q :=
  let x := rd positions (3 * k) in
  let y := rd positions (3 * k + 1) in
  let z := rd positions (3 * k + 2) in
  let len := Math_sqrt (x * x + y * y + z * z) in
  if Qgtb len 0
  then rd velocities (3 * k + c) + (rd positions (3 * k + c) / len) * intensity * gain
  else rd velocities (3 * k + c).

(** Every entry of an array is zero. *)
Definition all_zero (a : list Q) : Prop := Forall (λ v, v == 0) a.

(** A frame event whose hands are not a pair grasp. *)
Definition no_pair_grasp {M : MathRuntime} (ev : Event) : Prop :=
  match ev with
  | frame_event fr => detectGrasp (leftHand fr) (rightHand fr) = Some false
  | _ => True
  end.

Definition is_frame (ev : Event) : bool :=
  match ev with frame_event _ => true | _ => false end.

(** A run of the pending merge callback before the merge that began at [t0]
    is due. *)
Definition before_due (t0 : Z) (ev : Event) : Prop :=
  match ev with
  | merge_tick now => (now < t0 + 1000)%Z
  | _ => True
  end.

End Invariants.


(** *** Sample sessions *)

Module MoreSamples.
Import Gestures Earth Main Controls Runtime Samples.

(** The session at the end of the frame in which two hands made the dual
    earths appear: the cooldown stands at 89. *)
Definition spawned_session : Session :=
  {| world := {| main_state := set_cooldown 89 main_init; earth_state := dual_state;
                 hand_history := handHistory_init |};
     mouse := mouse_init |}.

(** A session in which a merge has begun at clock value 0. *)
Definition merging_session : Session :=
  {| world := {| main_state := main_init; earth_state := mergeEarths 0 dual_state;
                 hand_history := handHistory_init |};
     mouse := mouse_init |}.

(** Generated arrays whose outer cloud has every particle on the [y] axis at
    radius 0.8, which [createOuterParticleSystem] gives for the draws
    [theta = pi / 2], [phi = pi / 2] and radius [0.7 + 0.1]; the globe is
    that of [generated_sample]. *)
Definition y_cloud : Generated :=
  {| gen_earth := gen_earth generated_sample;
     gen_outer := map (λ i : nat, if bool_decide (i mod 3 = 1)%nat then 0.8 else 0)
                      (seq 0 (OUTER_COUNT * 3)) |}.

(** The instance made from these arrays after the [disperseParticles] of a
    frame with an open hand, and after the [updateParticles] of that frame. *)
Definition y_dispersed : Group :=
  disperseParticles (M := runtime_6) (createEarthInstance y_cloud) 0.5.

Definition y_moved : Group := updateParticles y_dispersed 0.016.

End MoreSamples.

(** * Properties *)

Import Gestures Earth Main Notions Samples.

(** ** Numbers *)

Lemma Qltb_lt (x y : Q) : Qltb x y = true <-> x < y.
Proof.
  unfold Qltb. rewrite negb_true_iff. split; intros H.
  - apply Qnot_le_lt. intros Hle. apply Qle_bool_iff in Hle. congruence.
  - destruct (Qle_bool y x) eqn:E; [|done]. apply Qle_bool_iff in E. lra.
Qed.

Lemma num_or_zero (d : Q) : num_or d 0 == d.
Proof.
  unfold num_or. destruct (Qeq_bool d 0) eqn:E; [|reflexivity].
  apply Qeq_bool_iff in E. symmetry. exact E.
Qed.

(** Dividing by a positive number keeps the sign. *)
Lemma Math_sign_div (a t : Q) : 0 < t -> Math_sign (a / t) = Math_sign a.
Proof.
  intros Ht. unfold Math_sign. f_equal.
  destruct t as [tn td]. unfold Qlt in Ht. simpl in Ht.
  destruct tn as [|p|p]; try lia.
  unfold Qdiv, Qinv, Qmult. simpl. destruct (Qnum a); simpl; lia.
Qed.

Lemma Math_abs_div (a t : Q) : 0 < t -> Math_abs (a / t) == Math_abs a / t.
Proof.
  intros Ht. unfold Math_abs, Qdiv. rewrite Qabs_Qmult.
  rewrite (Qabs_pos (/ t)); [reflexivity|]. apply Qlt_le_weak, Qinv_lt_0_compat, Ht.
Qed.

Lemma Math_min_cases (x y : Q) :
  (x <= y /\ Math_min x y == x) \/ (y <= x /\ Math_min x y == y).
Proof.
  unfold Math_min. destruct (Q.min_spec x y) as [[H E]|[H E]]; [left|right]; split;
    auto using Qlt_le_weak.
Qed.

Lemma Math_max_cases (x y : Q) :
  (x <= y /\ Math_max x y == y) \/ (y <= x /\ Math_max x y == x).
Proof.
  unfold Math_max. destruct (Q.max_spec x y) as [[H E]|[H E]]; [left|right]; split;
    auto using Qlt_le_weak.
Qed.

(** [timeDelta < 0.01] seconds is an elapsed time below 10 milliseconds. *)
Lemma timeDelta_small (e : Z) : Qltb (inject_Z e / 1000) 0.01 = (e <? 10)%Z.
Proof.
  apply eq_true_iff_eq. rewrite Qltb_lt, Z.ltb_lt.
  unfold Qlt, Qdiv. simpl. lia.
Qed.

(** ** The hand history *)

Lemma shift_excess_drop (fuel : nat) (h : list Sample) :
  (length h - 5 <= fuel)%nat -> shift_excess fuel h = drop (length h - 5) h.
Proof.
  revert h. induction fuel as [|fuel IH]; intros h Hf; simpl.
  - replace (length h - 5)%nat with 0%nat by lia. done.
  - unfold HISTORY_LENGTH. destruct (Nat.ltb_spec 5 (length h)) as [Hlt|Hge].
    + destruct h as [|x h]; [simpl in Hlt; lia|].
      cbn [tail]. cbn [length] in *. rewrite IH by lia.
      replace (S (length h) - 5)%nat with (S (length h - 5)) by lia. reflexivity.
    + replace (length h - 5)%nat with 0%nat by lia. done.
Qed.

(** After a push the retained window is never empty and ends with the pushed
    sample. *)
Lemma retained_nonempty (h : list Sample) (x : Sample) :
  let pushed := h ++ [x] in
  exists oldest, head (drop (length pushed - 5) pushed) = Some oldest /\
                 last (drop (length pushed - 5) pushed) = Some x.
Proof.
  intros pushed. subst pushed. rewrite length_app. simpl.
  rewrite drop_app_le by lia. rewrite last_snoc.
  destruct (drop (length h + 1 - 5) h) as [|y t]; simpl; eauto.
Qed.

(** ** Gesture classification *)

(** Rewrite every landmark read of [l] that is in range into its value. *)
Ltac read_landmarks l :=
  repeat match goal with
  | |- context [l !! ?i] =>
    let p := fresh "p" in
    let E := fresh "E" in
    destruct (lookup_lt_is_Some_2 l i) as [p E]; [lia|];
    rewrite !E; cbn [mbind option_bind]
  end.

Section GestureFacts.
Context {M : MathRuntime}.

Lemma getPalmCenter_is_Some (l : Landmarks) :
  (17 < length l)%nat -> is_Some (getPalmCenter l).
Proof.
  intros Hl. unfold getPalmCenter, palm_indices. cbn [foldl mbind option_bind].
  read_landmarks l. eauto.
Qed.

Lemma count_fingers_is_Some (test : Q -> Q -> bool) (l : Landmarks) checks :
  (20 < length l)%nat -> checks = grasp_checks \/ checks = open_checks ->
  is_Some (count_fingers test l checks).
Proof.
  intros Hl [-> | ->]; unfold count_fingers, grasp_checks, open_checks;
    cbn [foldl mbind option_bind]; read_landmarks l; eauto.
Qed.

Lemma isGrasping_is_Some (h : option Landmarks) : is_Some (isGrasping h).
Proof.
  destruct h as [l|]; simpl; [|eauto].
  destruct (Nat.ltb_spec (length l) 21); [eauto|].
  destruct (count_fingers_is_Some
              (λ tipToWrist baseToWrist, Qltb tipToWrist (baseToWrist * 1.2))
              l grasp_checks) as [c ->]; [lia|auto|]. simpl. eauto.
Qed.

Lemma isOpenHand_is_Some (h : option Landmarks) : is_Some (isOpenHand h).
Proof.
  destruct h as [l|]; simpl; [|eauto].
  destruct (Nat.ltb_spec (length l) 21); [eauto|].
  destruct (count_fingers_is_Some
              (λ tipToWrist pipToWrist, Qgtb tipToWrist (pipToWrist * 1.1))
              l open_checks) as [c ->]; [lia|auto|]. simpl. eauto.
Qed.

Lemma detectPinch_is_Some (h : option Landmarks) : is_Some (detectPinch h).
Proof.
  destruct h as [l|]; simpl; [|eauto].
  destruct (Nat.ltb_spec (length l) 21); [eauto|].
  read_landmarks l. eauto.
Qed.

Lemma detectWave_is_Some (h : option Landmarks) side now hh :
  is_Some (detectWave h side now hh).
Proof.
  destruct h as [l|]; simpl; [|eauto].
  destruct (Nat.ltb_spec (length l) 21) as [|Hl]; [eauto|].
  destruct (getPalmCenter_is_Some l) as [palm ->]; [lia|]. cbn [mbind option_bind].
  set (x := {| sx := px palm; sy := py palm; time := now |}).
  rewrite shift_excess_drop by lia.
  destruct (retained_nonempty (history_get hh side) x) as (oldest & Ho & Hn).
  set (retained := drop _ _) in *.
  destruct (Nat.ltb (length retained) 2); [eauto|].
  assert (retained !! 0%nat = Some oldest) as ->.
  { destruct retained; simpl in *; congruence. }
  assert (retained !! (length retained - 1)%nat = Some x) as ->.
  { rewrite <- Hn, last_lookup. f_equal. lia. }
  cbn [mbind option_bind]. destruct (Qltb _ _); eauto.
Qed.

Lemma getHandsDistance_is_Some (l r : option Landmarks) :
  wf_hand l -> wf_hand r -> is_Some (getHandsDistance l r).
Proof.
  destruct l as [l|], r as [r|]; simpl; intros Hl Hr; eauto.
  destruct (getPalmCenter_is_Some l) as [pl ->]; [lia|].
  destruct (getPalmCenter_is_Some r) as [pr ->]; [lia|]. simpl. eauto.
Qed.

Lemma getHandsDistance_absent (l r : option Landmarks) :
  either_absent l r = true -> getHandsDistance l r = Some 0.
Proof. destruct l, r; simpl; congruence. Qed.

Lemma isSameLocation_is_Some (l r : option Landmarks) :
  wf_hand l -> wf_hand r -> is_Some (isSameLocation l r).
Proof.
  destruct l as [l|], r as [r|]; simpl; intros Hl Hr; eauto.
  destruct (getPalmCenter_is_Some l) as [pl ->]; [lia|].
  destruct (getPalmCenter_is_Some r) as [pr ->]; [lia|]. simpl. eauto.
Qed.

Lemma detectGrasp_is_Some (l r : option Landmarks) :
  wf_hand l -> wf_hand r -> is_Some (detectGrasp l r).
Proof.
  intros Hl Hr. unfold detectGrasp.
  destruct (either_absent l r); [eauto|].
  destruct (isGrasping_is_Some l) as [gl ->].
  destruct (isGrasping_is_Some r) as [gr Hgr].
  destruct (isSameLocation_is_Some l r Hl Hr) as [sp ->].
  cbn [mbind option_bind]. destruct gl; [rewrite Hgr|]; simpl; eauto.
Qed.

Lemma detectSpread_is_Some (l r : option Landmarks) prev :
  wf_hand l -> wf_hand r -> is_Some (detectSpread l r prev).
Proof.
  intros Hl Hr. unfold detectSpread.
  destruct (getHandsDistance_is_Some l r Hl Hr) as [d ->]. cbn [mbind option_bind].
  destruct (either_absent l r), prev; eauto.
Qed.

Lemma detectConverge_is_Some (l r : option Landmarks) prev :
  wf_hand l -> wf_hand r -> is_Some (detectConverge l r prev).
Proof.
  intros Hl Hr. unfold detectConverge.
  destruct (getHandsDistance_is_Some l r Hl Hr) as [d ->]. cbn [mbind option_bind].
  destruct (either_absent l r), prev; eauto.
Qed.

(** With no previous distance the two detectors report no gesture and a zero
    delta. *)
Lemma detectSpread_no_previous (l r : option Landmarks) s :
  detectSpread l r None = Some s -> isSpreading s = false /\ spread_delta s = 0.
Proof.
  unfold detectSpread. destruct (getHandsDistance l r); simpl; [|done].
  destruct (either_absent l r); intros [= <-]; done.
Qed.

Lemma detectConverge_no_previous (l r : option Landmarks) c :
  detectConverge l r None = Some c -> isConverging c = false /\ converge_delta c = 0.
Proof.
  unfold detectConverge. destruct (getHandsDistance l r); simpl; [|done].
  destruct (either_absent l r); intros [= <-]; done.
Qed.

(** The gesture state of well-formed hands exists; its detection flags say
    which hands are present and its pair fields are the detectors' results. *)
Lemma getGestureState_is_Some (l r : option Landmarks) prev nl nr hh :
  wf_hand l -> wf_hand r ->
  exists gs hh',
    getGestureState l r prev nl nr hh = Some (gs, hh') /\
    detected (gs_left gs) = bool_decide (is_Some l) /\
    detected (gs_right gs) = bool_decide (is_Some r) /\
    both_detected (bothHands gs) = negb (either_absent l r) /\
    detectGrasp l r = Some (both_grasping (bothHands gs)) /\
    getHandsDistance l r = Some (handsDistance gs) /\
    (exists s, detectSpread l r (num_or_null (prev_handsDistance prev)) = Some s /\
               spreading (bothHands gs) = isSpreading s /\
               spreadDelta gs = spread_delta s) /\
    (exists c, detectConverge l r (num_or_null (prev_handsDistance prev)) = Some c /\
               converging (bothHands gs) = isConverging c /\
               convergeDelta gs = converge_delta c).
Proof.
  intros Hl Hr. unfold getGestureState.
  destruct (detectPinch_is_Some l) as [lp ->].
  destruct (detectPinch_is_Some r) as [rp ->].
  destruct (detectWave_is_Some l left_hand nl hh) as [[lw hh1] ->].
  cbn [mbind option_bind].
  destruct (detectWave_is_Some r right_hand nr hh1) as [[rw hh2] ->].
  destruct (detectSpread_is_Some l r (num_or_null (prev_handsDistance prev)) Hl Hr)
    as [s Hs].
  destruct (detectConverge_is_Some l r (num_or_null (prev_handsDistance prev)) Hl Hr)
    as [c Hc].
  destruct (detectGrasp_is_Some l r Hl Hr) as [g ->].
  destruct (isSameLocation_is_Some l r Hl Hr) as [sl ->].
  destruct (getHandsDistance_is_Some l r Hl Hr) as [d ->].
  destruct (isGrasping_is_Some l) as [lg ->].
  destruct (isOpenHand_is_Some l) as [lo ->].
  destruct (isGrasping_is_Some r) as [rg ->].
  destruct (isOpenHand_is_Some r) as [ro ->].
  rewrite Hs, Hc.
  cbn [mbind option_bind]. eexists _, _. split; [reflexivity|]. simpl.
  repeat split; eauto.
  destruct l, r; reflexivity.
Qed.

(** C7: for a hand of 21 landmarks, [detectWave] pushes the palm sample, keeps
    the last five samples, and estimates the velocity from the oldest and the
    newest retained sample: with fewer than two samples or less than 10 ms
    between them the result is the zero, not-waving one; otherwise the
    direction is the sign of [newest.x - oldest.x], the velocity is
    [|newest.x - oldest.x|] divided by the elapsed seconds, and [isWaving]
    holds exactly when that velocity is above 0.02. *)
Theorem detectWave_estimate (l : Landmarks) (side : HandType) (now : Z) (hh : HandHistory) :
  length l = 21%nat ->
  exists palm w oldest newest,
    getPalmCenter l = Some palm /\
    let pushed := history_get hh side
                  ++ [{| sx := px palm; sy := py palm; time := now |}] in
    let retained := drop (length pushed - 5) pushed in
    detectWave (Some l) side now hh = Some (w, history_set hh side retained) /\
    head retained = Some oldest /\ last retained = Some newest /\
    let elapsed := (time newest - time oldest)%Z in
    if Nat.ltb (length retained) 2 || (elapsed <? 10)%Z then w = no_wave
    else direction w = Math_sign (sx newest - sx oldest) /\
         velocity w == Math_abs (sx newest - sx oldest) / (inject_Z elapsed / 1000) /\
         (isWaving w = true <-> 0.02 < velocity w).
Proof.
  intros Hl.
  destruct (getPalmCenter_is_Some l) as [palm Hp]; [lia|].
  set (x := {| sx := px palm; sy := py palm; time := now |}).
  destruct (retained_nonempty (history_get hh side) x) as (oldest & Ho & Hn).
  unfold detectWave. rewrite Hl. change (Nat.ltb 21 21) with false. cbv iota. rewrite Hp.
  cbn [mbind option_bind]. fold x.
  rewrite shift_excess_drop by lia.
  set (retained := drop _ _) in *.
  destruct (Nat.ltb (length retained) 2) eqn:Elen.
  { exists palm, no_wave, oldest, x. cbn zeta. fold x. fold retained.
    rewrite Elen. simpl. done. }
  assert (Hold : retained !! 0%nat = Some oldest).
  { destruct retained; simpl in *; congruence. }
  assert (Hnew : retained !! (length retained - 1)%nat = Some x).
  { rewrite <- Hn. rewrite last_lookup. f_equal. lia. }
  rewrite Hold, Hnew. cbn [mbind option_bind].
  rewrite timeDelta_small.
  destruct (time x - time oldest <? 10)%Z eqn:Et.
  { exists palm, no_wave, oldest, x. cbn zeta. fold x. fold retained.
    rewrite Elen, Et. simpl. done. }
  assert (Hpos : 0 < inject_Z (time x - time oldest) / 1000).
  { apply Z.ltb_ge in Et. apply Qlt_shift_div_l; [reflexivity|].
    rewrite Qmult_0_l. change 0 with (inject_Z 0). rewrite <- Zlt_Qlt. lia. }
  eexists palm, _, oldest, x. cbn zeta. fold x. fold retained.
  split; [done|]. split; [reflexivity|]. split; [done|]. split; [done|].
  rewrite Elen, Et. cbn [orb direction velocity isWaving].
  split; [apply Math_sign_div, Hpos|].
  split; [apply Math_abs_div, Hpos|].
  unfold Qgtb, WAVE_VELOCITY_THRESHOLD. apply Qltb_lt.
Qed.

(** C8: for two hands of 21 landmarks, [detectGrasp] answers, and its answer
    is true exactly when [isGrasping] is true of the left hand, true of the
    right hand, and the 2D distance of the two palm centres is below 0.12. *)
Theorem detectGrasp_iff (l r : Landmarks) :
  length l = 21%nat -> length r = 21%nat ->
  exists graspLeft graspRight leftPalm rightPalm pairGrasp,
    isGrasping (Some l) = Some graspLeft /\
    isGrasping (Some r) = Some graspRight /\
    getPalmCenter l = Some leftPalm /\
    getPalmCenter r = Some rightPalm /\
    detectGrasp (Some l) (Some r) = Some pairGrasp /\
    (pairGrasp = true <->
     graspLeft = true /\ graspRight = true /\ distance2D leftPalm rightPalm < 0.12).
Proof.
  intros Hl Hr.
  destruct (isGrasping_is_Some (Some l)) as [gl Hgl].
  destruct (isGrasping_is_Some (Some r)) as [gr Hgr].
  destruct (getPalmCenter_is_Some l) as [pl Hpl]; [lia|].
  destruct (getPalmCenter_is_Some r) as [pr Hpr]; [lia|].
  exists gl, gr, pl, pr.
  exists (gl && gr && Qltb (distance2D pl pr) SAME_LOCATION_THRESHOLD).
  repeat (split; [done|]). split.
  - unfold detectGrasp, isSameLocation. cbn [either_absent].
    rewrite Hgl, Hpl, Hpr. cbn [mbind option_bind].
    destruct gl; [rewrite Hgr|]; reflexivity.
  - rewrite !andb_true_iff, Qltb_lt. unfold SAME_LOCATION_THRESHOLD. tauto.
Qed.

(** C10: a previous state whose [handsDistance] is 0 gives the same result as
    no previous state at all; for well-formed hands that result exists and
    has [spreading] and [converging] false and both deltas 0, and the
    distance it reports is 0 whenever a hand is absent. *)
Theorem zero_previous_distance (l r : option Landmarks) (previous : GestureState)
    (nowLeft nowRight : Z) (hh : HandHistory) :
  wf_hand l -> wf_hand r -> handsDistance previous == 0 ->
  getGestureState l r (Some previous) nowLeft nowRight hh
    = getGestureState l r None nowLeft nowRight hh /\
  exists gs hh',
    getGestureState l r (Some previous) nowLeft nowRight hh = Some (gs, hh') /\
    spreading (bothHands gs) = false /\
    converging (bothHands gs) = false /\
    spreadDelta gs = 0 /\
    convergeDelta gs = 0 /\
    (either_absent l r = true -> handsDistance gs = 0).
Proof.
  intros Hl Hr Hz.
  assert (Hnull : num_or_null (prev_handsDistance (Some previous)) = None).
  { simpl. apply Qeq_bool_iff in Hz. rewrite Hz. done. }
  split.
  { unfold getGestureState. rewrite Hnull. reflexivity. }
  destruct (getGestureState_is_Some l r (Some previous) nowLeft nowRight hh Hl Hr)
    as (gs & hh' & Hgs & _ & _ & _ & _ & Hd & (s & Hs & Hs1 & Hs2) & (c & Hc & Hc1 & Hc2)).
  rewrite Hnull in Hs, Hc.
  apply detectSpread_no_previous in Hs as [Hs3 Hs4].
  apply detectConverge_no_previous in Hc as [Hc3 Hc4].
  exists gs, hh'. repeat split; try congruence.
  intros Ha. rewrite (getHandsDistance_absent l r Ha) in Hd. congruence.
Qed.

(** C4, as amended: the gesture state and the history after the call are
    determined by the two landmark sets, the previous hands distance, the
    history before the call and the two clock values read while the palm
    samples are recorded; nothing else of the previous state matters. *)
Theorem getGestureState_inputs (l r : option Landmarks) (prev1 prev2 : option GestureState)
    (nowLeft nowRight : Z) (hh : HandHistory) :
  prev_handsDistance prev1 = prev_handsDistance prev2 ->
  getGestureState l r prev1 nowLeft nowRight hh
    = getGestureState l r prev2 nowLeft nowRight hh.
Proof. intros H. unfold getGestureState. rewrite H. reflexivity. Qed.

End GestureFacts.

Lemma detectWave_estimate_witness :
  length (open_hand 0.5 0.5) = 21%nat /\
  exists w hh',
    detectWave (Some (open_hand 0.5 0.5)) left_hand 100 one_sample_history = Some (w, hh') /\
    length (hist_left hh') = 2%nat /\
    direction w = 1 /\ velocity w == 2.5 /\ isWaving w = true.
Proof.
  split; [reflexivity|].
  destruct (detectWave_estimate (open_hand 0.5 0.5) left_hand 100
              one_sample_history eq_refl)
    as (palm & w & oldest & newest & Hp & Hw & Ho & Hn & Hest).
  vm_compute in Hp. injection Hp as <-.
  vm_compute in Ho. injection Ho as <-.
  vm_compute in Hn. injection Hn as <-.
  cbv zeta in Hest. cbn [time sx] in Hest.
  change (Nat.ltb _ 2 || (100 - 0 <? 10)%Z) with false in Hest.
  destruct Hest as (Hd & Hv & Hi).
  exists w. eexists. split; [exact Hw|]. split; [reflexivity|].
  split; [exact Hd|]. split; [rewrite Hv; reflexivity|].
  apply Hi. rewrite Hv. reflexivity.
Defined.

Lemma detectGrasp_iff_witness :
  length (fist 0.5 0.5) = 21%nat /\ length (fist 0.55 0.5) = 21%nat /\
  detectGrasp (M := runtime_6) (Some (fist 0.5 0.5)) (Some (fist 0.55 0.5)) = Some true.
Proof.
  split; [reflexivity|]. split; [reflexivity|].
  destruct (detectGrasp_iff (M := runtime_6) (fist 0.5 0.5) (fist 0.55 0.5) eq_refl eq_refl)
    as (gl & gr & pl & pr & b & Hgl & Hgr & Hpl & Hpr & Hb & Hiff).
  rewrite Hb. f_equal. apply Hiff.
  vm_compute in Hgl. injection Hgl as <-.
  vm_compute in Hgr. injection Hgr as <-.
  vm_compute in Hpl. injection Hpl as <-.
  vm_compute in Hpr. injection Hpr as <-.
  split; [reflexivity|]. split; [reflexivity|]. vm_compute. reflexivity.
Defined.

Lemma zero_previous_distance_witness :
  wf_hand (Some (open_hand 0.2 0.5)) /\ wf_hand (Some (open_hand 0.8 0.5)) /\
  handsDistance idle_state == 0 /\
  exists gs hh',
    getGestureState (M := runtime_6) (Some (open_hand 0.2 0.5)) (Some (open_hand 0.8 0.5))
      (Some idle_state) 100 100 handHistory_init = Some (gs, hh') /\
    spreading (bothHands gs) = false /\ spreadDelta gs = 0.
Proof.
  split; [reflexivity|]. split; [reflexivity|]. split; [reflexivity|].
  destruct (zero_previous_distance (M := runtime_6) (Some (open_hand 0.2 0.5))
              (Some (open_hand 0.8 0.5)) idle_state 100 100 handHistory_init
              eq_refl eq_refl (Qeq_refl 0))
    as (_ & gs & hh' & Hgs & Hs & _ & Hd & _).
  exists gs, hh'. auto.
Defined.

Lemma getGestureState_inputs_witness :
  prev_handsDistance (Some idle_state) = prev_handsDistance (Some one_hand_seen) /\
  getGestureState (M := runtime_6) (Some (fist 0.5 0.5)) None (Some idle_state)
    100 100 one_sample_history
  = getGestureState (M := runtime_6) (Some (fist 0.5 0.5)) None (Some one_hand_seen)
      100 100 one_sample_history.
Proof.
  split; [reflexivity|].
  exact (getGestureState_inputs (M := runtime_6) (Some (fist 0.5 0.5)) None
           (Some idle_state) (Some one_hand_seen) 100 100 one_sample_history eq_refl).
Defined.

(** C4, as stated, fails: the same hand, the same previous state and the same
    history give a waving hand when the clock reads 100 ms and a hand that is
    not waving when it reads 20 s. *)
Lemma clock_changes_gesture_state :
  (λ res, isWaving (wave (gs_left (fst res))))
    <$> getGestureState (M := runtime_6) (Some (open_hand 0.5 0.5)) None None
          100 100 one_sample_history = Some true /\
  (λ res, isWaving (wave (gs_left (fst res))))
    <$> getGestureState (M := runtime_6) (Some (open_hand 0.5 0.5)) None None
          20000 20000 one_sample_history = Some false.
Proof. split; vm_compute; reflexivity. Qed.

(** ** Particle bodies *)

(** *** Reads and writes inside one particle's triple *)

Section Triple.
Variables (pre rest : list Q) (a b c : Q) (i : nat).
Hypothesis Hpre : length pre = i.

Lemma rd_triple_0 : rd (pre ++ a :: b :: c :: rest) i = a.
Proof using Hpre. unfold rd. subst i. rewrite list_lookup_middle; done. Qed.

Lemma rd_triple_1 : rd (pre ++ a :: b :: c :: rest) (i + 1) = b.
Proof using Hpre.
  unfold rd. subst i. rewrite lookup_app_r by lia.
  replace (length pre + 1 - length pre)%nat with 1%nat by lia. done.
Qed.

Lemma rd_triple_2 : rd (pre ++ a :: b :: c :: rest) (i + 2) = c.
Proof using Hpre.
  unfold rd. subst i. rewrite lookup_app_r by lia.
  replace (length pre + 2 - length pre)%nat with 2%nat by lia. done.
Qed.

Lemma insert_triple_0 x :
  <[i := x]> (pre ++ a :: b :: c :: rest) = pre ++ x :: b :: c :: rest.
Proof using Hpre. subst i. rewrite insert_app_r_alt by lia. rewrite Nat.sub_diag. done. Qed.

Lemma insert_triple_1 x :
  <[(i + 1)%nat := x]> (pre ++ a :: b :: c :: rest) = pre ++ a :: x :: c :: rest.
Proof using Hpre.
  subst i. rewrite insert_app_r_alt by lia.
  replace (length pre + 1 - length pre)%nat with 1%nat by lia. done.
Qed.

Lemma insert_triple_2 x :
  <[(i + 2)%nat := x]> (pre ++ a :: b :: c :: rest) = pre ++ a :: b :: x :: rest.
Proof using Hpre.
  subst i. rewrite insert_app_r_alt by lia.
  replace (length pre + 2 - length pre)%nat with 2%nat by lia. done.
Qed.

End Triple.

Ltac triple H :=
  repeat first
    [ rewrite (rd_triple_0 _ _ _ _ _ _ H)
    | rewrite (rd_triple_1 _ _ _ _ _ _ H)
    | rewrite (rd_triple_2 _ _ _ _ _ _ H)
    | rewrite (insert_triple_0 _ _ _ _ _ _ H)
    | rewrite (insert_triple_1 _ _ _ _ _ _ H)
    | rewrite (insert_triple_2 _ _ _ _ _ _ H) ].

(** *** The integration loop *)

Lemma integrate_body_triple d i pre_p pre_v p0 p1 p2 v0 v1 v2 pos vel acc :
  length pre_p = i -> length pre_v = i ->
  integrate_body d i (pre_p ++ p0 :: p1 :: p2 :: pos, pre_v ++ v0 :: v1 :: v2 :: vel, acc)
  = (pre_p ++ (p0 + v0) :: (p1 + v1) :: (p2 + v2) :: pos,
     pre_v ++ (v0 * d) :: (v1 * d) :: (v2 * d) :: vel,
     Qgtb (Math_abs (v0 * d)) 0.0001 || acc).
Proof.
  intros Hp Hv. unfold integrate_body. cbv zeta.
  triple Hp. triple Hv. triple Hp. triple Hv.
  destruct (Qgtb _ _); done.
Qed.

Lemma integrate_from (d : Q) (n : nat) :
  forall (start : nat) (pre_p pre_v pos vel : list Q) (acc : bool),
    length pre_p = (3 * start)%nat -> length pre_v = (3 * start)%nat ->
    length pos = (3 * n)%nat -> length vel = (3 * n)%nat ->
    foldl (λ s k, integrate_body d (3 * k) s) (pre_p ++ pos, pre_v ++ vel, acc) (seq start n)
    = (pre_p ++ zip_with Qplus pos vel,
       pre_v ++ map (λ v, v * d) vel,
       x_exceeds d vel || acc).
Proof.
  unfold x_exceeds.
  induction n as [|n IH]; intros start pre_p pre_v pos vel acc Hp Hv Hpos Hvel.
  - destruct pos, vel; try discriminate. done.
  - destruct pos as [|p0 [|p1 [|p2 pos]]]; try (simpl in Hpos; lia).
    destruct vel as [|v0 [|v1 [|v2 vel]]]; try (simpl in Hvel; lia).
    cbn [seq foldl].
    rewrite integrate_body_triple by done.
    replace (pre_p ++ (p0 + v0) :: (p1 + v1) :: (p2 + v2) :: pos)
      with ((pre_p ++ [p0 + v0; p1 + v1; p2 + v2]) ++ pos) by (rewrite <- app_assoc; done).
    replace (pre_v ++ (v0 * d) :: (v1 * d) :: (v2 * d) :: vel)
      with ((pre_v ++ [v0 * d; v1 * d; v2 * d]) ++ vel) by (rewrite <- app_assoc; done).
    rewrite IH; [|rewrite length_app; simpl; lia|rewrite length_app; simpl; lia
                 |simpl in Hpos; lia|simpl in Hvel; lia].
    rewrite <- !app_assoc. cbn [app zip_with map x_components existsb].
    f_equal. rewrite orb_assoc, (orb_comm (existsb _ _)). done.
Qed.

(** On arrays of the loop's size the integration loop adds each velocity to
    its position, damps every velocity, and reports motion from the first
    component of each particle alone. *)
Lemma integrate_loop_pointwise (n : nat) (d : Q) (pos vel : list Q) :
  length pos = (3 * n)%nat -> length vel = (3 * n)%nat ->
  integrate_loop n d pos vel
  = (zip_with Qplus pos vel, map (λ v, v * d) vel, x_exceeds d vel).
Proof.
  intros Hp Hv. unfold integrate_loop, for_step3.
  pose proof (integrate_from d n 0 [] [] pos vel false eq_refl eq_refl Hp Hv) as H.
  cbn [app] in H. rewrite H, orb_false_r. done.
Qed.

(** *** The convergence loop at rest *)

Lemma rd_Qeq (a b : list Q) i : Forall2 Qeq a b -> rd a i == rd b i.
Proof.
  intros H. unfold rd.
  destruct (a !! i) as [x|] eqn:Ea.
  - destruct (Forall2_lookup_l _ _ _ _ _ H Ea) as (y & -> & Hxy). done.
  - apply lookup_ge_None in Ea. rewrite (Forall2_length _ _ _ H) in Ea.
    apply lookup_ge_None in Ea. rewrite Ea. reflexivity.
Qed.

Lemma insert_Qeq (a b : list Q) i x :
  Forall2 Qeq a b -> x == rd b i -> Forall2 Qeq (<[i := x]> a) b.
Proof.
  intros H Hx. destruct (b !! i) as [y|] eqn:Eb.
  - rewrite <- (list_insert_id b i y Eb). apply Forall2_insert; [done|].
    unfold rd in Hx. rewrite Eb in Hx. done.
  - apply lookup_ge_None in Eb. rewrite list_insert_ge; [done|].
    rewrite (Forall2_length _ _ _ H). done.
Qed.

Lemma converge_body_rest rate intensity base i pos :
  Forall2 Qeq pos base -> Forall2 Qeq (converge_body rate intensity base i pos) base.
Proof.
  intros H. unfold converge_body. apply insert_Qeq; [done|].
  rewrite (rd_Qeq pos base i H). ring.
Qed.

Lemma converge_loop_rest n rate intensity base pos :
  Forall2 Qeq pos base -> Forall2 Qeq (converge_loop n rate intensity base pos) base.
Proof.
  unfold converge_loop, for_each. generalize (seq 0 n) as idx.
  intros idx. revert pos. induction idx as [|i idx IH]; intros pos H; simpl; [done|].
  apply IH, converge_body_rest, H.
Qed.

(** *** The dispersal loop *)

Section DisperseLoop.
Context {M : MathRuntime}.

Lemma disperse_body_length gain intensity pos i vel :
  length (disperse_body gain intensity pos i vel) = length vel.
Proof.
  unfold disperse_body. cbv zeta. destruct (Qgtb _ _); [|done].
  rewrite !length_insert. done.
Qed.

Lemma disperse_loop_length n gain intensity pos vel :
  length (disperse_loop n gain intensity pos vel) = length vel.
Proof.
  unfold disperse_loop, for_step3. generalize (seq 0 n) as idx. intros idx.
  revert vel. induction idx as [|k idx IH]; intros vel; simpl; [done|].
  rewrite IH. apply disperse_body_length.
Qed.

(** A round for a later particle does not touch the first component of the
    first particle. *)
Lemma disperse_body_keeps_head gain intensity pos k vel :
  (1 <= k)%nat -> rd (disperse_body gain intensity pos (3 * k) vel) 0 = rd vel 0.
Proof.
  intros Hk. unfold disperse_body. cbv zeta. destruct (Qgtb _ _); [|done].
  unfold rd. rewrite !list_lookup_insert_ne by lia. done.
Qed.

Lemma disperse_loop_head n gain intensity pos vel :
  rd (disperse_loop (S n) gain intensity pos vel) 0
  = rd (disperse_body gain intensity pos 0 vel) 0.
Proof.
  unfold disperse_loop, for_step3. cbn [seq foldl].
  change (3 * 0)%nat with 0%nat.
  generalize (disperse_body gain intensity pos 0 vel) as v.
  assert (Hidx : Forall (λ k, (1 <= k)%nat) (seq 1 n)).
  { apply Forall_forall. intros k Hk. apply elem_of_seq in Hk. lia. }
  revert Hidx. generalize (seq 1 n) as idx. intros idx Hidx.
  induction Hidx as [|k idx Hk _ IH]; intros v; simpl; [done|].
  rewrite IH. apply disperse_body_keeps_head, Hk.
Qed.

End DisperseLoop.

(** From here on the loops are used through the lemmas above. *)
#[local] Opaque converge_loop decay_loop integrate_loop disperse_loop.

(** *** [updateParticles] *)

(** What [updateParticles] does to the arrays of a well-sized instance. *)
Lemma updateParticles_pointwise (e : Group) (dt : Q) :
  wf_group e ->
  let u := userData e in
  let u' := userData (updateParticles e dt) in
  positions (earthParticles u') = zip_with Qplus (positions (earthParticles u))
                                    (earthParticleVelocities u) /\
  earthParticleVelocities u' = map (λ v, v * 0.97) (earthParticleVelocities u) /\
  positions (particles u') = zip_with Qplus (positions (particles u)) (particleVelocities u) /\
  particleVelocities u' = map (λ v, v * 0.98) (particleVelocities u) /\
  needsUpdate (earthParticles u')
    = x_exceeds 0.97 (earthParticleVelocities u) || needsUpdate (earthParticles u) /\
  needsUpdate (particles u')
    = x_exceeds 0.98 (particleVelocities u) || needsUpdate (particles u).
Proof.
  intros (H1 & H2 & H3 & H4). cbv zeta. unfold updateParticles.
  rewrite (integrate_loop_pointwise PARTICLE_COUNT 0.97 _ _ H1 H2).
  cbn [userData set_userData set_earthParticleVelocities set_earthParticles set_positions
       particles positions particleVelocities].
  rewrite (integrate_loop_pointwise OUTER_COUNT 0.98 _ _ H3 H4).
  destruct (x_exceeds 0.97 _), (x_exceeds 0.98 _), (dispersed (userData e)) eqn:Ed; cbn;
    rewrite ?Ed; cbn; repeat split.
Qed.

Lemma updateParticles_userData (e e' : Group) dt :
  userData e = userData e' -> bodies (updateParticles e dt) = bodies (updateParticles e' dt).
Proof.
  intros H. unfold bodies, updateParticles. rewrite H.
  destruct (integrate_loop PARTICLE_COUNT _ _ _) as [[p1 v1] h1].
  destruct (integrate_loop OUTER_COUNT _ _ _) as [[p2 v2] h2].
  reflexivity.
Qed.

(** *** Dispersion amount *)

Lemma converge_amount (earth : Group) (intensity : Q) :
  dispersionAmount (userData (convergeParticles earth intensity))
  = Math_max 0 (num_or (dispersionAmount (userData earth)) 0 - intensity * 0.15).
Proof.
  unfold convergeParticles. cbv zeta.
  match goal with |- context [if ?c then _ else _] => destruct c end; reflexivity.
Qed.

Lemma converge_dispersed (earth : Group) (intensity : Q) :
  dispersionAmount (userData (convergeParticles earth intensity)) <= 0 ->
  dispersed (userData (convergeParticles earth intensity)) = false.
Proof.
  rewrite converge_amount. intros H. apply Qle_bool_iff in H.
  unfold convergeParticles. cbv zeta. cbn [userData set_userData].
  cbn [dispersionAmount set_particles set_earthParticleVelocities set_earthParticles
       set_dispersionAmount].
  rewrite H. reflexivity.
Qed.

Lemma converge_amount_range (earth : Group) (intensity : Q) :
  0 < intensity -> intensity <= 1 ->
  0 <= dispersionAmount (userData earth) -> dispersionAmount (userData earth) <= 1 ->
  dispersionAmount (userData (convergeParticles earth intensity))
    == Qmax 0 (dispersionAmount (userData earth) - intensity * 0.15) /\
  0 <= dispersionAmount (userData (convergeParticles earth intensity)) /\
  dispersionAmount (userData (convergeParticles earth intensity)) <= 1.
Proof.
  intros Hi0 Hi1 Hd0 Hd1. rewrite converge_amount.
  generalize (num_or_zero (dispersionAmount (userData earth))).
  generalize (num_or (dispersionAmount (userData earth)) 0) as d'.
  generalize dependent (dispersionAmount (userData earth)). intros d Hd0 Hd1 d' Hn.
  unfold Math_max. rewrite Hn.
  destruct (Math_max_cases 0 (d - intensity * 0.15)) as [[H E]|[H E]];
    unfold Math_max in E; rewrite E; (split; [reflexivity|split; lra]).
Qed.

(** Converging an instance at rest leaves both position arrays as they are,
    and the instance at rest. *)
Lemma converge_rest (earth : Group) (intensity : Q) :
  at_rest earth ->
  Forall2 Qeq (positions (earthParticles (userData (convergeParticles earth intensity))))
              (positions (earthParticles (userData earth))) /\
  Forall2 Qeq (positions (particles (userData (convergeParticles earth intensity))))
              (positions (particles (userData earth))) /\
  at_rest (convergeParticles earth intensity).
Proof.
  intros [He Ho].
  assert (E1 : positions (earthParticles (userData (convergeParticles earth intensity)))
               = converge_loop (PARTICLE_COUNT * 3) 0.12 intensity
                   (earthParticlePositions (userData earth))
                   (positions (earthParticles (userData earth)))).
  { unfold convergeParticles. cbv zeta.
    match goal with |- context [if ?c then _ else _] => destruct c end; reflexivity. }
  assert (E2 : positions (particles (userData (convergeParticles earth intensity)))
               = converge_loop (OUTER_COUNT * 3) 0.1 intensity
                   (particlePositions (userData earth))
                   (positions (particles (userData earth)))).
  { unfold convergeParticles. cbv zeta.
    match goal with |- context [if ?c then _ else _] => destruct c end; reflexivity. }
  assert (B1 : earthParticlePositions (userData (convergeParticles earth intensity))
               = earthParticlePositions (userData earth)).
  { unfold convergeParticles. cbv zeta.
    match goal with |- context [if ?c then _ else _] => destruct c end; reflexivity. }
  assert (B2 : particlePositions (userData (convergeParticles earth intensity))
               = particlePositions (userData earth)).
  { unfold convergeParticles. cbv zeta.
    match goal with |- context [if ?c then _ else _] => destruct c end; reflexivity. }
  pose proof (converge_loop_rest (PARTICLE_COUNT * 3) 0.12 intensity _ _ He) as H1.
  pose proof (converge_loop_rest (OUTER_COUNT * 3) 0.1 intensity _ _ Ho) as H2.
  unfold at_rest. rewrite E1, E2, B1, B2.
  split; [|split; [|split]].
  - etransitivity; [exact H1|]. symmetry. exact He.
  - etransitivity; [exact H2|]. symmetry. exact Ho.
  - exact H1.
  - exact H2.
Qed.

Section DispersionFacts.
Context {M : MathRuntime}.

Lemma disperse_amount (earth : Group) (intensity : Q) :
  dispersionAmount (userData (disperseParticles earth intensity))
  = Math_min 1 (num_or (dispersionAmount (userData earth)) 0 + intensity * 0.1).
Proof. reflexivity. Qed.

(** Dispersal rewrites the two velocity arrays and keeps every array's size. *)
Lemma disperse_velocities (earth : Group) (intensity : Q) :
  earthParticleVelocities (userData (disperseParticles earth intensity))
  = disperse_loop PARTICLE_COUNT 0.025 intensity
      (positions (earthParticles (userData earth))) (earthParticleVelocities (userData earth)).
Proof. reflexivity. Qed.

Lemma disperse_wf (earth : Group) (intensity : Q) :
  wf_group earth -> wf_group (disperseParticles earth intensity).
Proof.
  intros (H1 & H2 & H3 & H4). unfold wf_group, disperseParticles. cbv zeta.
  cbn [userData set_userData set_particleVelocities set_earthParticleVelocities
       set_dispersionAmount set_dispersed earthParticles particles
       earthParticleVelocities particleVelocities].
  rewrite !disperse_loop_length. auto.
Qed.

Lemma disperse_amount_range (earth : Group) (intensity : Q) :
  0 < intensity -> intensity <= 1 ->
  0 <= dispersionAmount (userData earth) -> dispersionAmount (userData earth) <= 1 ->
  dispersionAmount (userData (disperseParticles earth intensity))
    == Qmin 1 (dispersionAmount (userData earth) + intensity * 0.1) /\
  0 <= dispersionAmount (userData (disperseParticles earth intensity)) /\
  dispersionAmount (userData (disperseParticles earth intensity)) <= 1.
Proof.
  intros Hi0 Hi1 Hd0 Hd1. rewrite disperse_amount.
  generalize (num_or_zero (dispersionAmount (userData earth))).
  generalize (num_or (dispersionAmount (userData earth)) 0) as d'.
  generalize dependent (dispersionAmount (userData earth)). intros d Hd0 Hd1 d' Hn.
  unfold Math_min. rewrite Hn.
  destruct (Math_min_cases 1 (d + intensity * 0.1)) as [[H E]|[H E]];
    unfold Math_min in E; rewrite E; (split; [reflexivity|split; lra]).
Qed.

(** C9: for an intensity in (0,1] and a dispersion amount in [0,1],
    [disperseParticles] leaves the amount at [min 1 (d + intensity * 0.1)] and
    [convergeParticles] at [max 0 (d - intensity * 0.15)], both again in
    [0,1]; when the amount after converging is 0 the [dispersed] flag is
    false; and converging an instance that sits on its base positions leaves
    every position as it was, the instance at rest, and an amount of 0 at 0. *)
Theorem dispersion_amount_range (earth : Group) (intensity : Q) :
  0 < intensity -> intensity <= 1 ->
  0 <= dispersionAmount (userData earth) -> dispersionAmount (userData earth) <= 1 ->
  let d := dispersionAmount (userData earth) in
  let spread := disperseParticles earth intensity in
  let gathered := convergeParticles earth intensity in
  (dispersionAmount (userData spread) == Qmin 1 (d + intensity * 0.1) /\
   0 <= dispersionAmount (userData spread) /\ dispersionAmount (userData spread) <= 1) /\
  (dispersionAmount (userData gathered) == Qmax 0 (d - intensity * 0.15) /\
   0 <= dispersionAmount (userData gathered) /\ dispersionAmount (userData gathered) <= 1) /\
  (dispersionAmount (userData gathered) == 0 -> dispersed (userData gathered) = false) /\
  (at_rest earth ->
   Forall2 Qeq (positions (earthParticles (userData gathered)))
               (positions (earthParticles (userData earth))) /\
   Forall2 Qeq (positions (particles (userData gathered)))
               (positions (particles (userData earth))) /\
   at_rest gathered /\
   (d == 0 -> dispersionAmount (userData gathered) == 0)).
Proof.
  intros Hi0 Hi1 Hd0 Hd1. cbv zeta.
  pose proof (converge_amount_range earth intensity Hi0 Hi1 Hd0 Hd1) as (Ec & Hc0 & Hc1).
  split; [apply disperse_amount_range; assumption|].
  split; [auto|].
  split.
  { intros Hz. apply converge_dispersed. rewrite Hz. apply Qle_refl. }
  intros Hrest. destruct (converge_rest earth intensity Hrest) as (R1 & R2 & R3).
  split; [exact R1|]. split; [exact R2|]. split; [exact R3|].
  intros Hz. rewrite Ec, Hz.
  destruct (Math_max_cases 0 (0 - intensity * 0.15)) as [[H E]|[H E]];
    unfold Math_max in E; rewrite E; lra.
Qed.

End DispersionFacts.

(** Repeated convergence of an instance at rest with amount 0 changes neither
    the positions nor the amount. *)
Lemma converge_repeated (earth : Group) (intensity : Q) (k : nat) :
  0 < intensity -> intensity <= 1 ->
  at_rest earth -> dispersionAmount (userData earth) == 0 ->
  let gathered := Nat.iter k (λ e, convergeParticles e intensity) earth in
  at_rest gathered /\ dispersionAmount (userData gathered) == 0 /\
  Forall2 Qeq (positions (earthParticles (userData gathered)))
              (positions (earthParticles (userData earth))) /\
  Forall2 Qeq (positions (particles (userData gathered)))
              (positions (particles (userData earth))).
Proof.
  intros Hi0 Hi1 Hrest Hz. cbv zeta. induction k as [|k (IH1 & IH2 & IH3 & IH4)]; simpl.
  - repeat split; try done; apply Hrest.
  - destruct (converge_rest _ intensity IH1) as (R1 & R2 & R3).
    split; [exact R3|]. split.
    + destruct (converge_amount_range (Nat.iter k (λ e, convergeParticles e intensity) earth)
                  intensity Hi0 Hi1) as (E & _); [rewrite IH2; lra..|].
      rewrite E, IH2.
      destruct (Math_max_cases 0 (0 - intensity * 0.15)) as [[H E']|[H E']];
        unfold Math_max in E'; rewrite E'; lra.
    + split; [etransitivity; [exact R1|exact IH3]|etransitivity; [exact R2|exact IH4]].
Qed.

Lemma dispersion_amount_range_witness :
  0 < 0.8 /\ 0.8 <= 1 /\
  0 <= dispersionAmount (userData (createEarthInstance generated_sample)) /\
  dispersionAmount (userData (createEarthInstance generated_sample)) <= 1 /\
  at_rest (createEarthInstance generated_sample) /\
  dispersionAmount
    (userData (disperseParticles (M := runtime_6) (createEarthInstance generated_sample) 0.8))
    == 0.08 /\
  dispersionAmount (userData (convergeParticles (createEarthInstance generated_sample) 0.8))
    == 0 /\
  dispersed (userData (convergeParticles (createEarthInstance generated_sample) 0.8)) = false /\
  at_rest (convergeParticles (createEarthInstance generated_sample) 0.8).
Proof.
  assert (H1 : 0 < 0.8) by reflexivity.
  assert (H2 : 0.8 <= 1) by (vm_compute; discriminate).
  assert (H3 : 0 <= dispersionAmount (userData (createEarthInstance generated_sample)))
    by (vm_compute; discriminate).
  assert (H4 : dispersionAmount (userData (createEarthInstance generated_sample)) <= 1)
    by (vm_compute; discriminate).
  assert (H5 : at_rest (createEarthInstance generated_sample))
    by (split; reflexivity).
  destruct (dispersion_amount_range (M := runtime_6) (createEarthInstance generated_sample)
              0.8 H1 H2 H3 H4) as ((D1 & _) & (C1 & _) & Hflag & Hrest).
  destruct (Hrest H5) as (_ & _ & R & Hzero).
  do 5 (split; [assumption|]).
  split; [apply (Qeq_trans _ _ _ D1); vm_compute; reflexivity|].
  split; [apply Hzero; reflexivity|].
  split; [apply Hflag, Hzero; reflexivity|exact R].
Defined.

(** ** The lifecycle *)

Lemma single_flags (s : Earth.State) :
  getEarthMode s = SINGLE <-> isDualMode s = false /\ isMerging s = false.
Proof.
  unfold getEarthMode. destruct (isMerging s), (isDualMode s); split; intros H;
    try tauto; try discriminate; destruct H; discriminate.
Qed.

Lemma dual_flags (s : Earth.State) :
  getEarthMode s = DUAL <-> isDualMode s = true /\ isMerging s = false.
Proof.
  unfold getEarthMode. destruct (isMerging s), (isDualMode s); split; intros H;
    try tauto; try discriminate; destruct H; discriminate.
Qed.

(** C6: from [SINGLE] with the cooldown at 0 and both hands detected, the
    spawn evaluation leaves the mode [DUAL] and the cooldown 90, adds exactly
    the two new instances to the scene, at x = -1.2 and x = 1.2 with scale 0.7,
    and hides the primary instance without removing it; evaluating the spawn
    again in the state reached, or calling [spawnDualEarths] again, changes
    nothing. *)
Theorem spawn_once (gs : GestureState) (gl gr : Generated)
    (m : MainState) (s : Earth.State) :
  getEarthMode s = SINGLE ->
  dualEarthCooldown m = 0%Z ->
  both_detected (bothHands gs) = true ->
  let spawned := spawn_evaluation gs gl gr (m, s) in
  getEarthMode (snd spawned) = DUAL /\
  dualEarthCooldown (fst spawned) = 90%Z /\
  scene (snd spawned) = scene s ++ ["leftEarth"; "rightEarth"] /\
  (exists l r,
     leftEarth (snd spawned) = Some l /\ rightEarth (snd spawned) = Some r /\
     name l = "leftEarth" /\ name r = "rightEarth" /\
     position_x l = -1.2 /\ position_x r = 1.2 /\
     scale l = 0.7 /\ scale r = 0.7 /\
     userData l = userData (createEarthInstance gl) /\
     userData r = userData (createEarthInstance gr)) /\
  earthGroup (snd spawned) = set_visible false <$> earthGroup s /\
  (forall gs' gl' gr',
     spawn_evaluation gs' gl' gr' spawned = spawned /\
     spawnDualEarths gl' gr' (snd spawned) = snd spawned).
Proof.
  intros Hmode Hc Hb. apply single_flags in Hmode as [Hd Hm].
  unfold spawn_evaluation, isDualEarthMode. rewrite Hb, Hd, Hc. cbn [andb negb Z.leb Z.compare].
  cbv zeta. cbn [fst snd]. unfold spawnDualEarths. rewrite Hd.
  destruct s; cbn in *. subst. unfold getEarthMode, scene_add; cbn.
  split; [done|]. split; [done|]. split; [rewrite <- app_assoc; done|].
  split; [eexists _, _; repeat split; reflexivity|].
  split; [done|].
  intros gs' gl' gr'. unfold isDualEarthMode. cbn. rewrite andb_false_r. done.
Qed.

Lemma spawn_once_witness :
  getEarthMode single_state = SINGLE /\
  dualEarthCooldown main_init = 0%Z /\
  both_detected (bothHands two_hands_seen) = true /\
  let spawned :=
    spawn_evaluation two_hands_seen generated_sample generated_sample
      (main_init, single_state) in
  getEarthMode (snd spawned) = DUAL /\
  dualEarthCooldown (fst spawned) = 90%Z /\
  scene (snd spawned) = ["mainEarth"; "leftEarth"; "rightEarth"] /\
  visible <$> earthGroup (snd spawned) = Some false /\
  spawn_evaluation two_hands_seen generated_sample generated_sample spawned = spawned.
Proof.
  split; [reflexivity|]. split; [reflexivity|]. split; [reflexivity|].
  destruct (spawn_once two_hands_seen generated_sample generated_sample
              main_init single_state eq_refl eq_refl eq_refl)
    as (H1 & H2 & H3 & _ & H5 & H6).
  cbv zeta. split; [exact H1|]. split; [exact H2|]. split; [exact H3|].
  split; [rewrite H5; reflexivity|]. apply H6.
Defined.

(** *** The merge animation *)

Lemma mergeEarths_dual (now : Z) (s : Earth.State) :
  getEarthMode s = DUAL ->
  mergeEarths now s = set_pendingMerge (Some now) (set_isMerging true s).
Proof.
  intros H. apply dual_flags in H as [Hd Hm]. unfold mergeEarths. rewrite Hd, Hm. done.
Qed.

Lemma progress_lt_1 (t0 t : Z) :
  (t < t0 + 1000)%Z -> Qltb (Math_min (inject_Z (t - t0) / merge_duration) 1) 1 = true.
Proof.
  intros Ht. apply Qltb_lt. unfold Math_min, merge_duration.
  assert (H : inject_Z (t - t0) / 1000 < 1).
  { apply Qlt_shift_div_r; [reflexivity|]. rewrite Qmult_1_l.
    change 1000 with (inject_Z 1000). rewrite <- Zlt_Qlt. lia. }
  destruct (Q.min_spec (inject_Z (t - t0) / 1000) 1) as [[_ ->]|[H1 _]]; [done|lra].
Qed.

Lemma progress_at_end (t0 : Z) :
  Math_min (inject_Z (t0 + 1000 - t0) / merge_duration) 1 == 1.
Proof. replace (t0 + 1000 - t0)%Z with 1000%Z by lia. reflexivity. Qed.

(** A run of the callback before the duration has elapsed keeps the merge in
    flight. *)
Lemma mergeAnimation_in_flight t0 g t s :
  (t < t0 + 1000)%Z -> in_flight t0 g s -> in_flight t0 g (mergeAnimation t s).
Proof.
  intros Ht (Hp & Hm & Hd & Hg & (l' & Hl) & (r' & Hr)).
  unfold mergeAnimation. rewrite Hp, Hl, Hr. cbv zeta.
  rewrite (progress_lt_1 t0 t Ht).
  unfold in_flight. destruct s; cbn in *. subst. eauto 10.
Qed.

Lemma mergeAnimation_ticks t0 g ticks s :
  Forall (λ t, (t < t0 + 1000)%Z) ticks -> in_flight t0 g s ->
  in_flight t0 g (foldl (λ s t, mergeAnimation t s) s ticks).
Proof.
  intros Hticks. revert s. induction Hticks as [|t ticks Ht _ IH]; intros s Hs; simpl; [done|].
  apply IH, mergeAnimation_in_flight; done.
Qed.

Lemma not_in_filter_ne (n : string) (l : list string) : n ∉ filter (λ m, m ≠ n) l.
Proof. rewrite list_elem_of_filter. tauto. Qed.

(** The run of the callback at exactly the duration completes the merge. *)
Lemma mergeAnimation_finish t0 g s :
  in_flight t0 g s ->
  let s' := mergeAnimation (t0 + 1000) s in
  getEarthMode s' = SINGLE /\ leftEarth s' = None /\ rightEarth s' = None /\
  ("leftEarth" ∉ scene s') /\ ("rightEarth" ∉ scene s') /\
  earthGroup s' = Some (setScalar 1 (set_visible true g)) /\ pendingMerge s' = None.
Proof.
  intros (Hp & Hm & Hd & Hg & (l' & Hl) & (r' & Hr)).
  unfold mergeAnimation. rewrite Hp, Hl, Hr. cbv zeta.
  assert (Hge : Qltb (Math_min (inject_Z (t0 + 1000 - t0) / merge_duration) 1) 1 = false).
  { apply not_true_is_false. rewrite Qltb_lt, progress_at_end. lra. }
  rewrite Hge. destruct s; cbn in *. subst. cbn.
  repeat split; try done.
  - rewrite list_elem_of_filter. intros [_ H]. apply list_elem_of_filter in H. tauto.
  - apply not_in_filter_ne.
Qed.

(** C2, as amended: a merge begun in [DUAL] at clock value [t0] puts the
    lifecycle in [MERGING]; after any runs of the animation callback before
    [t0 + 1000], the run at exactly [t0 + 1000] leaves the lifecycle [SINGLE],
    both secondary instances removed from the scene and forgotten, and the
    primary instance visible at scale 1; and the run at [t0 + 500], where
    progress is 0.5, puts each secondary instance at its spawn offset times
    [1 - eased] with [eased = 1 - (1 - 0.5)^3], that is at an eighth of the
    offset. *)
Theorem merge_animation (s : Earth.State) (g l r : Group) (t0 : Z) (ticks : list Z) :
  getEarthMode s = DUAL ->
  earthGroup s = Some g -> leftEarth s = Some l -> rightEarth s = Some r ->
  Forall (λ t, (t < t0 + 1000)%Z) ticks ->
  let merging := mergeEarths t0 s in
  let finished :=
    mergeAnimation (t0 + 1000) (foldl (λ s t, mergeAnimation t s) merging ticks) in
  let halfway := mergeAnimation (t0 + 500) merging in
  getEarthMode merging = MERGING /\
  (getEarthMode finished = SINGLE /\
   leftEarth finished = None /\ rightEarth finished = None /\
   ("leftEarth" ∉ scene finished) /\ ("rightEarth" ∉ scene finished) /\
   exists g', earthGroup finished = Some g' /\ visible g' = true /\ scale g' = 1) /\
  (getEarthMode halfway = MERGING /\
   exists l' r', leftEarth halfway = Some l' /\ rightEarth halfway = Some r' /\
     position_x l' == -1.2 * (1 - (1 - (1 - 0.5) ^ 3)) /\
     position_x r' == 1.2 * (1 - (1 - (1 - 0.5) ^ 3)) /\
     position_x l' == -1.2 * 0.125 /\ position_x r' == 1.2 * 0.125).
Proof.
  intros Hmode Hg Hl Hr Hticks. cbv zeta.
  rewrite (mergeEarths_dual t0 s Hmode).
  assert (Hfl : in_flight t0 g (set_pendingMerge (Some t0) (set_isMerging true s))).
  { apply dual_flags in Hmode as [Hd Hm]. destruct s; cbn in *. subst.
    unfold in_flight; cbn. eauto 10. }
  split; [reflexivity|]. split.
  - destruct (mergeAnimation_finish t0 g _ (mergeAnimation_ticks t0 g ticks _ Hticks Hfl))
      as (H1 & H2 & H3 & H4 & H5 & H6 & _).
    repeat (split; [assumption|]). eexists. split; [exact H6|]. done.
  - unfold mergeAnimation. cbn [pendingMerge set_pendingMerge].
    cbn [leftEarth rightEarth set_pendingMerge set_isMerging]. rewrite Hl, Hr. cbv zeta.
    rewrite (progress_lt_1 t0 (t0 + 500)) by lia.
    split; [reflexivity|]. eexists _, _. split; [reflexivity|]. split; [reflexivity|].
    cbn [position_x set_position_x set_position setScalar].
    replace (t0 + 500 - t0)%Z with 500%Z by lia. repeat split; reflexivity.
Qed.

Lemma merge_animation_witness :
  getEarthMode dual_state = DUAL /\
  Forall (λ t, (t < 0 + 1000)%Z) [16; 500; 983]%Z /\
  let finished :=
    mergeAnimation (0 + 1000)
      (foldl (λ s t, mergeAnimation t s) (mergeEarths 0 dual_state) [16; 500; 983]%Z) in
  getEarthMode finished = SINGLE /\
  leftEarth finished = None /\ rightEarth finished = None /\
  scale <$> earthGroup finished = Some 1 /\ visible <$> earthGroup finished = Some true.
Proof.
  assert (Hticks : Forall (λ t, (t < 0 + 1000)%Z) [16; 500; 983]%Z)
    by (repeat constructor).
  split; [reflexivity|]. split; [exact Hticks|].
  destruct (merge_animation dual_state _ _ _ 0 [16; 500; 983]%Z
              eq_refl eq_refl eq_refl eq_refl Hticks)
    as (_ & (H1 & H2 & H3 & _ & _ & g' & Hg & Hv & Hs) & _).
  cbv zeta. split; [exact H1|]. split; [exact H2|]. split; [exact H3|].
  rewrite Hg. cbn. rewrite Hs, Hv. done.
Defined.

(** C2, as stated, fails at progress 0.5: the left instance, spawned at
    x = -1.2, is at x = -0.15, not at -1.2 * (1 - (1 - 0.5)^3) = -1.05. *)
Lemma halfway_offset_is_not_eased_fraction :
  exists l, leftEarth (mergeAnimation 500 (mergeEarths 0 dual_state)) = Some l /\
    position_x l == -0.15 /\ ~ position_x l == -1.2 * (1 - (1 - 0.5) ^ 3).
Proof. eexists. split; [reflexivity|]. split; [reflexivity|]. discriminate. Qed.

(** ** The frame *)

#[local] Opaque updateParticles.

Lemma updateEarth_flags (dt : Q) (s : Earth.State) :
  isDualMode (updateEarth dt s) = isDualMode s /\ isMerging (updateEarth dt s) = isMerging s.
Proof.
  unfold updateEarth. cbv zeta.
  destruct s as [eg le re d mg rx ry sc ts sn pm]; cbn.
  destruct eg as [g|]; [destruct (visible g)|]; cbn;
    destruct d, mg, le, re; cbn; done.
Qed.

Lemma updateEarth_primary (dt : Q) (s : Earth.State) (g : Group) :
  earthGroup s = Some g -> stepped dt (visible g) (earthGroup s) (earthGroup (updateEarth dt s)).
Proof.
  intros Hg. rewrite Hg. unfold stepped, updateEarth. cbv zeta.
  destruct s as [eg le re d mg rx ry sc ts sn pm]; cbn in *. subst eg.
  destruct (visible g) eqn:Hv; cbn; destruct d, mg, le, re; cbn;
    eexists; (split; [reflexivity|]).
  1-16: apply updateParticles_userData; reflexivity.
  all: reflexivity.
Qed.

Lemma updateEarth_left (dt : Q) (s : Earth.State) :
  stepped dt (isDualMode s && negb (isMerging s)) (leftEarth s) (leftEarth (updateEarth dt s)).
Proof.
  unfold stepped. destruct (leftEarth s) as [l|] eqn:Hl; [|done].
  unfold updateEarth. cbv zeta.
  destruct s as [eg le re d mg rx ry sc ts sn pm]; cbn in *. subst le.
  destruct d, mg; cbn.
  2:{ destruct eg as [g|]; [destruct (visible g)|]; cbn; destruct re; cbn;
        eexists; (split; [reflexivity|]); apply updateParticles_userData; reflexivity. }
  all: destruct eg as [g|]; [destruct (visible g)|]; cbn; eauto.
Qed.

Lemma updateEarth_right (dt : Q) (s : Earth.State) :
  stepped dt (isDualMode s && negb (isMerging s)) (rightEarth s) (rightEarth (updateEarth dt s)).
Proof.
  unfold stepped. destruct (rightEarth s) as [r|] eqn:Hr; [|done].
  unfold updateEarth. cbv zeta.
  destruct s as [eg le re d mg rx ry sc ts sn pm]; cbn in *. subst re.
  destruct d, mg; cbn.
  2:{ destruct eg as [g|]; [destruct (visible g)|]; cbn; destruct le; cbn;
        eexists; (split; [reflexivity|]); apply updateParticles_userData; reflexivity. }
  all: destruct eg as [g|]; [destruct (visible g)|]; cbn; eauto.
Qed.

Section FrameFacts.
Context {M : MathRuntime}.

(** In dual mode, not merging, the dual branch keeps the mode flag and sets
    the merging flag to the merge decision. *)
Lemma dual_mode_flags gs now m s :
  isDualMode s = true -> isMerging s = false ->
  fst (dual_mode gs now (m, s)) = m /\
  isDualMode (snd (dual_mode gs now (m, s))) = true /\
  isMerging (snd (dual_mode gs now (m, s))) = merge_requested gs (dualEarthCooldown m).
Proof.
  intros Hd Hm. unfold dual_mode, merge_requested, getLeftEarth, getRightEarth.
  destruct s; simpl in Hd, Hm; subst.
  destruct (detected (gs_left gs)), (detected (gs_right gs)),
    (both_grasping (bothHands gs)), (both_detected (bothHands gs)),
    (dualEarthCooldown m <=? 0)%Z; cbn; done.
Qed.

(** The dual branch hands each detected hand's gestures to its own instance. *)
Lemma dual_mode_instances gs now m s :
  leftEarth (snd (dual_mode gs now (m, s)))
  = (if detected (gs_left gs) then hand_controls (gs_left gs) <$> leftEarth s
     else leftEarth s) /\
  rightEarth (snd (dual_mode gs now (m, s)))
  = (if detected (gs_right gs) then hand_controls (gs_right gs) <$> rightEarth s
     else rightEarth s).
Proof.
  unfold dual_mode, getLeftEarth, getRightEarth, mergeEarths.
  destruct s as [eg le re d mg rx ry sc ts sn pm].
  destruct (detected (gs_left gs)), (detected (gs_right gs)),
    (both_grasping (bothHands gs)), (both_detected (bothHands gs)),
    (dualEarthCooldown m <=? 0)%Z, d, mg; cbn; done.
Qed.

Lemma processGestures_dual (fr : Frame) (w : World) gs hh :
  getEarthMode (earth_state w) = DUAL ->
  getGestureState (leftHand fr) (rightHand fr) (previousGestureState (main_state w))
    (nowLeft fr) (nowRight fr) (hand_history w) = Some (gs, hh) ->
  exists w',
    processGestures fr w = Some w' /\
    hand_history w' = hh /\
    previousGestureState (main_state w') = Some gs /\
    dualEarthCooldown (main_state w') = Z.max 0 (dualEarthCooldown (main_state w) - 1) /\
    isDualMode (earth_state w') = true /\
    isMerging (earth_state w') = merge_requested gs (dualEarthCooldown (main_state w')) /\
    leftEarth (earth_state w')
    = (if detected (gs_left gs)
       then hand_controls (gs_left gs) <$> leftEarth (earth_state w)
       else leftEarth (earth_state w)).
Proof.
  intros Hmode Hgs. apply dual_flags in Hmode as [Hd Hm].
  unfold processGestures. rewrite Hgs. cbn [mbind option_bind].
  unfold spawn_evaluation, isDualEarthMode. rewrite Hd, andb_false_r.
  cbv beta iota. rewrite Hd. cbn [negb].
  destruct (dual_mode_flags gs (nowMerge fr) (cooldown_tick (main_state w)) (earth_state w) Hd Hm)
    as (E1 & E2 & E3).
  destruct (dual_mode_instances gs (nowMerge fr) (cooldown_tick (main_state w)) (earth_state w))
    as (E4 & _).
  destruct (dual_mode gs (nowMerge fr) (cooldown_tick (main_state w), earth_state w))
    as [m' s'] eqn:Edual.
  cbn [fst snd] in *. subst m'.
  eexists. split; [reflexivity|]. cbn. repeat split; assumption.
Qed.

Lemma processGestures_is_Some (fr : Frame) (w : World) :
  wf_hand (leftHand fr) -> wf_hand (rightHand fr) -> is_Some (processGestures fr w).
Proof.
  intros Hl Hr. unfold processGestures.
  destruct (getGestureState_is_Some (leftHand fr) (rightHand fr)
              (previousGestureState (main_state w)) (nowLeft fr) (nowRight fr)
              (hand_history w) Hl Hr) as (gs & hh & -> & _).
  cbn [mbind option_bind].
  destruct (spawn_evaluation _ _ _ _) as [m s].
  destruct (if negb (isDualEarthMode s) then _ else _) as [m' s']. eauto.
Qed.

(** C1, as amended: in [DUAL], a frame with well-formed hands leaves the
    lifecycle [MERGING] exactly when the pair is grasping, or exactly one hand
    is detected and the cooldown, after this frame's decrement, is 0 or less;
    otherwise the lifecycle stays [DUAL]. With no hand detected and no pair
    grasp there is no merge. *)
Theorem merge_trigger (fr : Frame) (w : World) :
  getEarthMode (earth_state w) = DUAL ->
  wf_hand (leftHand fr) -> wf_hand (rightHand fr) ->
  exists gs hh w',
    getGestureState (leftHand fr) (rightHand fr) (previousGestureState (main_state w))
      (nowLeft fr) (nowRight fr) (hand_history w) = Some (gs, hh) /\
    processGestures fr w = Some w' /\
    dualEarthCooldown (main_state w') = Z.max 0 (dualEarthCooldown (main_state w) - 1) /\
    (getEarthMode (earth_state w') = MERGING \/ getEarthMode (earth_state w') = DUAL) /\
    (getEarthMode (earth_state w') = MERGING <->
     both_grasping (bothHands gs) = true \/
     (xorb (detected (gs_left gs)) (detected (gs_right gs)) = true /\
      (dualEarthCooldown (main_state w') <= 0)%Z)).
Proof.
  intros Hmode Hl Hr.
  destruct (getGestureState_is_Some (leftHand fr) (rightHand fr)
              (previousGestureState (main_state w)) (nowLeft fr) (nowRight fr)
              (hand_history w) Hl Hr)
    as (gs & hh & Hgs & Dl & Dr & Db & _).
  destruct (processGestures_dual fr w gs hh Hmode Hgs)
    as (w' & Hw & _ & _ & Hc & Hd & Hm & _).
  exists gs, hh, w'. repeat (split; [assumption|]).
  assert (Hreq : merge_requested gs (dualEarthCooldown (main_state w')) = true <->
                 both_grasping (bothHands gs) = true \/
                 (xorb (detected (gs_left gs)) (detected (gs_right gs)) = true /\
                  (dualEarthCooldown (main_state w') <= 0)%Z)).
  { unfold merge_requested. rewrite Db, Dl, Dr.
    rewrite orb_true_iff, !andb_true_iff, Z.leb_le.
    destruct (leftHand fr), (rightHand fr); cbn; intuition discriminate. }
  unfold getEarthMode. rewrite Hm, Hd.
  destruct (merge_requested gs (dualEarthCooldown (main_state w'))).
  - split; [left; reflexivity|]. split; [intros _; apply Hreq; reflexivity|reflexivity].
  - split; [right; reflexivity|]. split; [discriminate|].
    intros H. apply Hreq in H. discriminate.
Qed.

(** C3, as amended: a frame with well-formed hands runs the gestures and then
    the earth update, which keeps the lifecycle and steps the arrays of the
    primary instance by one [updateParticles] when it is visible and those of
    each secondary instance by one [updateParticles] when the lifecycle is
    [DUAL]; a hidden primary instance is left as the gestures left it, and so
    are both secondary instances while the lifecycle is [MERGING]. *)
Theorem frame_integration (fr : Frame) (w : World) :
  wf_hand (leftHand fr) -> wf_hand (rightHand fr) ->
  exists w1 w2,
    processGestures fr w = Some w1 /\ animate fr w = Some w2 /\
    let s1 := earth_state w1 in
    let s2 := earth_state w2 in
    let dt := deltaTime fr in
    getEarthMode s2 = getEarthMode s1 /\
    (forall g, earthGroup s1 = Some g ->
       stepped dt (visible g) (earthGroup s1) (earthGroup s2)) /\
    stepped dt (isDualMode s1 && negb (isMerging s1)) (leftEarth s1) (leftEarth s2) /\
    stepped dt (isDualMode s1 && negb (isMerging s1)) (rightEarth s1) (rightEarth s2) /\
    (getEarthMode s1 = DUAL ->
     stepped dt true (leftEarth s1) (leftEarth s2) /\
     stepped dt true (rightEarth s1) (rightEarth s2)) /\
    (getEarthMode s1 = MERGING ->
     stepped dt false (leftEarth s1) (leftEarth s2) /\
     stepped dt false (rightEarth s1) (rightEarth s2)).
Proof.
  intros Hl Hr. destruct (processGestures_is_Some fr w Hl Hr) as [w1 Hw1].
  exists w1. eexists. split; [exact Hw1|]. unfold animate. rewrite Hw1.
  split; [reflexivity|]. cbn [mbind option_bind earth_state]. cbv zeta.
  destruct (updateEarth_flags (deltaTime fr) (earth_state w1)) as [Fd Fm].
  pose proof (updateEarth_left (deltaTime fr) (earth_state w1)) as HL.
  pose proof (updateEarth_right (deltaTime fr) (earth_state w1)) as HR.
  split; [unfold getEarthMode; rewrite Fd, Fm; reflexivity|].
  split; [intros g Hg; apply updateEarth_primary, Hg|].
  split; [exact HL|]. split; [exact HR|]. split.
  - intros Hmode. apply dual_flags in Hmode as [Hd Hm]. rewrite Hd, Hm in HL, HR.
    split; assumption.
  - intros Hmode. unfold getEarthMode in Hmode.
    destruct (isMerging (earth_state w1));
      [|destruct (isDualMode (earth_state w1)); discriminate].
    rewrite andb_false_r in HL, HR. split; assumption.
Qed.

End FrameFacts.

Lemma merge_trigger_witness :
  getEarthMode (earth_state dual_world) = DUAL /\
  wf_hand (Some (fist 0.5 0.5)) /\ wf_hand None /\
  exists w',
    processGestures (M := runtime_6) (frame (Some (fist 0.5 0.5)) None 100) dual_world
      = Some w' /\
    dualEarthCooldown (main_state w') = 0%Z /\
    getEarthMode (earth_state w') = MERGING.
Proof.
  split; [reflexivity|]. split; [reflexivity|]. split; [exact I|].
  destruct (merge_trigger (M := runtime_6) (frame (Some (fist 0.5 0.5)) None 100) dual_world
              eq_refl eq_refl I)
    as (gs & hh & w' & Hgs & Hw & Hc & _ & Hiff).
  exists w'. split; [exact Hw|]. split; [exact Hc|].
  apply Hiff. right. split; [|rewrite Hc; discriminate].
  vm_compute in Hgs. injection Hgs as <- _. reflexivity.
Defined.

(** C1, as stated, fails: in [DUAL] with the cooldown at 0, a frame in which
    no hand is detected leaves the lifecycle [DUAL]. *)
Lemma no_hands_no_merge :
  getEarthMode (earth_state dual_world) = DUAL /\
  dualEarthCooldown (main_state dual_world) = 0%Z /\
  (λ w, getEarthMode (earth_state w))
    <$> processGestures (M := runtime_6) (frame None None 100) dual_world = Some DUAL.
Proof. split; [reflexivity|]. split; [reflexivity|]. vm_compute. reflexivity. Qed.

Lemma frame_integration_witness :
  wf_hand (Some (fist 0.3 0.5)) /\ wf_hand (Some (fist 0.7 0.5)) /\
  exists w1 w2,
    processGestures (M := runtime_6)
      (frame (Some (fist 0.3 0.5)) (Some (fist 0.7 0.5)) 100) dual_world = Some w1 /\
    animate (M := runtime_6)
      (frame (Some (fist 0.3 0.5)) (Some (fist 0.7 0.5)) 100) dual_world = Some w2 /\
    getEarthMode (earth_state w2) = getEarthMode (earth_state w1) /\
    stepped 0.016 (isDualMode (earth_state w1) && negb (isMerging (earth_state w1)))
      (leftEarth (earth_state w1)) (leftEarth (earth_state w2)).
Proof.
  split; [reflexivity|]. split; [reflexivity|].
  destruct (frame_integration (M := runtime_6)
              (frame (Some (fist 0.3 0.5)) (Some (fist 0.7 0.5)) 100) dual_world
              eq_refl eq_refl)
    as (w1 & w2 & H1 & H2 & H3 & _ & H4 & _).
  exists w1, w2. auto.
Defined.

(** C3, as stated, fails: in [DUAL] with the cooldown at 0, a frame that sees
    only the open left hand disperses the left instance and starts the merge;
    the earth update of that frame does not step the left instance. *)
Lemma merging_frame_not_integrated :
  ~ (forall w1 w2,
       processGestures (M := runtime_6) open_left_frame dual_world = Some w1 ->
       animate (M := runtime_6) open_left_frame dual_world = Some w2 ->
       stepped (deltaTime open_left_frame) true
         (leftEarth (earth_state w1)) (leftEarth (earth_state w2))).
Proof.
  intros Hall.
  destruct (getGestureState_is_Some (M := runtime_6)
              (leftHand open_left_frame) (rightHand open_left_frame)
              (previousGestureState (main_state dual_world))
              (nowLeft open_left_frame) (nowRight open_left_frame)
              (hand_history dual_world) eq_refl I) as (gs & hh & Hgs & _).
  destruct (processGestures_dual (M := runtime_6) open_left_frame dual_world gs hh
              eq_refl Hgs) as (w1 & Hw1 & _ & _ & Hc & _ & Hm & El).
  vm_compute in Hgs. injection Hgs as <- _. rewrite Hc in Hm.
  change (isMerging (earth_state w1) = true) in Hm.
  change (leftEarth (earth_state w1)
          = Some (disperseParticles (M := runtime_6)
                    (set_name "leftEarth"
                       (setScalar 0.7
                          (set_position (-1.2) 0 (-3) (createEarthInstance generated_sample))))
                    0.5)) in El.
  set (l0 := set_name "leftEarth" _) in El.
  set (l1 := disperseParticles l0 0.5) in El.
  assert (Hwf : wf_group l1).
  { apply disperse_wf. vm_compute. auto. }
  assert (Hv : 0 < rd (earthParticleVelocities (userData l1)) 0).
  { unfold l1. rewrite disperse_velocities.
    change PARTICLE_COUNT with (S 3499). rewrite disperse_loop_head.
    apply Qltb_lt. vm_compute. reflexivity. }
  assert (Ha : animate (M := runtime_6) open_left_frame dual_world
               = Some {| main_state := main_state w1;
                         earth_state := updateEarth (deltaTime open_left_frame) (earth_state w1);
                         hand_history := hand_history w1 |}).
  { unfold animate. rewrite Hw1. reflexivity. }
  specialize (Hall _ _ Hw1 Ha). cbn [earth_state] in Hall.
  pose proof (updateEarth_left (deltaTime open_left_frame) (earth_state w1)) as Hkept.
  unfold stepped in Hall, Hkept. rewrite El in Hall, Hkept.
  rewrite Hm, andb_false_r in Hkept.
  destruct Hall as (e' & He' & Hb). destruct Hkept as (l' & Hl' & Hb').
  rewrite He' in Hl'. injection Hl' as <-. rewrite Hb in Hb'.
  destruct (updateParticles_pointwise l1 (deltaTime open_left_frame) Hwf) as (E1 & _).
  unfold bodies in Hb'.
  apply pair_equal_spec in Hb' as [Hb' _]. apply pair_equal_spec in Hb' as [Hb' _].
  apply pair_equal_spec in Hb' as [Hp _]. rewrite E1 in Hp.
  destruct Hwf as (L1 & L2 & _).
  clearbody l1. clear Hb He' El Ha Hw1 Hm.
  destruct (positions (earthParticles (userData l1))) as [|p ps]; [discriminate L1|].
  destruct (earthParticleVelocities (userData l1)) as [|v vs]; [discriminate L2|].
  cbn [zip_with] in Hp. apply (f_equal head) in Hp. cbn [head] in Hp.
  unfold rd in Hv. simpl in Hv.
  assert (p + v == p) by (injection Hp as ->; reflexivity). lra.
Qed.


(** * Further properties *)


Import Display MediaPipe Controls Hud Runtime Invariants MoreSamples.

(** ** Gesture states *)

(** Split a successful run of binds into the results of its steps. *)
Ltac split_binds H :=
  repeat match type of H with
  | (?x ≫= _) = Some _ =>
    let E := fresh "E" in
    destruct x as [?|] eqn:E; [cbn [mbind option_bind] in H|discriminate H]
  | (let '(_, _) := ?p in _) = Some _ => destruct p
  end.

Section MoreGestureFacts.
Context {M : MathRuntime}.

(** Every field of a gesture state is the result of its detector. *)
Lemma getGestureState_inv l r prev nl nr hh gs hh' :
  getGestureState l r prev nl nr hh = Some (gs, hh') ->
  exists hh1 s c,
    detectPinch l = Some (pinch (gs_left gs)) /\
    detectPinch r = Some (pinch (gs_right gs)) /\
    detectWave l left_hand nl hh = Some (wave (gs_left gs), hh1) /\
    detectWave r right_hand nr hh1 = Some (wave (gs_right gs), hh') /\
    isGrasping l = Some (grasping (gs_left gs)) /\
    isOpenHand l = Some (open (gs_left gs)) /\
    isGrasping r = Some (grasping (gs_right gs)) /\
    isOpenHand r = Some (open (gs_right gs)) /\
    detectGrasp l r = Some (both_grasping (bothHands gs)) /\
    isSameLocation l r = Some (sameLocation (bothHands gs)) /\
    getHandsDistance l r = Some (handsDistance gs) /\
    detected (gs_left gs) = bool_decide (is_Some l) /\
    detected (gs_right gs) = bool_decide (is_Some r) /\
    both_detected (bothHands gs) = negb (either_absent l r) /\
    detectSpread l r (num_or_null (prev_handsDistance prev)) = Some s /\
    detectConverge l r (num_or_null (prev_handsDistance prev)) = Some c /\
    spreading (bothHands gs) = isSpreading s /\
    converging (bothHands gs) = isConverging c /\
    spreadDelta gs = spread_delta s /\
    convergeDelta gs = converge_delta c.
Proof.
  intros H. unfold getGestureState in H. split_binds H.
  injection H as <- <-. cbn. eexists _, _, _.
  repeat (split; [eassumption || reflexivity|]).
  repeat (split; [destruct l, r; reflexivity|]).
  repeat (split; [eassumption || reflexivity|]). reflexivity.
Qed.

(** What a call of [detectWave] does to the history: nothing for an absent
    or short hand, otherwise a push on its own side followed by the cut to
    the last five samples. *)
Lemma detectWave_history h side now hh w hh' :
  detectWave h side now hh = Some (w, hh') ->
  (hh' = hh /\ (h = None \/ exists l, h = Some l /\ (length l < 21)%nat)) \/
  (exists l palm,
     h = Some l /\ (21 <= length l)%nat /\ getPalmCenter l = Some palm /\
     let pushed := history_get hh side
                   ++ [{| sx := px palm; sy := py palm; time := now |}] in
     hh' = history_set hh side (drop (length pushed - 5) pushed)).
Proof.
  unfold detectWave. destruct h as [l|]; [|intros [= <- <-]; left; eauto].
  destruct (Nat.ltb_spec (length l) 21) as [Hlt|Hge].
  { intros [= <- <-]. left. split; [done|]. right. eauto. }
  intros H. right. destruct (getPalmCenter l) as [palm|] eqn:Ep; [|discriminate H].
  cbn [mbind option_bind] in H. rewrite shift_excess_drop in H by lia.
  exists l, palm. repeat (split; [done|]). cbv zeta.
  set (retained := drop _ _) in *.
  destruct (Nat.ltb (length retained) 2); [injection H as <- <-; done|].
  split_binds H. destruct (Qltb _ _); injection H as <- <-; done.
Qed.

Lemma history_get_set hh side h : history_get (history_set hh side h) side = h.
Proof. destruct side; reflexivity. Qed.

Lemma hist_left_set_right hh h : hist_left (history_set hh right_hand h) = hist_left hh.
Proof. reflexivity. Qed.

Lemma hist_right_set_left hh h : hist_right (history_set hh left_hand h) = hist_right hh.
Proof. reflexivity. Qed.

Lemma window_length (h : list Sample) (x : Sample) :
  let pushed := h ++ [x] in
  length (drop (length pushed - 5) pushed) = Nat.min (S (length h)) 5.
Proof. cbv zeta. rewrite length_drop, length_app. simpl. lia. Qed.

Lemma detectWave_bounded h side now hh w hh' :
  detectWave h side now hh = Some (w, hh') -> history_bounded hh -> history_bounded hh'.
Proof.
  intros H [B1 B2].
  apply detectWave_history in H as [[-> _]|(l & palm & _ & _ & _ & ->)]; [done|].
  cbv zeta. destruct side; split; cbn [history_set history_get hist_left hist_right];
    try done; rewrite window_length; lia.
Qed.

Lemma getGestureState_bounded l r prev nl nr hh gs hh' :
  getGestureState l r prev nl nr hh = Some (gs, hh') ->
  history_bounded hh -> history_bounded hh'.
Proof.
  intros H B. apply getGestureState_inv in H as (hh1 & _ & _ & _ & _ & Hl & Hr & _).
  eapply detectWave_bounded; [exact Hr|]. eapply detectWave_bounded; [exact Hl|exact B].
Qed.

(** X1: a call of [getGestureState] keeps both hand histories within five
    samples, leaves the history of an absent hand untouched, and for a hand of
    21 landmarks leaves a history one sample longer, capped at five, whose
    newest sample carries the clock value read for that hand. *)
Theorem history_window l r prev nl nr hh gs hh' :
  getGestureState l r prev nl nr hh = Some (gs, hh') ->
  (history_bounded hh -> history_bounded hh') /\
  (l = None -> hist_left hh' = hist_left hh) /\
  (r = None -> hist_right hh' = hist_right hh) /\
  (forall ll, l = Some ll -> length ll = 21%nat ->
     length (hist_left hh') = Nat.min (S (length (hist_left hh))) 5 /\
     time <$> last (hist_left hh') = Some nl) /\
  (forall rr, r = Some rr -> length rr = 21%nat ->
     length (hist_right hh') = Nat.min (S (length (hist_right hh))) 5 /\
     time <$> last (hist_right hh') = Some nr).
Proof.
  intros H. apply getGestureState_inv in H as (hh1 & _ & _ & _ & _ & Hl & Hr & _).
  apply detectWave_history in Hl, Hr.
  assert (HL : hist_right hh1 = hist_right hh /\
               ((hist_left hh1 = hist_left hh /\ forall ll, l = Some ll -> length ll <> 21%nat) \/
                (exists ll x, l = Some ll /\ time x = nl /\
                   hist_left hh1 = drop (length (hist_left hh ++ [x]) - 5) (hist_left hh ++ [x])))).
  { destruct Hl as [[-> Hs]|(ll & palm & -> & Hlen & _ & ->)].
    - split; [done|]. left. split; [done|]. intros ll ->.
      destruct Hs as [|(l' & [= <-] & Hs)]; [done|lia].
    - split; [done|]. right. eexists ll, _. split; [done|]. split; [|reflexivity]. done. }
  assert (HR : hist_left hh' = hist_left hh1 /\
               ((hist_right hh' = hist_right hh1 /\ forall rr, r = Some rr -> length rr <> 21%nat) \/
                (exists rr x, r = Some rr /\ time x = nr /\
                   hist_right hh' = drop (length (hist_right hh1 ++ [x]) - 5)
                                      (hist_right hh1 ++ [x])))).
  { destruct Hr as [[-> Hs]|(rr & palm & -> & Hlen & _ & ->)].
    - split; [done|]. left. split; [done|]. intros rr ->.
      destruct Hs as [|(l' & [= <-] & Hs)]; [done|lia].
    - split; [done|]. right. eexists rr, _. split; [done|]. split; [|reflexivity]. done. }
  clear Hl Hr. destruct HL as (L1 & L2), HR as (R1 & R2).
  unfold history_bounded. rewrite R1. rewrite L1 in R2. clear R1 L1.
  assert (Hlast : forall (h : list Sample) x,
            last (drop (length (h ++ [x]) - 5) (h ++ [x])) = Some x).
  { intros h x. destruct (retained_nonempty h x) as (o & _ & Hx). exact Hx. }
  split; [|split; [|split; [|split]]].
  - intros [B1 B2]. split.
    + destruct L2 as [[-> _]|(ll & x & _ & _ & ->)]; [done|]. rewrite window_length. lia.
    + destruct R2 as [[-> _]|(rr & x & _ & _ & ->)]; [done|]. rewrite window_length. lia.
  - intros ->. destruct L2 as [[-> _]|(ll & x & [=] & _)]. done.
  - intros ->. destruct R2 as [[-> _]|(rr & x & [=] & _)]. done.
  - intros ll -> Hlen. destruct L2 as [[_ Hn]|(ll' & x & _ & <- & ->)].
    + destruct (Hn ll eq_refl Hlen).
    + rewrite window_length, Hlast. done.
  - intros rr -> Hlen. destruct R2 as [[_ Hn]|(rr' & x & _ & <- & ->)].
    + destruct (Hn rr eq_refl Hlen).
    + rewrite window_length, Hlast. done.
Qed.

(** The detectors on an absent hand. *)
Lemma absent_hand_fields (gs : GestureState) (hs : HandState) (h : option Landmarks)
    side now hh hh1 :
  h = None ->
  detectPinch h = Some (pinch hs) -> detectWave h side now hh = Some (wave hs, hh1) ->
  isGrasping h = Some (grasping hs) -> isOpenHand h = Some (open hs) ->
  detected hs = bool_decide (is_Some h) ->
  hs = {| detected := false; pinch := no_pinch; wave := no_wave;
          grasping := false; open := false |}.
Proof.
  intros -> Hp Hw Hg Ho Hd. cbn in *. destruct hs; cbn in *. congruence.
Qed.

(** X2: with the left hand absent and the right hand well formed, the gesture
    state exists, its left hand is the neutral, undetected one, every pair
    flag is false and the distance and both deltas are 0; and the same holds
    with the sides exchanged. *)
Theorem absent_hand_neutral (h : option Landmarks) prev nl nr hh :
  wf_hand h ->
  (exists gs hh',
     getGestureState None h prev nl nr hh = Some (gs, hh') /\
     gs_left gs = {| detected := false; pinch := no_pinch; wave := no_wave;
                     grasping := false; open := false |} /\
     bothHands gs = {| both_detected := false; sameLocation := false; spreading := false;
                       converging := false; both_grasping := false |} /\
     handsDistance gs = 0 /\ spreadDelta gs = 0 /\ convergeDelta gs = 0) /\
  (exists gs hh',
     getGestureState h None prev nl nr hh = Some (gs, hh') /\
     gs_right gs = {| detected := false; pinch := no_pinch; wave := no_wave;
                      grasping := false; open := false |} /\
     bothHands gs = {| both_detected := false; sameLocation := false; spreading := false;
                       converging := false; both_grasping := false |} /\
     handsDistance gs = 0 /\ spreadDelta gs = 0 /\ convergeDelta gs = 0).
Proof.
  intros Hh. split.
  - destruct (getGestureState_is_Some None h prev nl nr hh I Hh) as (gs & hh' & Hgs & _).
    exists gs, hh'. split; [exact Hgs|].
    apply getGestureState_inv in Hgs
      as (hh1 & s & c & P1 & _ & W1 & _ & G1 & O1 & _ & _ & Hg & Hs & Hd & D1 & _ & Hb
          & Hsp & Hco & S1 & S2 & S3 & S4).
    split; [eapply (absent_hand_fields gs); eauto|].
    cbn in Hg, Hs, Hd, Hb, Hsp, Hco.
    injection Hg as Hg. injection Hs as Hs. injection Hd as Hd.
    injection Hsp as <-. injection Hco as <-. cbn in S1, S2, S3, S4.
    split; [destruct (bothHands gs); cbn in *; congruence|]. auto.
  - destruct (getGestureState_is_Some h None prev nl nr hh Hh I) as (gs & hh' & Hgs & _).
    exists gs, hh'. split; [exact Hgs|].
    apply getGestureState_inv in Hgs
      as (hh1 & s & c & _ & P1 & _ & W1 & _ & _ & G1 & O1 & Hg & Hs & Hd & _ & D1 & Hb
          & Hsp & Hco & S1 & S2 & S3 & S4).
    split; [eapply (absent_hand_fields gs); eauto|].
    assert (Ea : either_absent h None = true) by (destruct h; reflexivity).
    assert (Hg' : detectGrasp h None = Some false).
    { unfold detectGrasp. rewrite Ea. done. }
    assert (Hs' : isSameLocation h None = Some false) by (destruct h; reflexivity).
    assert (Hd' : getHandsDistance h None = Some 0) by (destruct h; reflexivity).
    rewrite Ea in Hb. unfold detectSpread in Hsp. unfold detectConverge in Hco.
    rewrite Hd', Ea in Hsp, Hco. cbn in Hsp, Hco, Hb.
    injection Hsp as <-. injection Hco as <-. cbn in S1, S2, S3, S4.
    rewrite Hg' in Hg. rewrite Hs' in Hs. rewrite Hd' in Hd.
    injection Hg as Hg. injection Hs as Hs. injection Hd as Hd.
    split; [destruct (bothHands gs); cbn in *; congruence|]. auto.
Qed.

Lemma pair_grasp_detected l r prev nl nr hh gs hh' :
  getGestureState l r prev nl nr hh = Some (gs, hh') ->
  both_detected (bothHands gs) = detected (gs_left gs) && detected (gs_right gs) /\
  (both_grasping (bothHands gs) = true -> both_detected (bothHands gs) = true).
Proof.
  intros H. apply getGestureState_inv in H
    as (hh1 & s & c & _ & _ & _ & _ & _ & _ & _ & _ & Hg & _ & _ & D1 & D2 & Hb & _).
  rewrite D1, D2, Hb. split; [destruct l, r; done|].
  unfold detectGrasp in Hg. destruct (either_absent l r); [|done].
  injection Hg as <-. discriminate.
Qed.

(** X3: in every gesture state the pair flags agree with the hand flags: a
    pair grasp needs both hands detected, both grasping and the same
    location; [sameLocation], [spreading] and [converging] need both hands;
    [spreading] and [converging] are never true together, the first needs a
    distance above 0.3 and the second one below 0.15; and without both hands
    the distance is 0. *)
Theorem pair_flags_consistent l r prev nl nr hh gs hh' :
  getGestureState l r prev nl nr hh = Some (gs, hh') ->
  both_detected (bothHands gs) = detected (gs_left gs) && detected (gs_right gs) /\
  (both_grasping (bothHands gs) = true ->
     both_detected (bothHands gs) = true /\ sameLocation (bothHands gs) = true /\
     grasping (gs_left gs) = true /\ grasping (gs_right gs) = true) /\
  (sameLocation (bothHands gs) = true -> both_detected (bothHands gs) = true) /\
  (spreading (bothHands gs) = true ->
     both_detected (bothHands gs) = true /\ converging (bothHands gs) = false /\
     0.3 < handsDistance gs) /\
  (converging (bothHands gs) = true ->
     both_detected (bothHands gs) = true /\ spreading (bothHands gs) = false /\
     handsDistance gs < 0.15) /\
  (both_detected (bothHands gs) = false -> handsDistance gs = 0).
Proof.
  intros H. apply getGestureState_inv in H
    as (hh1 & s & c & _ & _ & _ & _ & G1 & _ & G2 & _ & Hg & Hs & Hd & D1 & D2 & Hb
        & Hsp & Hco & -> & -> & _ & _).
  rewrite D1, D2, Hb.
  unfold detectGrasp in Hg. unfold detectSpread in Hsp. unfold detectConverge in Hco.
  rewrite Hd in Hsp, Hco. cbn [mbind option_bind] in Hsp, Hco.
  destruct (either_absent l r) eqn:Ea.
  - assert (Hs' : isSameLocation l r = Some false) by (destruct l, r; done).
    assert (Hd' : getHandsDistance l r = Some 0) by (destruct l, r; done).
    rewrite Hs' in Hs. rewrite Hd' in Hd.
    injection Hg as <-. injection Hs as <-. injection Hd as <-.
    injection Hsp as <-. injection Hco as <-. cbn.
    split; [destruct l, r; done|]. repeat split; intros; discriminate.
  - rewrite G1, Hs in Hg. cbn [mbind option_bind] in Hg.
    assert (Hg' : both_grasping (bothHands gs)
                  = grasping (gs_left gs) && grasping (gs_right gs)
                    && sameLocation (bothHands gs)).
    { destruct (grasping (gs_left gs)); [rewrite G2 in Hg|];
        cbn [mbind option_bind] in Hg; injection Hg as <-; reflexivity. }
    split; [destruct l, r; done|]. cbn [negb].
    split; [rewrite Hg', !andb_true_iff; tauto|]. split; [done|].
    destruct (num_or_null (prev_handsDistance prev)) as [p|];
      injection Hsp as <-; injection Hco as <-; cbn;
      [|repeat split; intros; discriminate].
    rewrite !andb_true_iff. unfold Qgtb. rewrite !Qltb_lt.
    unfold SPREAD_THRESHOLD, CONVERGE_THRESHOLD.
    split; [|split].
    + intros [H1 H2]. split; [done|]. split; [|done].
      apply not_true_is_false. rewrite andb_true_iff, !Qltb_lt. lra.
    + intros [H1 H2]. split; [done|]. split; [|done].
      apply not_true_is_false. rewrite andb_true_iff, !Qltb_lt. lra.
    + discriminate.
Qed.

(** X4: the label of the gesture state of a frame is
    ['AWAITING INPUT'] exactly when no hand is present and
    ['CLASPED - MERGE'] exactly when the pair is grasping; the labels
    ['PINCH - ZOOM'], ['WAVE - ROTATE'] and ['HAND DETECTED'] are only given
    when exactly one hand is present. *)
Theorem gesture_label l r prev nl nr hh gs hh' :
  getGestureState l r prev nl nr hh = Some (gs, hh') ->
  (getGestureName gs = "AWAITING INPUT" <-> l = None /\ r = None) /\
  (getGestureName gs = "CLASPED - MERGE" <-> both_grasping (bothHands gs) = true) /\
  (getGestureName gs = "PINCH - ZOOM" \/ getGestureName gs = "WAVE - ROTATE" \/
   getGestureName gs = "HAND DETECTED" ->
   xorb (bool_decide (is_Some l)) (bool_decide (is_Some r)) = true).
Proof.
  intros H. pose proof (pair_grasp_detected _ _ _ _ _ _ _ _ H) as (Hb & Hbg).
  apply getGestureState_inv in H
    as (hh1 & s & c & P1 & P2 & W1 & W2 & G1 & O1 & G2 & O2 & _ & _ & _ & D1 & D2 & _).
  assert (AL : l = None -> grasping (gs_left gs) = false /\ open (gs_left gs) = false /\
                 isPinching (pinch (gs_left gs)) = false /\
                 isWaving (wave (gs_left gs)) = false).
  { intros ->. cbn in P1, W1, G1, O1.
    injection P1 as <-. injection W1 as <- _. injection G1 as <-. injection O1 as <-. done. }
  assert (AR : r = None -> grasping (gs_right gs) = false /\ open (gs_right gs) = false /\
                 isPinching (pinch (gs_right gs)) = false /\
                 isWaving (wave (gs_right gs)) = false).
  { intros ->. cbn in P2, W2, G2, O2.
    injection P2 as <-. injection W2 as <- _. injection G2 as <-. injection O2 as <-. done. }
  unfold getGestureName. rewrite Hb, D1, D2.
  destruct (both_grasping (bothHands gs)) eqn:Ebg.
  { pose proof (Hbg eq_refl) as Hd. rewrite Hb, D1, D2 in Hd.
    split; [split; [discriminate|]|split; [done|intros [E|[E|E]]; discriminate E]].
    intros [-> ->]. discriminate Hd. }
  destruct (grasping (gs_left gs) || grasping (gs_right gs)) eqn:Eg.
  { split; [split; [discriminate|]|split; [split; discriminate|intros [E|[E|E]]; discriminate E]].
    intros [Hl Hr]. destruct (AL Hl) as (E1 & _), (AR Hr) as (E2 & _).
    rewrite E1, E2 in Eg. discriminate Eg. }
  destruct (open (gs_left gs) || open (gs_right gs)) eqn:Eo.
  { split; [split; [discriminate|]|split; [split; discriminate|intros [E|[E|E]]; discriminate E]].
    intros [Hl Hr]. destruct (AL Hl) as (_ & E1 & _), (AR Hr) as (_ & E2 & _).
    rewrite E1, E2 in Eo. discriminate Eo. }
  destruct l as [ll|], r as [rr|]; cbn [bool_decide decide_rel is_Some_dec andb orb xorb].
  - split; [split; [discriminate|intros [E E']; (discriminate E || discriminate E')]|].
    split; [split; discriminate|intros [E|[E|E]]; discriminate E].
  - destruct (isPinching (pinch (gs_left gs)) || isPinching (pinch (gs_right gs))),
      (isWaving (wave (gs_left gs)) || isWaving (wave (gs_right gs)));
      (split; [split; [discriminate|intros [E E']; (discriminate E || discriminate E')]
              |split; [split; discriminate|done]]).
  - destruct (isPinching (pinch (gs_left gs)) || isPinching (pinch (gs_right gs))),
      (isWaving (wave (gs_left gs)) || isWaving (wave (gs_right gs)));
      (split; [split; [discriminate|intros [E E']; (discriminate E || discriminate E')]
              |split; [split; discriminate|done]]).
  - destruct (AL eq_refl) as (_ & _ & E1 & E2), (AR eq_refl) as (_ & _ & E3 & E4).
    rewrite E1, E2, E3, E4. cbn.
    split; [done|]. split; [split; discriminate|intros [E|[E|E]]; discriminate E].
Qed.

End MoreGestureFacts.

Lemma history_window_witness :
  exists gs hh',
    getGestureState (M := runtime_6) (Some (open_hand 0.5 0.5)) None None 100 100
      one_sample_history = Some (gs, hh') /\
    history_bounded hh' /\ hist_right hh' = [] /\
    length (hist_left hh') = 2%nat /\ time <$> last (hist_left hh') = Some 100%Z.
Proof.
  destruct (getGestureState (M := runtime_6) (Some (open_hand 0.5 0.5)) None None 100 100
              one_sample_history) as [[gs hh']|] eqn:E;
    [|vm_compute in E; discriminate E].
  exists gs, hh'. split; [reflexivity|].
  destruct (history_window (M := runtime_6) _ _ _ _ _ _ _ _ E) as (H1 & _ & H3 & H4 & _).
  split; [apply H1; split; cbn; lia|]. split; [exact (H3 eq_refl)|].
  exact (H4 _ eq_refl eq_refl).
Defined.

Lemma absent_hand_neutral_witness :
  wf_hand (Some (fist 0.5 0.5)) /\
  exists gs hh',
    getGestureState (M := runtime_6) None (Some (fist 0.5 0.5)) None 100 100
      handHistory_init = Some (gs, hh') /\
    gs_left gs = idle_hand /\ handsDistance gs = 0.
Proof.
  split; [reflexivity|].
  destruct (absent_hand_neutral (M := runtime_6) (Some (fist 0.5 0.5)) None 100 100
              handHistory_init eq_refl) as [(gs & hh' & E & Hl & _ & Hd & _) _].
  exists gs, hh'. split; [exact E|]. split; [exact Hl|exact Hd].
Defined.

Lemma pair_flags_consistent_witness :
  exists gs hh',
    getGestureState (M := runtime_6) (Some (fist 0.5 0.5)) (Some (fist 0.55 0.5)) None
      100 100 handHistory_init = Some (gs, hh') /\
    both_grasping (bothHands gs) = true /\
    sameLocation (bothHands gs) = true /\
    grasping (gs_left gs) = true /\ grasping (gs_right gs) = true.
Proof.
  destruct (getGestureState (M := runtime_6) (Some (fist 0.5 0.5)) (Some (fist 0.55 0.5))
              None 100 100 handHistory_init) as [[gs hh']|] eqn:E;
    [|vm_compute in E; discriminate E].
  exists gs, hh'. split; [reflexivity|].
  destruct (pair_flags_consistent (M := runtime_6) _ _ _ _ _ _ _ _ E) as (_ & H & _).
  assert (Hb : both_grasping (bothHands gs) = true).
  { vm_compute in E. injection E as <- _. reflexivity. }
  split; [exact Hb|]. destruct (H Hb) as (_ & H1 & H2 & H3). auto.
Defined.

Lemma gesture_label_witness :
  exists gs hh',
    getGestureState (M := runtime_6) None None None 100 100 handHistory_init
      = Some (gs, hh') /\
    getGestureName gs = "AWAITING INPUT".
Proof.
  destruct (getGestureState (M := runtime_6) None None None 100 100 handHistory_init)
    as [[gs hh']|] eqn:E; [|vm_compute in E; discriminate E].
  exists gs, hh'. split; [reflexivity|].
  destruct (gesture_label (M := runtime_6) _ _ _ _ _ _ _ _ E) as ((_ & H) & _).
  apply H. split; reflexivity.
Defined.

(** ** The hands of the tracker *)

Lemma getHands_lookup res sets i h :
  multiHandLandmarks res = Some sets ->
  (getHands (Some res) !! i = Some h <->
   sets !! i = Some (landmarks h) /\
   ((handedness h = "Right" /\ multiHandedness res !! i = Some "Left") \/
    (handedness h = "Left" /\ multiHandedness res !! i <> Some "Left"))).
Proof.
  intros Hs. unfold getHands. rewrite Hs, list_lookup_imap.
  destruct (sets !! i) as [l|] eqn:E; cbn; [|split; [discriminate|intros [? _]; discriminate]].
  assert (Hl : String.eqb (label_or_unknown (multiHandedness res !! i)) "Left" = true
               <-> multiHandedness res !! i = Some "Left").
  { rewrite String.eqb_eq. unfold label_or_unknown.
    destruct (multiHandedness res !! i) as [s|]; [|split; discriminate].
    destruct (String.eqb s "") eqn:Es.
    - apply String.eqb_eq in Es as ->. split; discriminate.
    - split; congruence. }
  destruct (String.eqb (label_or_unknown (multiHandedness res !! i)) "Left") eqn:Eb.
  - split.
    + intros [= <-]. cbn. split; [done|]. left. split; [done|]. by apply Hl.
    + intros (Hlm & [(Hh & _)|(_ & Hn)]).
      * destruct h; cbn in *. congruence.
      * destruct Hn. by apply Hl.
  - split.
    + intros [= <-]. cbn. split; [done|]. right. split; [done|].
      intros Hc. apply Hl in Hc. discriminate Hc.
    + intros (Hlm & [(_ & Hn)|(Hh & _)]).
      * apply Hl in Hn. discriminate Hn.
      * destruct h; cbn in *. congruence.
Qed.

(** X5: [getHand 'Right'] returns the first landmark set whose tracker label
    is ['Left'], and [getHand 'Left'] the first set whose label is anything
    else (['Right'], empty, or missing); no other hand type finds a hand;
    so two hands are only both returned when the tracker labels one of them
    ['Left'] and the other one not. *)
Theorem getHand_mirrored res sets :
  multiHandLandmarks res = Some sets ->
  (forall l, getHand "Right" (Some res) = Some l <->
     exists i, sets !! i = Some l /\ multiHandedness res !! i = Some "Left" /\
       forall j, (j < i)%nat -> multiHandedness res !! j <> Some "Left") /\
  (forall l, getHand "Left" (Some res) = Some l <->
     exists i, sets !! i = Some l /\ multiHandedness res !! i <> Some "Left" /\
       forall j, (j < i)%nat -> multiHandedness res !! j = Some "Left") /\
  (forall handType, handType <> "Left" -> handType <> "Right" ->
     getHand handType (Some res) = None) /\
  (sets <> [] ->
     is_Some (getHand "Left" (Some res)) \/ is_Some (getHand "Right" (Some res))).
Proof.
  intros Hs.
  assert (Hlen : forall j, (j < length sets)%nat ->
            exists y, getHands (Some res) !! j = Some y).
  { intros j Hj. apply lookup_lt_is_Some. unfold getHands. rewrite Hs.
    by rewrite length_imap. }
  assert (HR : forall l, getHand "Right" (Some res) = Some l <->
     exists i, sets !! i = Some l /\ multiHandedness res !! i = Some "Left" /\
       forall j, (j < i)%nat -> multiHandedness res !! j <> Some "Left").
  { intros l. unfold getHand. rewrite fmap_Some. split.
    - intros ([i h] & Hf & ->). apply list_find_Some in Hf as (Hi & Hh & Hfirst).
      apply (getHands_lookup _ _ _ _ Hs) in Hi as (Hi & [(_ & Hr)|(Hc & _)]);
        [|cbn in Hh; congruence].
      exists i. split; [done|]. split; [done|]. intros j Hj Hc.
      destruct (Hlen j) as (y & Hy);
        [apply lookup_lt_Some in Hi; lia|].
      apply (Hfirst j y Hy Hj).
      apply (getHands_lookup _ _ _ _ Hs) in Hy as (_ & [(Hy & _)|(_ & Hy)]); done.
    - intros (i & Hi & Hr & Hfirst).
      exists (i, {| landmarks := l; handedness := "Right" |}). split; [|done].
      apply list_find_Some. split; [|split; [done|]].
      + apply (getHands_lookup _ _ _ _ Hs). cbn. split; [done|]. by left.
      + intros j y Hy Hj Hc.
        apply (getHands_lookup _ _ _ _ Hs) in Hy as (_ & [(_ & Hy)|(Hy & _)]).
        * by apply (Hfirst j Hj).
        * rewrite Hy in Hc. discriminate Hc. }
  assert (HL : forall l, getHand "Left" (Some res) = Some l <->
     exists i, sets !! i = Some l /\ multiHandedness res !! i <> Some "Left" /\
       forall j, (j < i)%nat -> multiHandedness res !! j = Some "Left").
  { intros l. unfold getHand. rewrite fmap_Some. split.
    - intros ([i h] & Hf & ->). apply list_find_Some in Hf as (Hi & Hh & Hfirst).
      apply (getHands_lookup _ _ _ _ Hs) in Hi as (Hi & [(Hc & _)|(_ & Hr)]);
        [cbn in Hh; congruence|].
      exists i. split; [done|]. split; [done|]. intros j Hj.
      destruct (Hlen j) as (y & Hy);
        [apply lookup_lt_Some in Hi; lia|].
      pose proof (Hfirst j y Hy Hj) as Hn.
      apply (getHands_lookup _ _ _ _ Hs) in Hy as (_ & [(_ & Hy)|(Hy & _)]); done.
    - intros (i & Hi & Hr & Hfirst).
      exists (i, {| landmarks := l; handedness := "Left" |}). split; [|done].
      apply list_find_Some. split; [|split; [done|]].
      + apply (getHands_lookup _ _ _ _ Hs). cbn. split; [done|]. by right.
      + intros j y Hy Hj Hc.
        apply (getHands_lookup _ _ _ _ Hs) in Hy as (_ & [(Hy & _)|(_ & Hy)]).
        * rewrite Hy in Hc. discriminate Hc.
        * by apply Hy, Hfirst. }
  split; [exact HR|]. split; [exact HL|]. split.
  - intros handType H1 H2. unfold getHand.
    destruct (list_find _ _) as [[i h]|] eqn:Hf; [|done].
    apply list_find_Some in Hf as (Hi & Hh & _).
    apply (getHands_lookup _ _ _ _ Hs) in Hi as (_ & [(Hc & _)|(Hc & _)]); congruence.
  - intros Hne. destruct sets as [|l0 rest]; [done|].
    destruct (decide (multiHandedness res !! 0%nat = Some "Left")) as [E|E].
    + right. exists l0. apply HR. exists 0%nat. split; [done|]. split; [done|]. lia.
    + left. exists l0. apply HL. exists 0%nat. split; [done|]. split; [done|]. lia.
Qed.

Lemma getHand_mirrored_witness :
  getHand "Right"
    (Some {| multiHandLandmarks := Some [fist 0.3 0.5; open_hand 0.7 0.5];
             multiHandedness := ["Right"; "Left"] |}) = Some (open_hand 0.7 0.5) /\
  getHand "Left"
    (Some {| multiHandLandmarks := Some [fist 0.3 0.5; open_hand 0.7 0.5];
             multiHandedness := ["Right"; "Left"] |}) = Some (fist 0.3 0.5).
Proof.
  destruct (getHand_mirrored
              {| multiHandLandmarks := Some [fist 0.3 0.5; open_hand 0.7 0.5];
                 multiHandedness := ["Right"; "Left"] |} _ eq_refl) as (HR & HL & _).
  split.
  - apply HR. exists 1%nat. split; [reflexivity|]. split; [reflexivity|].
    intros [|j] Hj; [discriminate|lia].
  - apply HL. exists 0%nat. split; [reflexivity|]. split; [discriminate|]. lia.
Defined.

(** ** Particle bodies, continued *)

(** *** Loops that rewrite every entry from its own value *)

Lemma for_each_pointwise (f : nat -> Q -> Q) (n : nat) (a : list Q) :
  for_each n (λ i a, <[i := f i (rd a i)]> a) a
  = imap (λ i x, if (i <? n)%nat then f i x else x) a.
Proof.
  unfold for_each. induction n as [|n IH].
  - cbn. apply list_eq. intros j. rewrite list_lookup_imap.
    destruct (a !! j); reflexivity.
  - rewrite seq_S, foldl_app. cbn [foldl]. rewrite IH. clear IH. cbn [Nat.add].
    apply list_eq. intros j. rewrite list_lookup_imap.
    destruct (decide (j = n)) as [->|Hj].
    + unfold rd. rewrite list_lookup_imap.
      destruct (a !! n) as [x|] eqn:E.
      * rewrite list_lookup_insert_eq
          by (rewrite length_imap; by apply lookup_lt_Some in E).
        cbn [fmap option_fmap option_map default]. rewrite Nat.ltb_irrefl.
        replace (n <? S n)%nat with true by (symmetry; apply Nat.ltb_lt; lia). done.
      * cbn [fmap option_fmap option_map]. apply lookup_ge_None.
        rewrite length_insert, length_imap. by apply lookup_ge_None in E.
    + rewrite list_lookup_insert_ne by done. rewrite list_lookup_imap.
      destruct (a !! j) as [x|]; [|done]. cbn [fmap option_fmap option_map].
      destruct (Nat.ltb_spec j n), (Nat.ltb_spec j (S n)); try lia; done.
Qed.

#[local] Transparent converge_loop decay_loop.

Lemma converge_loop_pointwise n rate intensity base pos :
  length pos = n -> length base = n ->
  converge_loop n rate intensity base pos
  = zip_with (λ p b, p + (b - p) * intensity * rate) pos base.
Proof.
  intros Hp Hb. unfold converge_loop.
  etransitivity;
    [exact (for_each_pointwise (λ i x, x + (rd base i - x) * intensity * rate) n pos)|].
  apply list_eq. intros j. rewrite list_lookup_imap, lookup_zip_with. unfold rd.
  destruct (pos !! j) as [p|] eqn:Ep; [|done]. cbn [fmap option_fmap option_map mbind option_bind].
  assert (Hj : (j < n)%nat) by (apply lookup_lt_Some in Ep; lia).
  destruct (base !! j) as [b|] eqn:Eb; [|apply lookup_ge_None in Eb; lia].
  cbn [default fmap option_fmap option_map].
  replace (j <? n)%nat with true by (symmetry; apply Nat.ltb_lt; lia). done.
Qed.

Lemma decay_loop_pointwise n vel :
  length vel = n -> decay_loop n vel = map (λ v, v * 0.9) vel.
Proof.
  intros Hv. unfold decay_loop.
  etransitivity; [exact (for_each_pointwise (λ _ x, x * 0.9) n vel)|].
  apply list_eq. intros j. rewrite list_lookup_imap, list_lookup_fmap.
  destruct (vel !! j) as [v|] eqn:Ev; [|done]. cbn [fmap option_fmap option_map].
  replace (j <? n)%nat with true
    by (symmetry; apply Nat.ltb_lt; apply lookup_lt_Some in Ev; lia). done.
Qed.

#[local] Opaque converge_loop decay_loop.

Lemma triple_count (n : nat) : (n * 3 = 3 * n)%nat.
Proof. apply Nat.mul_comm. Qed.

Lemma convergeParticles_pointwise (e : Group) (intensity : Q) :
  wf_instance e ->
  let u := userData e in
  let u' := userData (convergeParticles e intensity) in
  positions (earthParticles u')
  = zip_with (λ p b, p + (b - p) * intensity * 0.12)
      (positions (earthParticles u)) (earthParticlePositions u) /\
  positions (particles u')
  = zip_with (λ p b, p + (b - p) * intensity * 0.1)
      (positions (particles u)) (particlePositions u) /\
  earthParticleVelocities u' = map (λ v, v * 0.9) (earthParticleVelocities u) /\
  particleVelocities u' = particleVelocities u /\
  earthParticlePositions u' = earthParticlePositions u /\
  particlePositions u' = particlePositions u /\
  needsUpdate (earthParticles u') = true /\ needsUpdate (particles u') = true.
Proof.
  intros ((H1 & H2 & H3 & H4) & H5 & H6). cbv zeta.
  rewrite <- (triple_count PARTICLE_COUNT) in H1, H2, H5.
  rewrite <- (triple_count OUTER_COUNT) in H3, H4, H6.
  rewrite <- (converge_loop_pointwise _ _ _ _ _ H1 H5).
  rewrite <- (converge_loop_pointwise _ _ _ _ _ H3 H6).
  rewrite <- (decay_loop_pointwise _ _ H2).
  unfold convergeParticles. cbv zeta.
  destruct (Qle_bool _ _); cbn; repeat split.
Qed.

Lemma converge_wf_instance (e : Group) (intensity : Q) :
  wf_instance e -> wf_instance (convergeParticles e intensity).
Proof.
  intros H. pose proof (convergeParticles_pointwise e intensity H) as Hc. cbv zeta in Hc.
  destruct Hc as (E1 & E2 & E3 & E4 & E5 & E6 & _).
  destruct H as ((H1 & H2 & H3 & H4) & H5 & H6).
  unfold wf_instance, wf_group. rewrite E1, E2, E3, E4, E5, E6.
  rewrite !length_zip_with, length_map. repeat split; lia.
Qed.

Lemma converge_iter_wf (e : Group) (intensity : Q) (k : nat) :
  wf_instance e ->
  let gathered := Nat.iter k (λ e, convergeParticles e intensity) e in
  wf_instance gathered /\
  earthParticlePositions (userData gathered) = earthParticlePositions (userData e) /\
  particlePositions (userData gathered) = particlePositions (userData e).
Proof.
  intros H. cbv zeta. induction k as [|k (IH1 & IH2 & IH3)]; [done|].
  rewrite Nat.iter_succ.
  pose proof (convergeParticles_pointwise _ intensity IH1) as Hc. cbv zeta in Hc.
  destruct Hc as (_ & _ & _ & _ & E5 & E6 & _).
  split; [by apply converge_wf_instance|]. rewrite E5, E6. done.
Qed.

Lemma gap_step (a b : list Q) (intensity rate : Q) (j : nat) :
  length a = length b ->
  rd (zip_with (λ p b, p + (b - p) * intensity * rate) a b) j - rd b j
  == (1 - intensity * rate) * (rd a j - rd b j).
Proof.
  intros Hl. unfold rd. rewrite lookup_zip_with.
  destruct (a !! j) as [p|] eqn:Ea.
  - destruct (b !! j) as [q|] eqn:Eb;
      [|apply lookup_ge_None in Eb; apply lookup_lt_Some in Ea; lia].
    cbn. ring.
  - assert (Eb : b !! j = None)
      by (apply lookup_ge_None; apply lookup_ge_None in Ea; lia).
    rewrite Eb. cbn. ring.
Qed.

Lemma Qpower_next (q : Q) (k : nat) : q ^ Z.of_nat (S k) == q * q ^ Z.of_nat k.
Proof.
  rewrite Nat2Z.inj_succ, <- Z.add_1_l. rewrite Qpower.Qpower_plus' by lia. reflexivity.
Qed.

Lemma Qpower_unit_range (q : Q) (k : nat) :
  0 <= q -> q <= 1 -> 0 <= q ^ Z.of_nat k /\ q ^ Z.of_nat k <= 1.
Proof.
  intros H0 H1. induction k as [|k [IH0 IH1]]; [split; discriminate|].
  rewrite Qpower_next. set (p := q ^ Z.of_nat k) in *. split; nra.
Qed.

Lemma gap_shrinks (c g g0 : Q) : 0 <= c -> c <= 1 -> g == c * g0 -> Qabs g <= Qabs g0.
Proof.
  intros H0 H1 ->. rewrite Qabs_Qmult, (Qabs_pos c) by done.
  pose proof (Qabs_nonneg g0). set (a := Qabs g0) in *. nra.
Qed.

Lemma createEarthInstance_wf (g : Generated) :
  wf_generated g -> wf_instance (createEarthInstance g).
Proof.
  intros [H1 H2]. unfold wf_instance, wf_group, createEarthInstance, new_points.
  cbn [userData earthParticles particles positions earthParticleVelocities
       particleVelocities earthParticlePositions particlePositions].
  rewrite !length_replicate, !triple_count. done.
Qed.

Lemma generated_sample_wf : wf_generated generated_sample.
Proof.
  split; unfold generated_sample; cbn [gen_earth gen_outer];
    rewrite length_replicate; apply triple_count.
Qed.

(** X6: on an instance whose arrays have their allocated sizes,
    [convergeParticles] moves every coordinate of the globe the fraction
    [intensity * 0.12] of its way to its base value and every coordinate of
    the outer cloud the fraction [intensity * 0.1]; it scales the velocities
    of the globe by 0.9 and leaves those of the outer cloud and both base
    arrays as they are; both position attributes are marked for upload. *)
Theorem converge_closed_form (e : Group) (intensity : Q) :
  wf_instance e ->
  let u := userData e in
  let u' := userData (convergeParticles e intensity) in
  positions (earthParticles u')
  = zip_with (λ p b, p + (b - p) * intensity * 0.12)
      (positions (earthParticles u)) (earthParticlePositions u) /\
  positions (particles u')
  = zip_with (λ p b, p + (b - p) * intensity * 0.1)
      (positions (particles u)) (particlePositions u) /\
  earthParticleVelocities u' = map (λ v, v * 0.9) (earthParticleVelocities u) /\
  particleVelocities u' = particleVelocities u /\
  earthParticlePositions u' = earthParticlePositions u /\
  particlePositions u' = particlePositions u /\
  needsUpdate (earthParticles u') = true /\ needsUpdate (particles u') = true.
Proof. exact (convergeParticles_pointwise e intensity). Qed.


(** X7: repeated [convergeParticles] shrinks the distance of every
    coordinate to its base value geometrically: after [k] calls the gap of a
    globe coordinate is [(1 - intensity * 0.12) ^ k] times the first gap, and
    that of an outer coordinate [(1 - intensity * 0.1) ^ k] times; for an
    intensity in (0, 1] no gap ever grows or changes sign. *)
Theorem converge_geometric (e : Group) (intensity : Q) (k j : nat) :
  wf_instance e ->
  let gathered := Nat.iter k (λ e, convergeParticles e intensity) e in
  let gap (g : Group) :=
    rd (positions (earthParticles (userData g))) j
    - rd (earthParticlePositions (userData g)) j in
  let outer_gap (g : Group) :=
    rd (positions (particles (userData g))) j - rd (particlePositions (userData g)) j in
  gap gathered == (1 - intensity * 0.12) ^ Z.of_nat k * gap e /\
  outer_gap gathered == (1 - intensity * 0.1) ^ Z.of_nat k * outer_gap e /\
  (0 < intensity -> intensity <= 1 ->
   Qabs (gap gathered) <= Qabs (gap e) /\
   Qabs (outer_gap gathered) <= Qabs (outer_gap e) /\
   0 <= gap gathered * gap e /\ 0 <= outer_gap gathered * outer_gap e).
Proof.
  intros H. cbv zeta.
  assert (Hk : rd (positions (earthParticles
                     (userData (Nat.iter k (λ e, convergeParticles e intensity) e)))) j
               - rd (earthParticlePositions
                     (userData (Nat.iter k (λ e, convergeParticles e intensity) e))) j
               == (1 - intensity * 0.12) ^ Z.of_nat k
                  * (rd (positions (earthParticles (userData e))) j
                     - rd (earthParticlePositions (userData e)) j) /\
               rd (positions (particles
                     (userData (Nat.iter k (λ e, convergeParticles e intensity) e)))) j
               - rd (particlePositions
                     (userData (Nat.iter k (λ e, convergeParticles e intensity) e))) j
               == (1 - intensity * 0.1) ^ Z.of_nat k
                  * (rd (positions (particles (userData e))) j
                     - rd (particlePositions (userData e)) j)).
  { induction k as [|k [IH1 IH2]].
    - change (Z.of_nat 0) with 0%Z. cbn [Qpower Nat.iter nat_rect]. split; ring.
    - rewrite !Nat.iter_succ.
      destruct (converge_iter_wf e intensity k H) as (Hw & _).
      pose proof (convergeParticles_pointwise _ intensity Hw) as Hc. cbv zeta in Hc.
      destruct Hc as (E1 & E2 & _ & _ & E5 & E6 & _).
      destruct Hw as ((W1 & _ & W3 & _) & W5 & W6).
      rewrite E1, E2, E5, E6, !Qpower_next.
      rewrite gap_step by lia. rewrite gap_step by lia.
      rewrite IH1, IH2. split; ring. }
  destruct Hk as [Hk1 Hk2]. split; [exact Hk1|]. split; [exact Hk2|].
  intros H0 H1.
  assert (R1 : 0 <= 1 - intensity * 0.12 /\ 1 - intensity * 0.12 <= 1) by (split; lra).
  assert (R2 : 0 <= 1 - intensity * 0.1 /\ 1 - intensity * 0.1 <= 1) by (split; lra).
  destruct (Qpower_unit_range _ k (proj1 R1) (proj2 R1)) as [P1 P2].
  destruct (Qpower_unit_range _ k (proj1 R2) (proj2 R2)) as [P3 P4].
  split; [exact (gap_shrinks _ _ _ P1 P2 Hk1)|].
  split; [exact (gap_shrinks _ _ _ P3 P4 Hk2)|].
  split.
  - rewrite Hk1. rewrite <- Qmult_assoc. apply Qmult_le_0_compat; [done|].
    match goal with |- 0 <= ?x * ?x => generalize x; intros g; nra end.
  - rewrite Hk2. rewrite <- Qmult_assoc. apply Qmult_le_0_compat; [done|].
    match goal with |- 0 <= ?x * ?x => generalize x; intros g; nra end.
Qed.


(** *** The integration step on an instance *)

#[local] Transparent updateParticles.

Lemma updateParticles_frame (e : Group) (dt : Q) :
  let e' := updateParticles e dt in
  set_userData (userData e) e' = e /\
  earthParticlePositions (userData e') = earthParticlePositions (userData e) /\
  particlePositions (userData e') = particlePositions (userData e) /\
  dispersed (userData e') = dispersed (userData e) /\
  dispersionAmount (userData e') = dispersionAmount (userData e) /\
  points_rotation_y (particles (userData e'))
  = (if dispersed (userData e) then points_rotation_y (particles (userData e))
     else points_rotation_y (particles (userData e)) + dt * 0.05) /\
  points_rotation_x (particles (userData e'))
  = (if dispersed (userData e) then points_rotation_x (particles (userData e))
     else points_rotation_x (particles (userData e)) + dt * 0.02).
Proof.
  unfold updateParticles. cbv zeta.
  destruct (integrate_loop PARTICLE_COUNT _ _ _) as [[p1 v1] h1].
  destruct (integrate_loop OUTER_COUNT _ _ _) as [[p2 v2] h2].
  destruct e as [? ? ? ? ? ? ? ? u]. cbn.
  destruct h1, h2, (dispersed u) eqn:Ed; cbn; rewrite ?Ed; cbn; repeat split.
Qed.

#[local] Opaque updateParticles.

Lemma updateParticles_wf_instance (e : Group) (dt : Q) :
  wf_instance e -> wf_instance (updateParticles e dt).
Proof.
  intros (Hw & H5 & H6).
  pose proof (updateParticles_pointwise e dt Hw) as Hp. cbv zeta in Hp.
  destruct Hp as (E1 & E2 & E3 & E4 & _).
  pose proof (updateParticles_frame e dt) as Hf. cbv zeta in Hf.
  destruct Hf as (_ & E5 & E6 & _).
  destruct Hw as (H1 & H2 & H3 & H4).
  unfold wf_instance, wf_group. rewrite E1, E2, E3, E4, E5, E6.
  rewrite !length_zip_with, !length_map. repeat split; lia.
Qed.

Lemma zip_plus_zero (pos vel : list Q) :
  length pos = length vel -> all_zero vel -> Forall2 Qeq (zip_with Qplus pos vel) pos.
Proof.
  revert vel. induction pos as [|p pos IH]; intros [|v vel] Hl Hz; try done.
  apply Forall_cons in Hz as [Hv Hz]. cbn. constructor.
  - rewrite Hv. ring.
  - apply IH; [by injection Hl|done].
Qed.

Lemma all_zero_scaled (d : Q) (vel : list Q) :
  all_zero vel -> all_zero (map (λ v, v * d) vel).
Proof.
  unfold all_zero. intros H. apply Forall_fmap. eapply Forall_impl; [exact H|].
  intros v Hv. cbn. rewrite Hv. ring.
Qed.

Lemma x_exceeds_zero (d : Q) (vel : list Q) : all_zero vel -> x_exceeds d vel = false.
Proof.
  unfold x_exceeds.
  assert (H : forall n vel, (length vel <= n)%nat -> all_zero vel ->
            existsb (λ vx, Qgtb (Math_abs (vx * d)) 0.0001) (x_components vel) = false).
  { clear vel. induction n as [n IH] using lt_wf_ind. intros vel Hl Hz.
    destruct vel as [|x [|y [|z rest]]]; try reflexivity.
    apply Forall_cons in Hz as [Hx Hz]. apply Forall_cons in Hz as [_ Hz].
    apply Forall_cons in Hz as [_ Hz].
    cbn [x_components existsb]. rewrite (IH (length rest)); [|cbn in Hl; lia|lia|done].
    rewrite orb_false_r. unfold Qgtb, Qltb. apply negb_false_iff.
    apply Qle_bool_iff. unfold Math_abs. rewrite Hx.
    rewrite Qmult_0_l. discriminate. }
  apply (H (length vel)). lia.
Qed.

(** X8: a frame on an instance whose velocities are all zero leaves every
    particle where it is, keeps the velocities zero and requests no upload
    of either position array; only the rotation of the outer cloud advances,
    by [deltaTime * 0.05] around [y] and [deltaTime * 0.02] around [x], and
    only while the instance is not dispersed. *)
Theorem still_instance (e : Group) (dt : Q) :
  wf_group e ->
  all_zero (earthParticleVelocities (userData e)) ->
  all_zero (particleVelocities (userData e)) ->
  let u := userData e in
  let u' := userData (updateParticles e dt) in
  Forall2 Qeq (positions (earthParticles u')) (positions (earthParticles u)) /\
  Forall2 Qeq (positions (particles u')) (positions (particles u)) /\
  all_zero (earthParticleVelocities u') /\ all_zero (particleVelocities u') /\
  needsUpdate (earthParticles u') = needsUpdate (earthParticles u) /\
  needsUpdate (particles u') = needsUpdate (particles u) /\
  points_rotation_y (particles u')
  = (if dispersed u then points_rotation_y (particles u)
     else points_rotation_y (particles u) + dt * 0.05) /\
  points_rotation_x (particles u')
  = (if dispersed u then points_rotation_x (particles u)
     else points_rotation_x (particles u) + dt * 0.02).
Proof.
  intros Hw Z1 Z2. cbv zeta.
  pose proof (updateParticles_pointwise e dt Hw) as Hp. cbv zeta in Hp.
  destruct Hp as (E1 & E2 & E3 & E4 & E5 & E6).
  pose proof (updateParticles_frame e dt) as Hf. cbv zeta in Hf.
  destruct Hf as (_ & _ & _ & _ & _ & R1 & R2).
  destruct Hw as (H1 & H2 & H3 & H4).
  rewrite E1, E2, E3, E4, E5, E6, R1, R2, !x_exceeds_zero by done.
  split; [apply zip_plus_zero; [lia|done]|].
  split; [apply zip_plus_zero; [lia|done]|].
  split; [by apply all_zero_scaled|]. split; [by apply all_zero_scaled|].
  cbn [orb]. repeat (split; [reflexivity|]). reflexivity.
Qed.

Lemma still_instance_witness :
  wf_group (createEarthInstance generated_sample) /\
  needsUpdate (earthParticles (userData
     (updateParticles (createEarthInstance generated_sample) 0.016))) = false /\
  points_rotation_y (particles (userData
     (updateParticles (createEarthInstance generated_sample) 0.016))) = 0 + 0.016 * 0.05.
Proof.
  assert (Hw : wf_group (createEarthInstance generated_sample))
    by exact (proj1 (createEarthInstance_wf _ generated_sample_wf)).
  split; [exact Hw|].
  assert (Z : forall n, all_zero (replicate n 0))
    by (intros n; apply Forall_replicate; reflexivity).
  pose proof (still_instance (createEarthInstance generated_sample) 0.016 Hw (Z _) (Z _))
    as Hs.
  cbv zeta in Hs. destruct Hs as (_ & _ & _ & _ & N1 & _ & R1 & _).
  split; [exact N1|exact R1].
Defined.

(** *** The dispersing kick *)

Section Kick.
Context {M : MathRuntime}.

Lemma disperse_body_other gain intensity pos k vel j :
  (j < 3 * k \/ 3 * k + 3 <= j)%nat ->
  rd (disperse_body gain intensity pos (3 * k) vel) j = rd vel j.
Proof.
  intros Hj. unfold disperse_body. cbv zeta. destruct (Qgtb _ _); [|done].
  unfold rd. rewrite !list_lookup_insert_ne by lia. done.
Qed.

Lemma disperse_body_at gain intensity pos k vel c :
  (c < 3)%nat -> (3 * k + 2 < length vel)%nat ->
  rd (disperse_body gain intensity pos (3 * k) vel) (3 * k + c)
  = kicked gain intensity pos vel k c.
Proof.
  intros Hc Hl. unfold disperse_body, kicked. cbv zeta. destruct (Qgtb _ _); [|done].
  unfold rd. destruct c as [|[|[|c]]]; [| | |lia].
  - rewrite Nat.add_0_r. rewrite !list_lookup_insert_ne by lia.
    rewrite list_lookup_insert_eq by lia. done.
  - rewrite list_lookup_insert_ne by lia.
    rewrite list_lookup_insert_eq by (rewrite length_insert; lia).
    rewrite list_lookup_insert_ne by lia. done.
  - rewrite list_lookup_insert_eq by (rewrite !length_insert; lia).
    rewrite !list_lookup_insert_ne by lia. done.
Qed.

#[local] Transparent disperse_loop.

Lemma disperse_loop_succ n gain intensity pos vel :
  disperse_loop (S n) gain intensity pos vel
  = disperse_body gain intensity pos (3 * n) (disperse_loop n gain intensity pos vel).
Proof. unfold disperse_loop, for_step3. rewrite seq_S, foldl_app. reflexivity. Qed.

Lemma disperse_loop_zero gain intensity pos vel :
  disperse_loop 0 gain intensity pos vel = vel.
Proof. reflexivity. Qed.

#[local] Opaque disperse_loop.

Lemma disperse_loop_pointwise n gain intensity pos vel :
  (3 * n <= length vel)%nat ->
  (forall k c, (k < n)%nat -> (c < 3)%nat ->
     rd (disperse_loop n gain intensity pos vel) (3 * k + c)
     = kicked gain intensity pos vel k c) /\
  (forall j, (3 * n <= j)%nat -> rd (disperse_loop n gain intensity pos vel) j = rd vel j).
Proof.
  induction n as [|n IH]; intros Hl.
  - split; [intros k c Hk; lia|]. intros j _. by rewrite disperse_loop_zero.
  - destruct IH as [IH1 IH2]; [lia|]. rewrite disperse_loop_succ. split.
    + intros k c Hk Hc. destruct (decide (k = n)) as [->|Hn].
      * rewrite disperse_body_at by (rewrite ?disperse_loop_length; lia).
        unfold kicked. cbv zeta. rewrite (IH2 (3 * n + c)%nat) by lia. done.
      * rewrite disperse_body_other by lia. apply IH1; lia.
    + intros j Hj. rewrite disperse_body_other by lia. apply IH2. lia.
Qed.

Lemma disperseParticles_pointwise (e : Group) (intensity : Q) :
  wf_group e ->
  let u := userData e in
  let u' := userData (disperseParticles e intensity) in
  (forall k c, (k < PARTICLE_COUNT)%nat -> (c < 3)%nat ->
     rd (earthParticleVelocities u') (3 * k + c)
     = kicked 0.025 intensity (positions (earthParticles u))
         (earthParticleVelocities u) k c) /\
  (forall k c, (k < OUTER_COUNT)%nat -> (c < 3)%nat ->
     rd (particleVelocities u') (3 * k + c)
     = kicked 0.03 intensity (positions (particles u)) (particleVelocities u) k c) /\
  earthParticles u' = earthParticles u /\ particles u' = particles u /\
  earthParticlePositions u' = earthParticlePositions u /\
  particlePositions u' = particlePositions u /\
  dispersed u' = true.
Proof.
  intros (H1 & H2 & H3 & H4). cbv zeta.
  unfold disperseParticles. cbv zeta.
  cbn [userData set_userData set_particleVelocities set_earthParticleVelocities
       set_dispersionAmount set_dispersed earthParticles particles
       earthParticleVelocities particleVelocities earthParticlePositions
       particlePositions dispersed].
  split; [apply disperse_loop_pointwise; lia|].
  split; [apply disperse_loop_pointwise; lia|]. repeat (split; [reflexivity|]). reflexivity.
Qed.

Lemma disperse_wf_instance (e : Group) (intensity : Q) :
  wf_instance e -> wf_instance (disperseParticles e intensity).
Proof.
  intros (Hw & H5 & H6). split; [by apply disperse_wf|].
  destruct (disperseParticles_pointwise e intensity Hw) as (_ & _ & _ & _ & E5 & E6 & _).
  rewrite E5, E6. done.
Qed.

(** X9: [disperseParticles] pushes every particle of the globe and of the
    outer cloud along its own position vector: each velocity component grows
    by the position component over the length of the position vector, times
    [intensity * 0.025] on the globe and [intensity * 0.03] on the cloud; a
    particle whose vector has no positive length keeps its velocity. No
    position is written, the base arrays stay, and the instance is marked
    dispersed. *)
Theorem disperse_kick (e : Group) (intensity : Q) :
  wf_group e ->
  let u := userData e in
  let u' := userData (disperseParticles e intensity) in
  (forall k c, (k < PARTICLE_COUNT)%nat -> (c < 3)%nat ->
     rd (earthParticleVelocities u') (3 * k + c)
     = kicked 0.025 intensity (positions (earthParticles u))
         (earthParticleVelocities u) k c) /\
  (forall k c, (k < OUTER_COUNT)%nat -> (c < 3)%nat ->
     rd (particleVelocities u') (3 * k + c)
     = kicked 0.03 intensity (positions (particles u)) (particleVelocities u) k c) /\
  earthParticles u' = earthParticles u /\ particles u' = particles u /\
  earthParticlePositions u' = earthParticlePositions u /\
  particlePositions u' = particlePositions u /\
  dispersed u' = true.
Proof. exact (disperseParticles_pointwise e intensity). Qed.

End Kick.

Lemma disperse_kick_witness :
  wf_group (createEarthInstance generated_sample) /\
  rd (earthParticleVelocities
        (userData (disperseParticles (M := runtime_6)
                     (createEarthInstance generated_sample) 0.5))) 4
  = kicked (M := runtime_6) 0.025 0.5 (gen_earth generated_sample)
      (replicate (PARTICLE_COUNT * 3) 0) 1 1.
Proof.
  assert (Hw : wf_group (createEarthInstance generated_sample))
    by exact (proj1 (createEarthInstance_wf _ generated_sample_wf)).
  split; [exact Hw|].
  pose proof (disperse_kick (M := runtime_6) (createEarthInstance generated_sample) 0.5 Hw)
    as Hk.
  cbv zeta in Hk. destruct Hk as (Hk & _).
  refine (Hk 1%nat 1%nat _ _); unfold PARTICLE_COUNT; lia.
Defined.

(** ** Sessions *)

(** *** Changes that keep a state in shape *)

Lemma instance_kept_refl (g : Group) : instance_kept g g.
Proof. split; done. Qed.

Lemma instance_kept_trans (g1 g2 g3 : Group) :
  instance_kept g1 g2 -> instance_kept g2 g3 -> instance_kept g1 g3.
Proof. intros [V1 W1] [V2 W2]. split; [congruence|auto]. Qed.

Lemma instance_kept_userData (g g' : Group) :
  visible g' = visible g -> userData g' = userData g -> instance_kept g g'.
Proof.
  intros Hv Hu. split; [done|]. unfold wf_instance, wf_group. by rewrite Hu.
Qed.

Lemma wf_instance_userData (g g' : Group) :
  userData g' = userData g -> wf_instance g -> wf_instance g'.
Proof. intros Hu. unfold wf_instance, wf_group. by rewrite Hu. Qed.

Lemma option_kept_refl (o : option Group) : option_Forall2 instance_kept o o.
Proof. destruct o; constructor. apply instance_kept_refl. Qed.

Lemma option_kept_trans (o1 o2 o3 : option Group) :
  option_Forall2 instance_kept o1 o2 -> option_Forall2 instance_kept o2 o3 ->
  option_Forall2 instance_kept o1 o3.
Proof.
  intros H1 H2. destruct H1; inversion H2; subst; constructor.
  eapply instance_kept_trans; eassumption.
Qed.

Lemma option_kept_fmap (f : Group -> Group) (o : option Group) :
  (forall g, instance_kept g (f g)) -> option_Forall2 instance_kept o (f <$> o).
Proof. intros H. destruct o; constructor. apply H. Qed.

Lemma state_kept_refl (s : Earth.State) : state_kept s s.
Proof. unfold state_kept. split_and!; try apply option_kept_refl; done. Qed.

Lemma state_kept_trans (s1 s2 s3 : Earth.State) :
  state_kept s1 s2 -> state_kept s2 s3 -> state_kept s1 s3.
Proof.
  intros (A1 & A2 & A3 & A4 & A5 & A6 & A7 & A8) (B1 & B2 & B3 & B4 & B5 & B6 & B7 & B8).
  split; [congruence|]. split; [congruence|]. split; [congruence|]. split; [congruence|].
  split; [eapply option_kept_trans; eassumption|].
  split; [eapply option_kept_trans; eassumption|].
  split; [eapply option_kept_trans; eassumption|]. auto.
Qed.

Lemma state_ok_kept (s s' : Earth.State) : state_ok s -> state_kept s s' -> state_ok s'.
Proof.
  intros (((g & Hg & Hv) & L2 & L3 & L4 & L5 & L6) & Hs & Hi)
         (A1 & A2 & A3 & A4 & A5 & A6 & A7 & A8).
  split; [|split; [auto|]].
  - unfold lifecycle_consistent. rewrite A1, A2, A3, A4.
    split.
    { rewrite Hg in A5. inversion A5 as [? g' [Hv' _]|]; subst.
      exists g'. split; [done|]. congruence. }
    split; [done|]. split; [done|].
    split; [rewrite <- L4; destruct A6; split; intros []; eauto|].
    split; [rewrite <- L5; destruct A7; split; intros []; eauto|]. done.
  - intros e [He|[He|He]].
    + rewrite He in A5. inversion A5 as [g0 ? [_ Hw]|]; subst. apply Hw, Hi. auto.
    + rewrite He in A6. inversion A6 as [g0 ? [_ Hw]|]; subst. apply Hw, Hi. auto.
    + rewrite He in A7. inversion A7 as [g0 ? [_ Hw]|]; subst. apply Hw, Hi. auto.
Qed.

Section SessionFacts.
Context {M : MathRuntime}.

Lemma converge_kept (g : Group) (i : Q) : instance_kept g (convergeParticles g i).
Proof. split; [reflexivity|apply converge_wf_instance]. Qed.

Lemma disperse_kept (g : Group) (i : Q) : instance_kept g (disperseParticles g i).
Proof. split; [reflexivity|apply disperse_wf_instance]. Qed.

Lemma updateParticles_kept (g : Group) (dt : Q) : instance_kept g (updateParticles g dt).
Proof.
  split; [|apply updateParticles_wf_instance].
  pose proof (updateParticles_frame g dt) as Hf. cbv zeta in Hf. destruct Hf as (Hf & _).
  rewrite <- Hf at 2. reflexivity.
Qed.

Lemma hand_controls_kept (h : HandState) (g : Group) : instance_kept g (hand_controls h g).
Proof.
  unfold hand_controls. cbv zeta.
  set (g1 := if grasping h then convergeParticles g 0.8 else g).
  set (g2 := if open h then disperseParticles g1 0.5 else g1).
  assert (K1 : instance_kept g g1).
  { subst g1. destruct (grasping h); [apply converge_kept|apply instance_kept_refl]. }
  assert (K2 : instance_kept g1 g2).
  { subst g2. destruct (open h); [apply disperse_kept|apply instance_kept_refl]. }
  apply (instance_kept_trans _ _ _ K1). apply (instance_kept_trans _ _ _ K2).
  destruct (isWaving (wave h));
    [apply instance_kept_userData; reflexivity|apply instance_kept_refl].
Qed.

Lemma with_mainEarth_kept (f : Group -> Group) (s : Earth.State) :
  (forall g, instance_kept g (f g)) -> state_kept s (with_mainEarth f s).
Proof.
  intros Hf. unfold with_mainEarth. destruct (bool_decide _); [|apply state_kept_refl].
  unfold state_kept. split_and!; try apply option_kept_refl; try done.
  by apply option_kept_fmap.
Qed.

Lemma clamp_scale_range (t : Q) : 0.3 <= clamp_scale t /\ clamp_scale t <= 2.
Proof.
  unfold clamp_scale, Math_max, Math_min. split; [apply Q.le_max_l|].
  apply Q.max_lub; [discriminate|apply Q.le_min_l].
Qed.

Lemma set_targetScale_kept (t : Q) (s : Earth.State) :
  0.3 <= t -> t <= 2 -> state_kept s (set_targetScale t s).
Proof.
  intros H1 H2. unfold state_kept. split_and!; try apply option_kept_refl; try done.
  intros (_ & _ & H3 & H4). done.
Qed.

Lemma handlePinchZoom_kept (d p : Q) (s : Earth.State) :
  state_kept s (handlePinchZoom d p s).
Proof.
  unfold handlePinchZoom. destruct (Qgtb p 0); [|apply state_kept_refl].
  apply set_targetScale_kept; apply clamp_scale_range.
Qed.

Lemma handleWaveRotation_kept (v d : Q) (s : Earth.State) :
  state_kept s (handleWaveRotation v d s).
Proof. unfold state_kept. split_and!; try apply option_kept_refl; done. Qed.

Lemma state_kept_if (b : bool) (s s' : Earth.State) :
  state_kept s s' -> state_kept s (if b then s' else s).
Proof. destruct b; [done|intros _; apply state_kept_refl]. Qed.

Lemma single_mode_kept gs m s :
  state_kept s (snd (single_mode gs (m, s))) /\
  dualEarthCooldown (fst (single_mode gs (m, s))) = dualEarthCooldown m.
Proof.
  unfold single_mode. cbv zeta.
  set (s1 := if grasping (gs_left gs) || grasping (gs_right gs)
             then with_mainEarth (λ g, convergeParticles g 0.8) s else s).
  set (s2 := if open (gs_left gs) || open (gs_right gs)
             then with_mainEarth (λ g, disperseParticles g 0.5) s1 else s1).
  assert (K1 : state_kept s s1).
  { apply state_kept_if, with_mainEarth_kept. intros g. apply converge_kept. }
  assert (K2 : state_kept s s2).
  { apply (state_kept_trans _ _ _ K1).
    apply state_kept_if, with_mainEarth_kept. intros g. apply disperse_kept. }
  clearbody s2. clear K1 s1.
  assert (K : forall s3 m3,
            state_kept s s3 -> dualEarthCooldown m3 = dualEarthCooldown m ->
            let s4 := if isWaving (wave (gs_left gs))
                      then handleWaveRotation (velocity (wave (gs_left gs)))
                             (- direction (wave (gs_left gs))) s3 else s3 in
            let s5 := if isWaving (wave (gs_right gs))
                      then handleWaveRotation (velocity (wave (gs_right gs)))
                             (- direction (wave (gs_right gs))) s4 else s4 in
            state_kept s (snd (m3, s5)) /\
            dualEarthCooldown (fst (m3, s5)) = dualEarthCooldown m).
  { intros s3 m3 K3 Hm s4 s5. split; [|exact Hm]. cbn [snd].
    apply (state_kept_trans _ _ _ K3).
    apply (state_kept_trans _ s4); apply state_kept_if, handleWaveRotation_kept. }
  destruct (isPinching (pinch (gs_left gs)) || isPinching (pinch (gs_right gs))).
  - apply K; [|reflexivity]. apply (state_kept_trans _ _ _ K2).
    apply state_kept_if, handlePinchZoom_kept.
  - apply K; [exact K2|reflexivity].
Qed.

Lemma set_leftEarth_kept (f : Group -> Group) (s : Earth.State) :
  (forall g, instance_kept g (f g)) -> state_kept s (set_leftEarth (f <$> getLeftEarth s) s).
Proof.
  intros Hf. unfold state_kept. split_and!; try apply option_kept_refl; try done.
  by apply option_kept_fmap.
Qed.

Lemma set_rightEarth_kept (f : Group -> Group) (s : Earth.State) :
  (forall g, instance_kept g (f g)) ->
  state_kept s (set_rightEarth (f <$> getRightEarth s) s).
Proof.
  intros Hf. unfold state_kept. split_and!; try apply option_kept_refl; try done.
  by apply option_kept_fmap.
Qed.

Lemma mergeEarths_ok (now : Z) (s : Earth.State) : state_ok s -> state_ok (mergeEarths now s).
Proof.
  unfold mergeEarths. destruct (negb (isDualMode s) || isMerging s) eqn:E; [done|].
  apply orb_false_iff in E as [Ed Em]. apply negb_false_iff in Ed.
  intros ((Hg & L2 & L3 & L4 & L5 & L6) & Hs & Hi).
  split; [|split; [exact Hs|exact Hi]].
  destruct s as [eg le re d mg rx ry sc ts sn pm]; cbn in *. subst d mg.
  unfold lifecycle_consistent; cbn. split_and!; done.
Qed.

Lemma spawnDualEarths_ok (gl gr : Generated) (s : Earth.State) :
  wf_generated gl -> wf_generated gr -> state_ok s -> state_ok (spawnDualEarths gl gr s).
Proof.
  intros Hl Hr. unfold spawnDualEarths. destruct (isDualMode s) eqn:Ed; [done|].
  intros (((g & Hg & Hv) & L2 & L3 & L4 & L5 & L6) & Hs & Hi).
  destruct s as [eg le re d mg rx ry sc ts sn pm]; cbn in *. subst d eg sn.
  split; [|split; [exact Hs|]].
  - unfold lifecycle_consistent; cbn. split_and!; try done.
    exists (set_visible false g). done.
  - intros e [He|[He|He]]; cbn in He.
    + injection He as <-. apply (wf_instance_userData g); [reflexivity|]. apply Hi. auto.
    + injection He as <-.
      apply (wf_instance_userData (createEarthInstance gl)); [reflexivity|].
      by apply createEarthInstance_wf.
    + injection He as <-.
      apply (wf_instance_userData (createEarthInstance gr)); [reflexivity|].
      by apply createEarthInstance_wf.
Qed.

Lemma mergeAnimation_ok (now : Z) (s : Earth.State) :
  state_ok s -> state_ok (mergeAnimation now s).
Proof.
  intros Hok. unfold mergeAnimation. destruct (pendingMerge s) as [t0|] eqn:Ep; [|done].
  cbv zeta.
  destruct Hok as (((g & Hg & Hv) & L2 & L3 & L4 & L5 & L6) & Hs & Hi).
  assert (Hm : isMerging s = true) by (apply L3; rewrite Ep; eauto).
  assert (Hd : isDualMode s = true) by auto.
  destruct (proj2 L4 Hd) as [l El]. destruct (proj2 L5 Hd) as [r Er]. rewrite El, Er.
  assert (Wl : wf_instance l) by (apply Hi; auto).
  assert (Wr : wf_instance r) by (apply Hi; auto).
  assert (Wg : wf_instance g) by (apply Hi; auto).
  clear L2 L3 L4 L5 Hi.
  generalize (Math_min (inject_Z (now - t0) / merge_duration) 1). intros progress.
  destruct s as [eg le re d mg rx ry sc ts sn pm]; cbn in *. subst.
  destruct (Qltb progress 1).
  - split; [|split; [exact Hs|]].
    + unfold lifecycle_consistent; cbn. split_and!; try done. by exists g.
    + intros e [He|[He|He]]; cbn in He; injection He as <-; done.
  - split; [|split; [exact Hs|]].
    + unfold lifecycle_consistent; cbn.
      split_and!; try done; try (by eexists); split; (done || by intros []).
    + intros e [He|[He|He]]; cbn in He; try done. injection He as <-. done.
Qed.

Lemma set_earthScale_kept (sc : Q) (s : Earth.State) :
  (scales_in_range s -> 0.3 <= sc /\ sc <= 2) -> state_kept s (set_earthScale sc s).
Proof.
  intros H. unfold state_kept. split_and!; try apply option_kept_refl; try done.
  intros Hs. destruct (H Hs) as [H1 H2]. destruct Hs as (H3 & H4 & _). done.
Qed.

Lemma set_earthRotation_y_kept (r : Q) (s : Earth.State) :
  state_kept s (set_earthRotation_y r s).
Proof. unfold state_kept. split_and!; try apply option_kept_refl; done. Qed.

Lemma set_earthGroup_kept (g g' : Group) (s : Earth.State) :
  earthGroup s = Some g -> instance_kept g g' -> state_kept s (set_earthGroup (Some g') s).
Proof.
  intros Hg Hk. unfold state_kept. cbn [isDualMode isMerging scene pendingMerge earthGroup
    leftEarth rightEarth set_earthGroup].
  split_and!; try apply option_kept_refl; try reflexivity.
  - rewrite Hg. constructor. exact Hk.
  - intros H. exact H.
Qed.

Lemma set_leftEarth_some_kept (g g' : Group) (s : Earth.State) :
  leftEarth s = Some g -> instance_kept g g' -> state_kept s (set_leftEarth (Some g') s).
Proof.
  intros Hg Hk. unfold state_kept. cbn [isDualMode isMerging scene pendingMerge earthGroup
    leftEarth rightEarth set_leftEarth].
  split_and!; try apply option_kept_refl; try reflexivity.
  - rewrite Hg. constructor. exact Hk.
  - intros H. exact H.
Qed.

Lemma set_rightEarth_some_kept (g g' : Group) (s : Earth.State) :
  rightEarth s = Some g -> instance_kept g g' -> state_kept s (set_rightEarth (Some g') s).
Proof.
  intros Hg Hk. unfold state_kept. cbn [isDualMode isMerging scene pendingMerge earthGroup
    leftEarth rightEarth set_rightEarth].
  split_and!; try apply option_kept_refl; try reflexivity.
  - rewrite Hg. constructor. exact Hk.
  - intros H. exact H.
Qed.

Lemma stepped_kept (g g' : Group) (dt : Q) :
  visible g' = visible g -> userData g' = userData g ->
  instance_kept g (updateParticles g' dt).
Proof.
  intros Hv Hu. eapply instance_kept_trans; [|apply updateParticles_kept].
  by apply instance_kept_userData.
Qed.

Lemma updateEarth_kept (dt : Q) (s : Earth.State) : state_kept s (updateEarth dt s).
Proof.
  unfold updateEarth. cbv zeta.
  set (s0 := set_earthScale (earthScale s + (targetScale s - earthScale s) * 0.1) s).
  assert (K0 : state_kept s s0).
  { apply set_earthScale_kept. intros (H1 & H2 & H3 & H4). split; lra. }
  apply (state_kept_trans _ _ _ K0). clearbody s0. clear K0 s.
  match goal with |- state_kept _ (if isDualMode ?x && _ then _ else _) => set (s1 := x) end.
  assert (K1 : state_kept s0 s1).
  { unfold s1. destruct (earthGroup s0) as [g|] eqn:Eg; [|apply state_kept_refl].
    destruct (visible g); [|apply state_kept_refl].
    eapply state_kept_trans; [apply set_earthRotation_y_kept|].
    eapply set_earthGroup_kept; [exact Eg|]. apply stepped_kept; reflexivity. }
  apply (state_kept_trans _ _ _ K1). clearbody s1. clear K1 s0.
  destruct (isDualMode s1 && negb (isMerging s1)); [|apply state_kept_refl].
  match goal with |- state_kept _ (match rightEarth ?x with _ => _ end) => set (s2 := x) end.
  assert (K2 : state_kept s1 s2).
  { unfold s2. destruct (leftEarth s1) as [l|] eqn:El; [|apply state_kept_refl].
    eapply set_leftEarth_some_kept; [exact El|]. apply stepped_kept; reflexivity. }
  apply (state_kept_trans _ _ _ K2). clearbody s2. clear K2 s1.
  destruct (rightEarth s2) as [r|] eqn:Er; [|apply state_kept_refl].
  eapply set_rightEarth_some_kept; [exact Er|]. apply stepped_kept; reflexivity.
Qed.

Lemma on_mouse_kept (e : MouseEvent) (m : Mouse) (s : Earth.State) :
  state_kept s (snd (on_mouse e (m, s))).
Proof.
  destruct e; cbn; try apply state_kept_refl.
  - destruct (negb (isDragging m)); cbn; [apply state_kept_refl|].
    unfold state_kept. split_and!; try apply option_kept_refl; done.
  - apply set_targetScale_kept; apply clamp_scale_range.
Qed.

Lemma dual_mode_ok gs now m s :
  state_ok s ->
  state_ok (snd (dual_mode gs now (m, s))) /\ fst (dual_mode gs now (m, s)) = m.
Proof.
  intros Hok. unfold dual_mode. cbv zeta. split; [|reflexivity]. cbn [snd].
  set (s1 := if detected (gs_left gs)
             then set_leftEarth (hand_controls (gs_left gs) <$> getLeftEarth s) s else s).
  set (s2 := if detected (gs_right gs)
             then set_rightEarth (hand_controls (gs_right gs) <$> getRightEarth s1) s1
             else s1).
  assert (K1 : state_kept s s1).
  { apply state_kept_if, set_leftEarth_kept, hand_controls_kept. }
  assert (K2 : state_kept s1 s2).
  { apply state_kept_if, set_rightEarth_kept, hand_controls_kept. }
  assert (O2 : state_ok s2).
  { eapply state_ok_kept; [|exact K2]. eapply state_ok_kept; [exact Hok|exact K1]. }
  clearbody s2. clear K1 K2 s1.
  set (s3 := if both_grasping (bothHands gs) then mergeEarths now s2 else s2).
  assert (O3 : state_ok s3).
  { unfold s3. destruct (both_grasping _); [by apply mergeEarths_ok|done]. }
  clearbody s3.
  destruct (_ && _); [|done]. destruct (_ <=? _)%Z; [by apply mergeEarths_ok|done].
Qed.

(** *** One frame *)

Lemma processGestures_unfold (fr : Frame) (w : World) gs hh :
  getGestureState (leftHand fr) (rightHand fr) (previousGestureState (main_state w))
    (nowLeft fr) (nowRight fr) (hand_history w) = Some (gs, hh) ->
  let r1 := spawn_evaluation gs (genLeft fr) (genRight fr) (main_state w, earth_state w) in
  let m1 := cooldown_tick (fst r1) in
  let r2 := if negb (isDualEarthMode (snd r1)) then single_mode gs (m1, snd r1)
            else dual_mode gs (nowMerge fr) (m1, snd r1) in
  processGestures fr w
  = Some {| main_state := set_previousGestureState (Some gs) (fst r2);
            earth_state := snd r2; hand_history := hh |}.
Proof.
  intros Hgs. cbv zeta. unfold processGestures. rewrite Hgs. cbn [mbind option_bind].
  destruct (spawn_evaluation _ _ _ _) as [m1 s1]. cbn [fst snd].
  destruct (if negb (isDualEarthMode s1) then _ else _) as [m2 s2]. reflexivity.
Qed.

Lemma spawn_evaluation_spec gs gl gr m s :
  let spawn := both_detected (bothHands gs) && negb (isDualMode s)
               && (dualEarthCooldown m <=? 0)%Z in
  spawn_evaluation gs gl gr (m, s)
  = if spawn then (set_cooldown 90 m, spawnDualEarths gl gr s) else (m, s).
Proof.
  cbv zeta. unfold spawn_evaluation, isDualEarthMode.
  destruct (both_detected _ && negb _); [|reflexivity].
  destruct (_ <=? _)%Z; reflexivity.
Qed.

Lemma dual_mode_merging gs now m s :
  isDualMode s = true ->
  let s' := snd (dual_mode gs now (m, s)) in
  isDualMode s' = true /\
  isMerging s' = isMerging s || merge_requested gs (dualEarthCooldown m) /\
  pendingMerge s'
  = (if negb (isMerging s) && merge_requested gs (dualEarthCooldown m)
     then Some now else pendingMerge s) /\
  earthGroup s' = earthGroup s /\ scene s' = scene s.
Proof.
  intros Hd. unfold dual_mode, merge_requested, mergeEarths. cbv zeta.
  destruct s as [eg le re d mg rx ry sc ts sn pm]; cbn in Hd; subst d.
  destruct (detected (gs_left gs)), (detected (gs_right gs)),
    (both_grasping (bothHands gs)), (both_detected (bothHands gs)),
    (dualEarthCooldown m <=? 0)%Z, mg; cbn; repeat split.
Qed.

Lemma single_mode_flags gs m s :
  let s' := snd (single_mode gs (m, s)) in
  isDualMode s' = isDualMode s /\ isMerging s' = isMerging s /\
  pendingMerge s' = pendingMerge s /\ scene s' = scene s /\
  leftEarth s' = leftEarth s /\ rightEarth s' = rightEarth s.
Proof.
  cbv zeta. destruct (single_mode_kept gs m s) as [(K1 & K2 & K3 & K4 & _) _].
  split; [exact K1|]. split; [exact K2|]. split; [exact K4|]. split; [exact K3|].
  unfold single_mode, with_mainEarth, handlePinchZoom, handleWaveRotation. cbv zeta.
  destruct (grasping _ || grasping _), (open _ || open _),
    (isPinching (pinch (gs_left gs)) || isPinching (pinch (gs_right gs))),
    (Qgtb (previousPinchDistance m) 0), (isWaving (wave (gs_left gs))),
    (isWaving (wave (gs_right gs))); cbn;
    repeat (match goal with |- context [bool_decide ?P] => destruct (bool_decide P) end; cbn);
    split; reflexivity.
Qed.

Lemma processGestures_flags (fr : Frame) (w : World) gs hh :
  getGestureState (leftHand fr) (rightHand fr) (previousGestureState (main_state w))
    (nowLeft fr) (nowRight fr) (hand_history w) = Some (gs, hh) ->
  exists w',
    processGestures fr w = Some w' /\
    hand_history w' = hh /\
    previousGestureState (main_state w') = Some gs /\
    let s := earth_state w in
    let s' := earth_state w' in
    let spawn := both_detected (bothHands gs) && negb (isDualMode s)
                 && (dualEarthCooldown (main_state w) <=? 0)%Z in
    dualEarthCooldown (main_state w')
    = (if spawn then 89 else Z.max 0 (dualEarthCooldown (main_state w) - 1))%Z /\
    isDualMode s' = isDualMode s || spawn /\
    isMerging s'
    = isMerging s
      || (isDualMode s' && merge_requested gs (dualEarthCooldown (main_state w'))) /\
    pendingMerge s'
    = (if negb (isMerging s) && isDualMode s'
          && merge_requested gs (dualEarthCooldown (main_state w'))
       then Some (nowMerge fr) else pendingMerge s).
Proof.
  intros Hgs. eexists. split; [exact (processGestures_unfold fr w gs hh Hgs)|].
  cbv zeta. cbn [hand_history main_state earth_state].
  split; [reflexivity|]. split; [reflexivity|].
  unfold set_previousGestureState. cbn [dualEarthCooldown].
  rewrite spawn_evaluation_spec. cbv zeta.
  set (spawn := both_detected (bothHands gs) && negb (isDualMode (earth_state w))
                && (dualEarthCooldown (main_state w) <=? 0)%Z).
  assert (Hflags : forall m1 s1,
            dualEarthCooldown
              (fst (if negb (isDualEarthMode s1) then single_mode gs (cooldown_tick m1, s1)
                    else dual_mode gs (nowMerge fr) (cooldown_tick m1, s1)))
            = Z.max 0 (dualEarthCooldown m1 - 1) /\
            let s' := snd (if negb (isDualEarthMode s1)
                           then single_mode gs (cooldown_tick m1, s1)
                           else dual_mode gs (nowMerge fr) (cooldown_tick m1, s1)) in
            isDualMode s' = isDualMode s1 /\
            isMerging s'
            = isMerging s1
              || (isDualMode s1 && merge_requested gs (Z.max 0 (dualEarthCooldown m1 - 1))) /\
            pendingMerge s'
            = (if negb (isMerging s1) && isDualMode s1
                  && merge_requested gs (Z.max 0 (dualEarthCooldown m1 - 1))
               then Some (nowMerge fr) else pendingMerge s1)).
  { intros m1 s1. unfold isDualEarthMode. destruct (isDualMode s1) eqn:Ed; cbn [negb].
    - split; [reflexivity|]. cbv zeta.
      destruct (dual_mode_merging gs (nowMerge fr) (cooldown_tick m1) s1 Ed)
        as (E1 & E2 & E3 & _).
      cbv zeta in E1, E2, E3. rewrite E1, E2, E3. rewrite andb_true_r. cbn [andb].
      repeat split.
    - destruct (single_mode_kept gs (cooldown_tick m1) s1) as [_ ->].
      split; [reflexivity|]. cbv zeta.
      destruct (single_mode_flags gs (cooldown_tick m1) s1) as (E1 & E2 & E3 & _).
      cbv zeta in E1, E2, E3. rewrite E1, E2, E3, Ed. rewrite andb_false_r. cbn [andb].
      rewrite orb_false_r. repeat split. }
  destruct spawn eqn:Es.
  - apply andb_true_iff in Es as [Es _]. apply andb_true_iff in Es as [_ Es].
    apply negb_true_iff in Es.
    destruct (Hflags (set_cooldown 90 (main_state w))
                (spawnDualEarths (genLeft fr) (genRight fr) (earth_state w)))
      as (F1 & F2 & F3 & F4).
    cbn [fst snd]. rewrite F1, F2, F3, F4. clear F1 F2 F3 F4 Hflags.
    assert (Hsp : isDualMode (spawnDualEarths (genLeft fr) (genRight fr) (earth_state w))
                  = true /\
                  isMerging (spawnDualEarths (genLeft fr) (genRight fr) (earth_state w))
                  = isMerging (earth_state w) /\
                  pendingMerge (spawnDualEarths (genLeft fr) (genRight fr) (earth_state w))
                  = pendingMerge (earth_state w)).
    { unfold spawnDualEarths. rewrite Es. repeat split. }
    destruct Hsp as (-> & -> & ->). rewrite orb_true_r. repeat split.
  - destruct (Hflags (main_state w) (earth_state w)) as (F1 & F2 & F3 & F4).
    cbn [fst snd]. rewrite F1, F2, F3, F4. rewrite orb_false_r. repeat split.
Qed.

Lemma processGestures_ok (fr : Frame) (w w' : World) :
  wf_generated (genLeft fr) -> wf_generated (genRight fr) ->
  processGestures fr w = Some w' ->
  state_ok (earth_state w) ->
  (0 <= dualEarthCooldown (main_state w) <= 90)%Z ->
  history_bounded (hand_history w) ->
  state_ok (earth_state w') /\
  (0 <= dualEarthCooldown (main_state w') <= 90)%Z /\
  history_bounded (hand_history w').
Proof.
  intros Hgl Hgr Hp Hok Hc Hh.
  destruct (getGestureState (leftHand fr) (rightHand fr)
              (previousGestureState (main_state w)) (nowLeft fr) (nowRight fr)
              (hand_history w)) as [[gs hh]|] eqn:Hgs;
    [|unfold processGestures in Hp; rewrite Hgs in Hp; discriminate Hp].
  destruct (processGestures_flags fr w gs hh Hgs) as (w2 & Hp2 & Hhh & _ & Hcool & _).
  rewrite Hp in Hp2. injection Hp2 as <-.
  split; [|split].
  - pose proof (processGestures_unfold fr w gs hh Hgs) as Hu. cbv zeta in Hu.
    rewrite Hu in Hp. apply (inj Some) in Hp. rewrite <- Hp.
    cbn [earth_state]. rewrite spawn_evaluation_spec. cbv zeta.
    set (s1 := snd (if both_detected (bothHands gs) && negb (isDualMode (earth_state w))
                       && (dualEarthCooldown (main_state w) <=? 0)%Z
                    then (set_cooldown 90 (main_state w),
                          spawnDualEarths (genLeft fr) (genRight fr) (earth_state w))
                    else (main_state w, earth_state w))).
    assert (O1 : state_ok s1).
    { unfold s1. destruct (_ && _); cbn [snd]; [by apply spawnDualEarths_ok|done]. }
    clearbody s1.
    destruct (negb (isDualEarthMode s1)).
    + eapply state_ok_kept; [exact O1|]. apply single_mode_kept.
    + by apply dual_mode_ok.
  - cbv zeta in Hcool. rewrite Hcool. destruct (_ && _); lia.
  - rewrite Hhh. eapply getGestureState_bounded; eassumption.
Qed.

Lemma animate_inv (fr : Frame) (w w' : World) :
  animate fr w = Some w' ->
  exists w1, processGestures fr w = Some w1 /\
    w' = {| main_state := main_state w1;
            earth_state := updateEarth (deltaTime fr) (earth_state w1);
            hand_history := hand_history w1 |}.
Proof.
  unfold animate. destruct (processGestures fr w) as [w1|]; [|discriminate].
  cbn [mbind option_bind]. intros [= <-]. eauto.
Qed.

Lemma handle_is_Some (ev : Event) (ss : Session) : wf_event ev -> is_Some (handle ev ss).
Proof.
  destruct ev as [fr|now|e]; cbn [handle wf_event].
  - intros (Hl & Hr & _). unfold animate.
    destruct (processGestures_is_Some fr (world ss) Hl Hr) as [w1 ->]. cbn. eauto.
  - eauto.
  - intros _. destruct (on_mouse _ _). eauto.
Qed.

Lemma handle_ok (ev : Event) (ss ss' : Session) :
  wf_event ev -> handle ev ss = Some ss' -> session_ok ss -> session_ok ss'.
Proof.
  intros Hev Hh (Hok & Hc & Hb). destruct ev as [fr|now|e]; cbn [handle] in Hh.
  - destruct (animate fr (world ss)) as [w'|] eqn:Ha; [|discriminate Hh].
    cbn [mbind option_bind] in Hh. injection Hh as <-.
    apply animate_inv in Ha as (w1 & Hp & ->).
    destruct Hev as (_ & _ & Hgl & Hgr).
    destruct (processGestures_ok fr (world ss) w1 Hgl Hgr Hp Hok Hc Hb) as (O1 & C1 & B1).
    unfold session_ok. cbn [world main_state earth_state hand_history].
    split; [|done]. eapply state_ok_kept; [exact O1|apply updateEarth_kept].
  - injection Hh as <-. unfold session_ok.
    cbn [world set_earth_state main_state earth_state hand_history].
    split; [|done]. by apply mergeAnimation_ok.
  - pose proof (on_mouse_kept e (mouse ss) (earth_state (world ss))) as Hk.
    destruct (on_mouse e (mouse ss, earth_state (world ss))) as [m s]. cbn [snd] in Hk.
    injection Hh as <-. unfold session_ok.
    cbn [world set_earth_state main_state earth_state hand_history].
    split; [|done]. eapply state_ok_kept; eassumption.
Qed.

Lemma session_init_ok (g : Generated) : wf_generated g -> session_ok (session_init g).
Proof.
  intros Hg. unfold session_ok, session_init.
  cbn [world main_state earth_state hand_history main_init dualEarthCooldown].
  split; [|split; [lia|split; cbn; lia]].
  split; [|split].
  - unfold lifecycle_consistent. cbn. split_and!; try done; try (by eexists);
      split; (done || by intros []).
  - unfold scales_in_range. cbn. split_and!; discriminate.
  - intros e [He|[He|He]]; cbn in He; try done. injection He as <-.
    apply (wf_instance_userData (createEarthInstance g)); [reflexivity|].
    by apply createEarthInstance_wf.
Qed.

Lemma run_ok (events : list Event) (ss : Session) :
  Forall wf_event events -> session_ok ss ->
  exists ss', run events ss = Some ss' /\ session_ok ss'.
Proof.
  intros Hev. revert ss. induction Hev as [|ev events Hw _ IH]; intros ss Hok.
  - exists ss. done.
  - cbn [run]. destruct (handle_is_Some ev ss Hw) as [ss1 H1]. rewrite H1.
    cbn [mbind option_bind]. apply IH. eapply handle_ok; eassumption.
Qed.

(** X10: whatever frames of well-formed hands, runs of the merge callback
    and mouse events follow [init], no callback throws and the state of
    earth.js stays consistent: the primary instance exists and is visible
    exactly outside dual mode; a merge is only in progress in dual mode and
    exactly while its callback is pending; both secondary instances exist
    exactly in dual mode; and the scene holds the primary instance, followed in
    dual mode by the left and the right one. *)
Theorem reachable_lifecycle (g : Generated) (events : list Event) :
  wf_generated g -> Forall wf_event events ->
  exists ss, run events (session_init g) = Some ss /\
    lifecycle_consistent (earth_state (world ss)).
Proof.
  intros Hg Hev. destruct (run_ok events (session_init g) Hev (session_init_ok g Hg))
    as (ss & Hrun & (Hl & _) & _).
  exists ss. split; [exact Hrun|exact Hl].
Qed.

(** X11: along every such run the current and the target scale stay in
    [[0.3, 2]], the cooldown stays in [[0, 90]], each hand history holds at
    most five samples, and the six arrays of every instance keep the sizes
    the loops run over. *)
Theorem reachable_ranges (g : Generated) (events : list Event) :
  wf_generated g -> Forall wf_event events ->
  exists ss, run events (session_init g) = Some ss /\
    scales_in_range (earth_state (world ss)) /\
    (0 <= dualEarthCooldown (main_state (world ss)) <= 90)%Z /\
    history_bounded (hand_history (world ss)) /\
    instances_wf (earth_state (world ss)).
Proof.
  intros Hg Hev. destruct (run_ok events (session_init g) Hev (session_init_ok g Hg))
    as (ss & Hrun & (_ & Hs & Hi) & Hc & Hb).
  exists ss. split; [exact Hrun|]. split; [exact Hs|]. split; [exact Hc|].
  split; [exact Hb|exact Hi].
Qed.

(** X12: the lifecycle after a frame. From [SINGLE] the frame ends in dual
    mode exactly when both hands are detected and the cooldown has run down:
    in [MERGING] if the pair is grasping in that same frame, else in [DUAL].
    From [DUAL] it ends in [MERGING] exactly on a merge request, else in
    [DUAL]; from [MERGING] it stays there. A frame that enters dual mode
    leaves the cooldown at 89, every other frame lowers it by one down to 0;
    and a merge started by the frame records the clock value of that frame. *)
Theorem frame_transition (fr : Frame) (w : World) :
  wf_hand (leftHand fr) -> wf_hand (rightHand fr) ->
  exists gs hh w',
    getGestureState (leftHand fr) (rightHand fr) (previousGestureState (main_state w))
      (nowLeft fr) (nowRight fr) (hand_history w) = Some (gs, hh) /\
    animate fr w = Some w' /\
    let c := dualEarthCooldown (main_state w) in
    let spawn := both_detected (bothHands gs) && (c <=? 0)%Z in
    getEarthMode (earth_state w')
    = match getEarthMode (earth_state w) with
      | SINGLE => if spawn
                  then if both_grasping (bothHands gs) then MERGING else DUAL
                  else SINGLE
      | DUAL => if merge_requested gs (Z.max 0 (c - 1)) then MERGING else DUAL
      | MERGING => MERGING
      end /\
    dualEarthCooldown (main_state w')
    = (if spawn && negb (isDualMode (earth_state w)) then 89 else Z.max 0 (c - 1))%Z /\
    (getEarthMode (earth_state w) <> MERGING ->
     getEarthMode (earth_state w') = MERGING ->
     pendingMerge (earth_state w') = Some (nowMerge fr)).
Proof.
  intros Hl Hr.
  destruct (getGestureState_is_Some (leftHand fr) (rightHand fr)
              (previousGestureState (main_state w)) (nowLeft fr) (nowRight fr)
              (hand_history w) Hl Hr) as (gs & hh & Hgs & _).
  destruct (processGestures_flags fr w gs hh Hgs) as (w1 & Hp & _ & _ & Hf).
  cbv zeta in Hf. destruct Hf as (Hc & Hd & Hm & Hpm).
  exists gs, hh. eexists. split; [exact Hgs|].
  split; [unfold animate; rewrite Hp; reflexivity|].
  cbv zeta. cbn [main_state earth_state].
  destruct (updateEarth_flags (deltaTime fr) (earth_state w1)) as [U1 U2].
  destruct (updateEarth_kept (deltaTime fr) (earth_state w1)) as (_ & _ & _ & U3 & _).
  rewrite Hc, Hd in Hm, Hpm.
  unfold getEarthMode. rewrite U1, U2, U3, Hc, Hpm, Hm, Hd.
  clear U1 U2 U3 Hc Hpm Hm Hd Hp.
  unfold merge_requested.
  destruct (isMerging (earth_state w)), (isDualMode (earth_state w)),
    (both_detected (bothHands gs)) eqn:Eb, (dualEarthCooldown (main_state w) <=? 0)%Z;
    cbn [andb orb negb];
    try (split; [reflexivity|split; [reflexivity|intros Hn; by destruct Hn]]).
  all: try rewrite !andb_false_r; try rewrite !orb_false_r; cbn [andb orb negb].
  all: destruct (both_grasping (bothHands gs)); cbn [andb orb negb].
  all: try (split; [reflexivity|split; [reflexivity|intros _ _; reflexivity]]).
  all: try (split; [reflexivity|split; [reflexivity|intros _ Hn; discriminate Hn]]).
  all: destruct (detected (gs_left gs) || detected (gs_right gs)); cbn [andb orb negb].
  all: try (split; [reflexivity|split; [reflexivity|intros _ Hn; discriminate Hn]]).
  all: destruct (Z.max 0 (dualEarthCooldown (main_state w) - 1) <=? 0)%Z.
  all: split; [reflexivity|split; [reflexivity|intros _ Hn; first [reflexivity|discriminate Hn]]].
Qed.

(** *** Several callbacks *)

Lemma run_app (a b : list Event) (ss : Session) :
  run (a ++ b) ss = run a ss ≫= run b.
Proof.
  revert ss. induction a as [|ev a IH]; intros ss; [reflexivity|].
  cbn [app run]. destruct (handle ev ss) as [ss1|]; [|reflexivity].
  cbn [mbind option_bind]. apply IH.
Qed.

Lemma no_pair_grasp_flag (fr : Frame) prev hh gs hh' :
  no_pair_grasp (frame_event fr) ->
  getGestureState (leftHand fr) (rightHand fr) prev (nowLeft fr) (nowRight fr) hh
  = Some (gs, hh') ->
  both_grasping (bothHands gs) = false.
Proof.
  intros Hn Hgs. cbn in Hn.
  apply getGestureState_inv in Hgs as (_ & _ & _ & _ & _ & _ & _ & _ & _ & _ & _ & Hg & _).
  congruence.
Qed.

Lemma handle_dual_hold (ev : Event) (ss : Session) :
  session_ok ss -> getEarthMode (earth_state (world ss)) = DUAL ->
  wf_event ev -> no_pair_grasp ev ->
  (is_frame ev = true -> (1 < dualEarthCooldown (main_state (world ss)))%Z) ->
  exists ss', handle ev ss = Some ss' /\ session_ok ss' /\
    getEarthMode (earth_state (world ss')) = DUAL /\
    dualEarthCooldown (main_state (world ss'))
    = (dualEarthCooldown (main_state (world ss)) - (if is_frame ev then 1 else 0))%Z.
Proof.
  intros Hok Hmode Hev Hn Hc.
  destruct (handle_is_Some ev ss Hev) as [ss' Hh]. exists ss'.
  split; [exact Hh|]. split; [eapply handle_ok; eassumption|].
  apply dual_flags in Hmode as [Hd Hm].
  destruct ev as [fr|now|e]; cbn [handle is_frame] in *.
  - specialize (Hc eq_refl).
    destruct (animate fr (world ss)) as [w'|] eqn:Ha; [|discriminate Hh].
    cbn [mbind option_bind] in Hh. apply (inj Some) in Hh. subst ss'. cbn [world].
    apply animate_inv in Ha as (w1 & Hp & ->). cbn [earth_state main_state].
    destruct Hev as (Hl & Hr & _).
    destruct (getGestureState_is_Some (leftHand fr) (rightHand fr)
                (previousGestureState (main_state (world ss))) (nowLeft fr) (nowRight fr)
                (hand_history (world ss)) Hl Hr) as (gs & hh & Hgs & _).
    destruct (processGestures_flags fr (world ss) gs hh Hgs) as (w2 & Hp2 & _ & _ & Hf).
    rewrite Hp in Hp2. apply (inj Some) in Hp2. subst w2.
    cbv zeta in Hf. destruct Hf as (Hc1 & Hd1 & Hm1 & _).
    rewrite Hd, andb_false_r in Hc1. cbn [andb] in Hc1.
    rewrite Hd in Hd1. cbn [orb] in Hd1.
    rewrite Hm, Hd1, Hc1 in Hm1. cbn [orb andb] in Hm1.
    unfold merge_requested in Hm1.
    rewrite (no_pair_grasp_flag fr _ _ _ _ Hn Hgs) in Hm1. cbn [orb] in Hm1.
    replace (Z.max 0 (dualEarthCooldown (main_state (world ss)) - 1) <=? 0)%Z
      with false in Hm1 by (symmetry; apply Z.leb_gt; lia).
    rewrite andb_false_r in Hm1.
    destruct (updateEarth_flags (deltaTime fr) (earth_state w1)) as [U1 U2].
    split; [apply dual_flags; split; congruence|]. rewrite Hc1. lia.
  - apply (inj Some) in Hh. subst ss'. cbn [world set_earth_state earth_state main_state].
    destruct Hok as (((_ & _ & L3 & _) & _) & _).
    assert (Hp : pendingMerge (earth_state (world ss)) = None).
    { destruct (pendingMerge _) eqn:E; [|done].
      assert (isMerging (earth_state (world ss)) = true) by (apply L3; eauto). congruence. }
    unfold mergeAnimation. rewrite Hp. split; [by apply dual_flags|lia].
  - pose proof (on_mouse_kept e (mouse ss) (earth_state (world ss))) as (K1 & K2 & _).
    destruct (on_mouse e (mouse ss, earth_state (world ss))) as [m s]. cbn [snd] in K1, K2.
    apply (inj Some) in Hh. subst ss'. cbn [world set_earth_state earth_state main_state].
    split; [apply dual_flags; split; congruence|lia].
Qed.

(** X13: while the cooldown set by the spawn runs, the pair of earths stays.
    From a consistent session in [DUAL], any callbacks in which no pair grasp
    is seen, and whose frames are fewer than the cooldown, leave the
    lifecycle in [DUAL], whichever hands appear or disappear, and lower the
    cooldown by the number of frames. *)
Theorem cooldown_holds_dual (events : list Event) (ss : Session) :
  session_ok ss -> getEarthMode (earth_state (world ss)) = DUAL ->
  Forall wf_event events -> Forall no_pair_grasp events ->
  (Z.of_nat (length (filter is_frame events))
   < dualEarthCooldown (main_state (world ss)))%Z ->
  exists ss', run events ss = Some ss' /\
    getEarthMode (earth_state (world ss')) = DUAL /\
    dualEarthCooldown (main_state (world ss'))
    = (dualEarthCooldown (main_state (world ss))
       - Z.of_nat (length (filter is_frame events)))%Z.
Proof.
  intros Hok Hmode Hev. revert ss Hok Hmode.
  induction Hev as [|ev events Hw _ IH]; intros ss Hok Hmode Hn Hc.
  - exists ss. cbn. split; [done|]. split; [done|lia].
  - apply Forall_cons in Hn as [Hn1 Hn]. rewrite filter_cons in Hc |- *.
    destruct (handle_dual_hold ev ss Hok Hmode Hw Hn1) as (ss1 & H1 & Hok1 & Hm1 & Hc1).
    { intros Hf. rewrite Hf in Hc. rewrite decide_True in Hc by done.
      cbn [length] in Hc. lia. }
    destruct (IH ss1 Hok1 Hm1 Hn) as (ss' & Hrun & Hm' & Hc').
    { rewrite Hc1. destruct (is_frame ev); [rewrite decide_True in Hc by done|
                                             rewrite decide_False in Hc by (intros []) ];
        cbn [length] in Hc; lia. }
    exists ss'. cbn [run]. rewrite H1. cbn [mbind option_bind].
    split; [exact Hrun|]. split; [exact Hm'|]. rewrite Hc', Hc1.
    destruct (is_frame ev); [rewrite decide_True by done|rewrite decide_False by (intros [])];
      cbn [length]; lia.
Qed.

(** *** A merge in flight *)

Lemma in_flight_kept t0 g (s s' : Earth.State) :
  state_kept s s' -> earthGroup s' = earthGroup s -> in_flight t0 g s -> in_flight t0 g s'.
Proof.
  intros (K1 & K2 & _ & K4 & _ & K6 & K7 & _) Hg (Hp & Hm & Hd & He & Hl & Hr).
  unfold in_flight. rewrite K1, K2, K4, Hg. split_and!; try done.
  - destruct Hl as [l Hl]. rewrite Hl in K6. inversion K6. eauto.
  - destruct Hr as [r Hr]. rewrite Hr in K7. inversion K7. eauto.
Qed.

Lemma updateEarth_hidden (dt : Q) (s : Earth.State) (g : Group) :
  earthGroup s = Some g -> visible g = false -> earthGroup (updateEarth dt s) = earthGroup s.
Proof.
  intros Hg Hv. unfold updateEarth. cbv zeta.
  destruct s as [eg le re d mg rx ry sc ts sn pm]; cbn in *. subst eg. rewrite Hv.
  destruct d, mg, le, re; reflexivity.
Qed.

Lemma on_mouse_primary (e : MouseEvent) (m : Mouse) (s : Earth.State) :
  earthGroup (snd (on_mouse e (m, s))) = earthGroup s.
Proof. destruct e; cbn; try reflexivity. destruct (negb (isDragging m)); reflexivity. Qed.

Lemma dual_mode_while_merging gs now m s :
  isMerging s = true ->
  state_kept s (snd (dual_mode gs now (m, s))) /\
  earthGroup (snd (dual_mode gs now (m, s))) = earthGroup s.
Proof.
  intros Hm. unfold dual_mode. cbv zeta. cbn [snd].
  set (s1 := if detected (gs_left gs)
             then set_leftEarth (hand_controls (gs_left gs) <$> getLeftEarth s) s else s).
  set (s2 := if detected (gs_right gs)
             then set_rightEarth (hand_controls (gs_right gs) <$> getRightEarth s1) s1
             else s1).
  assert (K1 : state_kept s s1).
  { apply state_kept_if, set_leftEarth_kept, hand_controls_kept. }
  assert (K2 : state_kept s s2).
  { apply (state_kept_trans _ _ _ K1).
    apply state_kept_if, set_rightEarth_kept, hand_controls_kept. }
  assert (E2 : earthGroup s2 = earthGroup s).
  { unfold s2, s1. destruct (detected (gs_left gs)), (detected (gs_right gs)); reflexivity. }
  assert (Hm2 : isMerging s2 = true) by (destruct K2 as (_ & -> & _); exact Hm).
  clearbody s2. clear K1 s1.
  assert (Hmerge : mergeEarths now s2 = s2).
  { unfold mergeEarths. rewrite Hm2, orb_true_r. reflexivity. }
  destruct (both_grasping (bothHands gs)); rewrite ?Hmerge;
    destruct (negb (both_detected (bothHands gs))
              && (detected (gs_left gs) || detected (gs_right gs)));
    try destruct (dualEarthCooldown m <=? 0)%Z; rewrite ?Hmerge; done.
Qed.

Lemma handle_in_flight t0 g (ev : Event) (ss ss' : Session) :
  handle ev ss = Some ss' -> before_due t0 ev ->
  state_ok (earth_state (world ss)) ->
  in_flight t0 g (earth_state (world ss)) -> in_flight t0 g (earth_state (world ss')).
Proof.
  intros Hh Hdue Hok Hin.
  pose proof Hin as (Hp & Hm & Hd & Hg & _).
  destruct ev as [fr|now|e]; cbn [handle before_due] in *.
  - destruct (animate fr (world ss)) as [w'|] eqn:Ha; [|discriminate Hh].
    cbn [mbind option_bind] in Hh. apply (inj Some) in Hh. subst ss'. cbn [world].
    apply animate_inv in Ha as (w1 & Hp1 & ->). cbn [earth_state].
    destruct (getGestureState (leftHand fr) (rightHand fr)
                (previousGestureState (main_state (world ss))) (nowLeft fr) (nowRight fr)
                (hand_history (world ss))) as [[gs hh]|] eqn:Hgs;
      [|unfold processGestures in Hp1; rewrite Hgs in Hp1; discriminate Hp1].
    pose proof (processGestures_unfold fr (world ss) gs hh Hgs) as Hu. cbv zeta in Hu.
    rewrite Hu in Hp1. apply (inj Some) in Hp1.
    rewrite spawn_evaluation_spec in Hp1. cbv zeta in Hp1.
    rewrite Hd, andb_false_r in Hp1. cbn [andb fst snd] in Hp1.
    unfold isDualEarthMode in Hp1. rewrite Hd in Hp1. cbn [negb] in Hp1.
    destruct (dual_mode_while_merging gs (nowMerge fr)
                (cooldown_tick (main_state (world ss))) (earth_state (world ss)) Hm)
      as [K1 E1].
    assert (Hin1 : in_flight t0 g (earth_state w1)).
    { rewrite <- Hp1. cbn [earth_state]. eapply in_flight_kept; eassumption. }
    eapply in_flight_kept; [apply updateEarth_kept| |exact Hin1].
    destruct Hin1 as (_ & _ & Hd1 & Hg1 & _).
    apply (updateEarth_hidden _ _ g Hg1).
    assert (O1 : state_ok (earth_state w1)).
    { eapply state_ok_kept; [exact Hok|]. rewrite <- Hp1. exact K1. }
    destruct O1 as (((g' & Hg' & Hv') & _) & _). rewrite Hg1 in Hg'.
    injection Hg' as <-. rewrite Hv', Hd1. reflexivity.
  - apply (inj Some) in Hh. subst ss'. cbn [world set_earth_state earth_state].
    by apply mergeAnimation_in_flight.
  - pose proof (on_mouse_kept e (mouse ss) (earth_state (world ss))) as K.
    pose proof (on_mouse_primary e (mouse ss) (earth_state (world ss))) as E.
    destruct (on_mouse e (mouse ss, earth_state (world ss))) as [m s]. cbn [snd] in K, E.
    apply (inj Some) in Hh. subst ss'. cbn [world set_earth_state earth_state].
    eapply in_flight_kept; eassumption.
Qed.

Lemma progress_due (t0 t : Z) :
  (t0 + 1000 <= t)%Z -> Qltb (Math_min (inject_Z (t - t0) / merge_duration) 1) 1 = false.
Proof.
  intros Ht. apply not_true_is_false. rewrite Qltb_lt. unfold Math_min, merge_duration.
  assert (H : 1 <= inject_Z (t - t0) / 1000).
  { apply Qle_shift_div_l; [reflexivity|]. rewrite Qmult_1_l.
    change 1000 with (inject_Z 1000). rewrite <- Zle_Qle. lia. }
  destruct (Q.min_spec (inject_Z (t - t0) / 1000) 1) as [[H1 _]|[_ ->]]; lra.
Qed.

Lemma mergeAnimation_due t0 g now (s : Earth.State) :
  (t0 + 1000 <= now)%Z -> lifecycle_consistent s -> in_flight t0 g s ->
  let s' := mergeAnimation now s in
  getEarthMode s' = SINGLE /\ leftEarth s' = None /\ rightEarth s' = None /\
  scene s' = ["mainEarth"] /\
  earthGroup s' = Some (setScalar 1 (set_visible true g)) /\ pendingMerge s' = None.
Proof.
  intros Ht (_ & _ & _ & _ & _ & Hsc) (Hp & Hm & Hd & Hg & (l' & Hl) & (r' & Hr)).
  unfold mergeAnimation. rewrite Hp, Hl, Hr. cbv zeta.
  rewrite (progress_due t0 now Ht). destruct s; cbn in *. subst. cbn.
  repeat split.
Qed.

(** X14: a merge in flight completes, whatever happens meanwhile. From a
    consistent state with a merge begun at [t0], any frames of well-formed
    hands, mouse events and runs of the merge callback before [t0 + 1000]
    leave the merge in flight; the first run of the callback at or after
    [t0 + 1000] then leaves the lifecycle [SINGLE], with both secondary
    instances forgotten, the scene holding the primary instance alone, and
    the primary instance as it was before the merge, visible at scale 1. *)
Theorem merge_completes t0 g now (events : list Event) (ss : Session) :
  session_ok ss -> in_flight t0 g (earth_state (world ss)) ->
  Forall wf_event events -> Forall (before_due t0) events ->
  (t0 + 1000 <= now)%Z ->
  exists ss1 ss',
    run events ss = Some ss1 /\ in_flight t0 g (earth_state (world ss1)) /\
    run (events ++ [merge_tick now]) ss = Some ss' /\
    getEarthMode (earth_state (world ss')) = SINGLE /\
    leftEarth (earth_state (world ss')) = None /\
    rightEarth (earth_state (world ss')) = None /\
    scene (earth_state (world ss')) = ["mainEarth"] /\
    earthGroup (earth_state (world ss')) = Some (setScalar 1 (set_visible true g)) /\
    pendingMerge (earth_state (world ss')) = None.
Proof.
  intros Hok Hin Hev Hdue Ht.
  assert (Hrun : exists ss1, run events ss = Some ss1 /\ session_ok ss1 /\
                   in_flight t0 g (earth_state (world ss1))).
  { revert ss Hok Hin Hdue. induction Hev as [|ev events Hw _ IH]; intros ss Hok Hin Hdue.
    - exists ss. done.
    - apply Forall_cons in Hdue as [Hd1 Hdue].
      destruct (handle_is_Some ev ss Hw) as [ss1 H1].
      destruct (IH ss1) as (ss2 & Hr & Hok2 & Hin2); [| |exact Hdue|].
      + eapply handle_ok; eassumption.
      + eapply handle_in_flight; [exact H1|exact Hd1|apply Hok|exact Hin].
      + exists ss2. cbn [run]. rewrite H1. cbn [mbind option_bind]. done. }
  destruct Hrun as (ss1 & Hr & ((Hlc & _) & _) & Hin1).
  exists ss1. eexists. split; [exact Hr|]. split; [exact Hin1|].
  split; [rewrite run_app, Hr; reflexivity|].
  cbn [world set_earth_state earth_state].
  exact (mergeAnimation_due t0 g now _ Ht Hlc Hin1).
Qed.

End SessionFacts.

(** *** The sample sessions *)

Lemma dual_state_ok : state_ok dual_state.
Proof.
  apply spawnDualEarths_ok; try apply generated_sample_wf.
  exact (proj1 (session_init_ok generated_sample generated_sample_wf)).
Qed.

Lemma spawned_session_ok : session_ok spawned_session.
Proof.
  split; [exact dual_state_ok|]. split; [cbn; lia|]. split; cbn; lia.
Qed.

Lemma merging_session_ok : session_ok merging_session.
Proof.
  split; [apply mergeEarths_ok, dual_state_ok|]. split; [cbn; lia|]. split; cbn; lia.
Qed.

Lemma open_left_frame_wf : wf_event (frame_event open_left_frame).
Proof.
  split; [reflexivity|]. split; [exact I|]. split; apply generated_sample_wf.
Qed.

Lemma reachable_lifecycle_witness :
  wf_generated generated_sample /\
  Forall wf_event [frame_event open_left_frame; mouse_event (wheel 100); merge_tick 5] /\
  exists ss,
    run (M := runtime_6)
      [frame_event open_left_frame; mouse_event (wheel 100); merge_tick 5]
      (session_init generated_sample) = Some ss /\
    lifecycle_consistent (earth_state (world ss)).
Proof.
  assert (Hev : Forall wf_event
                  [frame_event open_left_frame; mouse_event (wheel 100); merge_tick 5]).
  { repeat constructor; apply open_left_frame_wf. }
  split; [exact generated_sample_wf|]. split; [exact Hev|].
  exact (reachable_lifecycle (M := runtime_6) generated_sample _ generated_sample_wf Hev).
Defined.

Lemma reachable_ranges_witness :
  wf_generated generated_sample /\
  Forall wf_event [mouse_event (wheel (-5000)); frame_event open_left_frame] /\
  exists ss,
    run (M := runtime_6) [mouse_event (wheel (-5000)); frame_event open_left_frame]
      (session_init generated_sample) = Some ss /\
    scales_in_range (earth_state (world ss)) /\
    (0 <= dualEarthCooldown (main_state (world ss)) <= 90)%Z.
Proof.
  assert (Hev : Forall wf_event
                  [mouse_event (wheel (-5000)); frame_event open_left_frame]).
  { repeat constructor; apply open_left_frame_wf. }
  split; [exact generated_sample_wf|]. split; [exact Hev|].
  destruct (reachable_ranges (M := runtime_6) generated_sample _ generated_sample_wf Hev)
    as (ss & Hrun & Hs & Hc & _).
  exists ss. split; [exact Hrun|]. split; [exact Hs|exact Hc].
Defined.

Lemma frame_transition_witness :
  wf_hand (Some (fist 0.3 0.5)) /\ wf_hand (Some (fist 0.7 0.5)) /\
  exists w',
    animate (M := runtime_6) (frame (Some (fist 0.3 0.5)) (Some (fist 0.7 0.5)) 100)
      (world (session_init generated_sample)) = Some w' /\
    getEarthMode (earth_state w') = DUAL /\
    dualEarthCooldown (main_state w') = 89%Z.
Proof.
  split; [reflexivity|]. split; [reflexivity|].
  destruct (frame_transition (M := runtime_6)
              (frame (Some (fist 0.3 0.5)) (Some (fist 0.7 0.5)) 100)
              (world (session_init generated_sample)) eq_refl eq_refl)
    as (gs & hh & w' & Hgs & Ha & Hmode & Hc & _).
  exists w'. split; [exact Ha|].
  vm_compute in Hgs. injection Hgs as <- _.
  split; [exact Hmode|exact Hc].
Defined.

Lemma cooldown_holds_dual_witness :
  session_ok spawned_session /\
  getEarthMode (earth_state (world spawned_session)) = DUAL /\
  Forall (no_pair_grasp (M := runtime_6))
    [frame_event open_left_frame; mouse_event mouseup; frame_event (frame None None 200)] /\
  exists ss',
    run (M := runtime_6)
      [frame_event open_left_frame; mouse_event mouseup; frame_event (frame None None 200)]
      spawned_session = Some ss' /\
    getEarthMode (earth_state (world ss')) = DUAL /\
    dualEarthCooldown (main_state (world ss')) = 87%Z.
Proof.
  assert (Hev : Forall wf_event
                  [frame_event open_left_frame; mouse_event mouseup;
                   frame_event (frame None None 200)]).
  { repeat constructor; try apply open_left_frame_wf; apply generated_sample_wf. }
  assert (Hn : Forall (no_pair_grasp (M := runtime_6))
                 [frame_event open_left_frame; mouse_event mouseup;
                  frame_event (frame None None 200)]).
  { repeat constructor. }
  split; [exact spawned_session_ok|]. split; [reflexivity|]. split; [exact Hn|].
  refine (cooldown_holds_dual (M := runtime_6) _ spawned_session spawned_session_ok
            eq_refl Hev Hn _).
  reflexivity.
Defined.

Lemma merge_completes_witness :
  session_ok merging_session /\
  Forall (before_due 0)
    [frame_event open_left_frame; merge_tick 500; mouse_event (mousedown 1 1)] /\
  exists g ss',
    in_flight 0 g (earth_state (world merging_session)) /\
    run (M := runtime_6)
      ([frame_event open_left_frame; merge_tick 500; mouse_event (mousedown 1 1)]
       ++ [merge_tick 1016]) merging_session = Some ss' /\
    getEarthMode (earth_state (world ss')) = SINGLE /\
    scene (earth_state (world ss')) = ["mainEarth"].
Proof.
  assert (Hev : Forall wf_event
                  [frame_event open_left_frame; merge_tick 500;
                   mouse_event (mousedown 1 1)]).
  { repeat constructor; apply open_left_frame_wf. }
  assert (Hdue : Forall (before_due 0)
                   [frame_event open_left_frame; merge_tick 500;
                    mouse_event (mousedown 1 1)]).
  { repeat constructor. }
  split; [exact merging_session_ok|]. split; [exact Hdue|].
  destruct (proj1 (proj1 (proj1 merging_session_ok))) as (g & Hg & _).
  assert (Hin : in_flight 0 g (earth_state (world merging_session))).
  { unfold in_flight. split_and!; try reflexivity; [exact Hg|eexists; reflexivity..]. }
  destruct (merge_completes (M := runtime_6) 0 g 1016 _ merging_session
              merging_session_ok Hin Hev Hdue) as (ss1 & ss' & _ & _ & Hrun & Hm & _ & _ & Hsc & _);
    [lia|].
  exists g, ss'. split; [exact Hin|]. split; [exact Hrun|]. split; [exact Hm|exact Hsc].
Defined.

(** ** The merge animation, continued *)

Lemma progress_in_flight (t0 now : Z) :
  (t0 <= now < t0 + 1000)%Z ->
  Math_min (inject_Z (now - t0) / merge_duration) 1 == inject_Z (now - t0) / 1000 /\
  0 <= inject_Z (now - t0) / 1000 /\ inject_Z (now - t0) / 1000 < 1.
Proof.
  intros [H0 H1]. unfold Math_min, merge_duration.
  assert (Hlt : inject_Z (now - t0) / 1000 < 1).
  { apply Qlt_shift_div_r; [reflexivity|]. rewrite Qmult_1_l.
    change 1000 with (inject_Z 1000). rewrite <- Zlt_Qlt. lia. }
  assert (Hge : 0 <= inject_Z (now - t0) / 1000).
  { apply Qle_shift_div_l; [reflexivity|]. rewrite Qmult_0_l.
    change 0 with (inject_Z 0). rewrite <- Zle_Qle. lia. }
  split; [|done].
  destruct (Q.min_spec (inject_Z (now - t0) / 1000) 1) as [[_ ->]|[H _]]; [reflexivity|lra].
Qed.

Lemma cube (x : Q) : x ^ 3 = x * (x * x).
Proof. reflexivity. Qed.

(** X15: a run of the merge callback while the merge is in flight, at a
    clock value [now] with [t0 <= now < t0 + 1000], puts the two secondary
    instances at mirrored offsets [-x] and [x] with
    [x = 1.2 * (1 - p) ^ 3], where [p] is the elapsed fraction
    [(now - t0) / 1000]; so the offset lies in (0, 1.2]. Both get the same
    scale [(1 - 0.3 * (1 - p) ^ 3) * (1 - p / 2)]; nothing else of them
    changes. The offsets depend on the clock value alone, not on earlier
    runs. *)
Theorem merge_offsets t0 g now (s : Earth.State) (l r : Group) :
  in_flight t0 g s -> leftEarth s = Some l -> rightEarth s = Some r ->
  (t0 <= now < t0 + 1000)%Z ->
  let p := inject_Z (now - t0) / 1000 in
  exists l' r',
    leftEarth (mergeAnimation now s) = Some l' /\
    rightEarth (mergeAnimation now s) = Some r' /\
    position_x r' == 1.2 * (1 - p) ^ 3 /\ position_x l' == - position_x r' /\
    0 < position_x r' /\ position_x r' <= 1.2 /\
    scale l' = scale r' /\ scale r' == (1 - 0.3 * (1 - p) ^ 3) * (1 - p / 2) /\
    set_position_x (position_x l) (setScalar (scale l) l') = l /\
    set_position_x (position_x r) (setScalar (scale r) r') = r.
Proof.
  intros (Hp & Hm & Hd & Hg & _) Hl Hr Ht. cbv zeta.
  destruct (progress_in_flight t0 now Ht) as (Hq & H0 & H1).
  unfold mergeAnimation. rewrite Hp, Hl, Hr. cbv zeta.
  rewrite (progress_lt_1 t0 now (proj2 Ht)).
  revert Hq. generalize (Math_min (inject_Z (now - t0) / merge_duration) 1).
  revert H0 H1. generalize (inject_Z (now - t0) / 1000). intros p H0 H1 q Hq.
  eexists _, _. split; [reflexivity|]. split; [reflexivity|].
  cbn [position_x set_position_x set_position setScalar scale]. unfold Math_pow.
  rewrite !cube.
  assert (Hc : 0 < (1 - p) * ((1 - p) * (1 - p)) /\ (1 - p) * ((1 - p) * (1 - p)) <= 1).
  { assert (P0 : 0 < 1 - p) by lra. assert (P1 : 1 - p <= 1) by lra.
    revert P0 P1. generalize (1 - p). intros x P0 P1.
    assert (Y0 : 0 < x * x) by (apply Qmult_lt_0_compat; exact P0).
    assert (Y1 : x * x <= 1) by nra.
    revert Y0 Y1. generalize (x * x). intros y Y0 Y1.
    split; [apply Qmult_lt_0_compat; assumption|nra]. }
  split_and!.
  - rewrite Hq. ring.
  - ring.
  - rewrite Hq. lra.
  - rewrite Hq. lra.
  - reflexivity.
  - rewrite Hq. field.
  - destruct l; reflexivity.
  - destruct r; reflexivity.
Qed.

Lemma merge_offsets_witness :
  exists g l' r',
    in_flight 0 g (mergeEarths 0 dual_state) /\
    leftEarth (mergeAnimation 500 (mergeEarths 0 dual_state)) = Some l' /\
    rightEarth (mergeAnimation 500 (mergeEarths 0 dual_state)) = Some r' /\
    position_x r' == 0.15 /\ position_x l' == - position_x r'.
Proof.
  destruct (proj1 (proj1 (proj1 merging_session_ok))) as (g & Hg & _).
  assert (Hin : in_flight 0 g (mergeEarths 0 dual_state)).
  { unfold in_flight. split_and!; try reflexivity; [exact Hg|eexists; reflexivity..]. }
  destruct (merge_offsets 0 g 500 (mergeEarths 0 dual_state) _ _ Hin eq_refl eq_refl)
    as (l' & r' & Hl & Hr & Hx & Hs & _); [lia|].
  exists g, l', r'. split; [exact Hin|]. split; [exact Hl|]. split; [exact Hr|].
  split; [rewrite Hx; reflexivity|exact Hs].
Defined.

(** ** The mouse *)

Lemma on_mouse_idle (x y : Q) (m : Mouse) (s : Earth.State) :
  isDragging m = false -> on_mouse (mousemove x y) (m, s) = (m, s).
Proof. intros H. cbn. rewrite H. reflexivity. Qed.

Lemma last_cons_default {A : Type} (a : A) (l : list A) (d : A) :
  List.last (a :: l) d = List.last l a.
Proof.
  revert a d. induction l as [|b l IH]; intros a d; [reflexivity|].
  change (List.last (a :: b :: l) d) with (List.last (b :: l) d).
  by rewrite (IH b d), (IH b a).
Qed.

(** X16: a drag turns the globe by the displacement of the pointer alone.
    With the button held, after any sequence of pointer moves the two
    rotations have grown by 0.005 times the difference between the last and
    the first pointer position, whatever the path between; nothing else of
    the state changes. Without the button, moves change nothing. *)
Theorem drag_displacement (moves : list (Q * Q)) (m : Mouse) (s : Earth.State) :
  let after := foldl (λ ms p, on_mouse (mousemove (fst p) (snd p)) ms) (m, s) moves in
  let final := List.last moves (lastMousePos m) in
  (isDragging m = false -> after = (m, s)) /\
  (isDragging m = true ->
   fst after = {| isDragging := true; lastMousePos := final |} /\
   earthRotation_y (snd after)
   == earthRotation_y s + (fst final - fst (lastMousePos m)) * 0.005 /\
   earthRotation_x (snd after)
   == earthRotation_x s + (snd final - snd (lastMousePos m)) * 0.005 /\
   set_earthRotation_x (earthRotation_x s)
     (set_earthRotation_y (earthRotation_y s) (snd after)) = s).
Proof.
  cbv zeta. split.
  - intros Hd. induction moves as [|p moves IH] using rev_ind; [reflexivity|].
    rewrite foldl_app. cbn [foldl]. rewrite IH. by apply on_mouse_idle.
  - intros Hd. revert m s Hd. induction moves as [|[x y] moves IH]; intros m s Hd.
    + cbn. destruct m as [d pos], s; cbn in *. subst d. split_and!; try reflexivity; ring.
    + cbn [foldl fst snd]. cbn [on_mouse]. rewrite Hd. cbn [negb].
      match goal with |- context [foldl _ (?m1, ?s1) moves] =>
        destruct (IH m1 s1 eq_refl) as (I1 & I2 & I3 & I4) end.
      cbn [lastMousePos isDragging fst snd] in I1, I2, I3.
      rewrite last_cons_default.
      split; [exact I1|]. split; [rewrite I2; cbn; ring|]. split; [rewrite I3; cbn; ring|].
      clear I1 I2 I3 IH. revert I4.
      match goal with |- context [foldl ?f ?a moves] => generalize (snd (foldl f a moves)) end.
      intros A I4.
      apply (f_equal (λ t, set_earthRotation_x (earthRotation_x s)
                             (set_earthRotation_y (earthRotation_y s) t))) in I4.
      destruct A, s; cbn in *. exact I4.
Qed.

Lemma drag_displacement_witness :
  isDragging {| isDragging := true; lastMousePos := (1, 1) |} = true /\
  earthRotation_y
    (snd (foldl (λ ms p, on_mouse (mousemove (fst p) (snd p)) ms)
            ({| isDragging := true; lastMousePos := (1, 1) |}, single_state)
            [(5, 2); (2, 7); (3, 4)]))
  == 0.01.
Proof.
  split; [reflexivity|].
  destruct (drag_displacement [(5, 2); (2, 7); (3, 4)]
              {| isDragging := true; lastMousePos := (1, 1) |} single_state) as [_ H].
  destruct (H eq_refl) as (_ & Hy & _). rewrite Hy. reflexivity.
Defined.

(** ** The HUD *)

Lemma updateHUDPosition_step (f : Point) (h : HudState) (p : Point) :
  hudGroup h = Some p ->
  let h' := updateHUDPosition (Some f) h in
  let c := currentHUDPosition h in
  let c' := currentHUDPosition h' in
  hudGroup h' = Some c' /\
  px c' - px (hud_target f) == 0.9 * (px c - px (hud_target f)) /\
  py c' - py (hud_target f) == 0.9 * (py c - py (hud_target f)) /\
  pz c' - pz (hud_target f) == 0.9 * (pz c - pz (hud_target f)).
Proof.
  intros Hg. cbv zeta. unfold updateHUDPosition. rewrite Hg.
  cbn [hudGroup currentHUDPosition px py pz]. unfold SMOOTHING.
  split; [reflexivity|]. split_and!; ring.
Qed.

(** X17: the HUD closes a tenth of its distance to the target of the face in
    every frame: with the face held at one position, after [k] frames each
    coordinate of the HUD is off its target by [0.9 ^ k] times the first
    offset, and from the first frame on the group sits at the smoothed
    position. A frame without a face leaves the smoothed position where it is
    and puts the group there; before [createHUD3D] a frame changes nothing. *)
Theorem hud_follows (f : Point) (h : HudState) (p : Point) (k : nat) :
  hudGroup h = Some p ->
  let h' := Nat.iter k (updateHUDPosition (Some f)) h in
  let c := currentHUDPosition h in
  let c' := currentHUDPosition h' in
  px c' - px (hud_target f) == 0.9 ^ Z.of_nat k * (px c - px (hud_target f)) /\
  py c' - py (hud_target f) == 0.9 ^ Z.of_nat k * (py c - py (hud_target f)) /\
  pz c' - pz (hud_target f) == 0.9 ^ Z.of_nat k * (pz c - pz (hud_target f)) /\
  hudGroup h' = Some (match k with O => p | S _ => c' end) /\
  updateHUDPosition None h = {| hudGroup := Some c; currentHUDPosition := c |} /\
  (forall face c0,
     updateHUDPosition face {| hudGroup := None; currentHUDPosition := c0 |}
     = {| hudGroup := None; currentHUDPosition := c0 |}).
Proof.
  intros Hp. cbv zeta.
  assert (Hk : px (currentHUDPosition (Nat.iter k (updateHUDPosition (Some f)) h))
               - px (hud_target f)
               == 0.9 ^ Z.of_nat k * (px (currentHUDPosition h) - px (hud_target f)) /\
               py (currentHUDPosition (Nat.iter k (updateHUDPosition (Some f)) h))
               - py (hud_target f)
               == 0.9 ^ Z.of_nat k * (py (currentHUDPosition h) - py (hud_target f)) /\
               pz (currentHUDPosition (Nat.iter k (updateHUDPosition (Some f)) h))
               - pz (hud_target f)
               == 0.9 ^ Z.of_nat k * (pz (currentHUDPosition h) - pz (hud_target f)) /\
               hudGroup (Nat.iter k (updateHUDPosition (Some f)) h)
               = Some (match k with
                       | O => p
                       | S _ => currentHUDPosition
                                  (Nat.iter k (updateHUDPosition (Some f)) h)
                       end)).
  { induction k as [|k (I1 & I2 & I3 & I4)].
    - change (Z.of_nat 0) with 0%Z. cbn [Nat.iter nat_rect Qpower].
      split_and!; try ring. exact Hp.
    - rewrite !Nat.iter_succ, !Qpower_next.
      destruct (updateHUDPosition_step f _ _ I4) as (S0 & S1 & S2 & S3).
      rewrite S1, S2, S3, I1, I2, I3. split_and!; try ring. exact S0. }
  destruct Hk as (K1 & K2 & K3 & K4).
  split; [exact K1|]. split; [exact K2|]. split; [exact K3|]. split; [exact K4|].
  split; [unfold updateHUDPosition; rewrite Hp; reflexivity|].
  intros face c0. reflexivity.
Qed.

Lemma hud_follows_witness :
  hudGroup (createHUD3D hud_init) = Some {| px := 0; py := 0; pz := 0 |} /\
  px (currentHUDPosition
        (Nat.iter 2 (updateHUDPosition (Some {| px := 0.5; py := 0.5; pz := 0 |}))
           (createHUD3D hud_init)))
  == 0.057.
Proof.
  split; [reflexivity|].
  destruct (hud_follows {| px := 0.5; py := 0.5; pz := 0 |} (createHUD3D hud_init) _ 2
              eq_refl) as (Hx & _).
  cbv zeta in Hx. apply (Qplus_inj_r _ _ (- px (hud_target {| px := 0.5; py := 0.5; pz := 0 |}))).
  rewrite Hx. reflexivity.
Defined.

(** ** Pinch zoom *)

Section Zoom.
Context {M : MathRuntime}.




End Zoom.


(** ** The primary instance across frames *)

Lemma updateParticles_fields (e : Group) (dt : Q) :
  visible (updateParticles e dt) = visible e /\
  scale (updateParticles e dt) = scale e /\
  rotation_x (updateParticles e dt) = rotation_x e /\
  rotation_y (updateParticles e dt) = rotation_y e.
Proof.
  pose proof (updateParticles_frame e dt) as Hf. cbv zeta in Hf. destruct Hf as (Hf & _).
  split_and!.
  - exact (f_equal visible Hf).
  - exact (f_equal scale Hf).
  - exact (f_equal rotation_x Hf).
  - exact (f_equal rotation_y Hf).
Qed.

Lemma updateEarth_visible (dt : Q) (s : Earth.State) (g : Group) :
  earthGroup s = Some g -> visible g = true ->
  exists g',
    earthGroup (updateEarth dt s) = Some g' /\ visible g' = true /\
    scale g' = earthScale (updateEarth dt s) /\
    rotation_x g' = earthRotation_x s /\
    rotation_y g' = rotation_y g + dt * 0.1 + earthRotation_y s * 0.02 /\
    earthRotation_y (updateEarth dt s) = earthRotation_y s * 0.95 /\
    earthRotation_x (updateEarth dt s) = earthRotation_x s /\
    earthScale (updateEarth dt s) = earthScale s + (targetScale s - earthScale s) * 0.1 /\
    targetScale (updateEarth dt s) = targetScale s.
Proof.
  intros Hg Hv. unfold updateEarth. cbv zeta.
  destruct s as [eg le re d mg rx ry sc ts sn pm]; cbn in *. subst eg. rewrite Hv.
  cbn [earthGroup isDualMode isMerging leftEarth rightEarth set_earthGroup
       set_earthRotation_y set_earthScale earthScale earthRotation_y earthRotation_x
       targetScale].
  match goal with |- context [Some (updateParticles ?e dt)] =>
    destruct (updateParticles_fields e dt) as (F1 & F2 & F3 & F4);
    exists (updateParticles e dt) end.
  rewrite F1, F2, F3, F4.
  destruct d, mg, le, re; cbn; split_and!; try reflexivity; exact Hv.
Qed.

(** X19: with the primary instance visible and no gesture or mouse input,
    [k] frames of [updateEarth] bring the scale nine tenths closer to the
    target scale each, so that the gap is [0.9 ^ k] times the first gap; the
    rotation impulse decays by 0.95 per frame, and the instance has turned by
    [k * deltaTime * 0.1] plus [0.4 * (1 - 0.95 ^ k)] times the impulse it
    started with. From the first frame on the instance carries the smoothed
    scale and the stored rotation around [x]. *)
Theorem primary_follows (dt : Q) (s : Earth.State) (g : Group) (k : nat) :
  earthGroup s = Some g -> visible g = true ->
  let s' := Nat.iter k (updateEarth dt) s in
  targetScale s' = targetScale s /\
  earthScale s' - targetScale s == 0.9 ^ Z.of_nat k * (earthScale s - targetScale s) /\
  earthRotation_y s' == 0.95 ^ Z.of_nat k * earthRotation_y s /\
  exists g',
    earthGroup s' = Some g' /\ visible g' = true /\
    rotation_y g'
    == rotation_y g + inject_Z (Z.of_nat k) * (dt * 0.1)
       + 0.4 * (1 - 0.95 ^ Z.of_nat k) * earthRotation_y s /\
    ((0 < k)%nat -> scale g' = earthScale s' /\ rotation_x g' = earthRotation_x s).
Proof.
  intros Hg Hv. cbv zeta. induction k as [|k (I1 & I2 & I3 & g1 & I4 & I5 & I6 & I7)].
  - change (Z.of_nat 0) with 0%Z. cbn [Nat.iter nat_rect Qpower].
    split; [reflexivity|]. split; [ring|]. split; [ring|].
    exists g. split; [exact Hg|]. split; [exact Hv|]. split; [unfold inject_Z; ring|]. lia.
  - rewrite !Nat.iter_succ, !Qpower_next.
    destruct (updateEarth_visible dt _ g1 I4 I5)
      as (g' & U1 & U2 & U3 & U4 & U5 & U6 & U7 & U8 & U9).
    assert (Hx : earthRotation_x (Nat.iter k (updateEarth dt) s) = earthRotation_x s).
    { clear -Hg Hv. induction k as [|k IH]; [reflexivity|]. rewrite Nat.iter_succ.
      revert IH. generalize (Nat.iter k (updateEarth dt) s). intros s1 IH. rewrite <- IH.
      unfold updateEarth. cbv zeta. destruct s1 as [eg le re d mg rx ry sc ts sn pm]; cbn.
      destruct eg as [g0|]; [destruct (visible g0)|]; cbn; destruct d, mg, le, re; reflexivity. }
    split; [congruence|]. split; [rewrite U8, I1; rewrite <- I1 at 1; revert I2;
      generalize (earthScale (Nat.iter k (updateEarth dt) s));
      generalize (0.9 ^ Z.of_nat k); rewrite I1; intros a b I2|].
    + transitivity (0.9 * (b - targetScale s)); [ring|]. rewrite I2. ring.
    + split; [rewrite U6, I3; ring|].
      exists g'. split; [exact U1|]. split; [exact U2|].
      split; [|intros _; split; [exact U3|congruence]].
      rewrite U5, I6, I3, ?Qpower_next.
      rewrite Nat2Z.inj_succ. unfold Z.succ. rewrite inject_Z_plus.
      change (inject_Z 1) with 1. generalize (inject_Z (Z.of_nat k)). intros n. ring.
Qed.

Lemma primary_follows_witness :
  exists g,
    earthGroup single_state = Some g /\ visible g = true /\
    earthScale (Nat.iter 2 (updateEarth 0.016) (set_targetScale 2 single_state)) == 1.19.
Proof.
  eexists. split; [reflexivity|]. split; [reflexivity|].
  destruct (primary_follows 0.016 (set_targetScale 2 single_state) _ 2 eq_refl eq_refl)
    as (_ & Hs & _).
  apply (Qplus_inj_r _ _ (- targetScale (set_targetScale 2 single_state))).
  rewrite Hs. reflexivity.
Defined.

(** ** Waves *)

Lemma abs_sign (x : Q) : Math_abs x * Math_sign x == x.
Proof.
  unfold Math_abs, Math_sign. destruct x as [[|n|n] d]; unfold Qeq; cbn; lia.
Qed.

Lemma detectWave_wave h side now hh w hh' :
  detectWave h side now hh = Some (w, hh') ->
  exists xVelocity,
    velocity w = Math_abs xVelocity /\ direction w = Math_sign xVelocity /\
    isWaving w = Qgtb (Math_abs xVelocity) WAVE_VELOCITY_THRESHOLD.
Proof.
  assert (Hno : forall w, w = no_wave ->
            exists xVelocity,
              velocity w = Math_abs xVelocity /\ direction w = Math_sign xVelocity /\
              isWaving w = Qgtb (Math_abs xVelocity) WAVE_VELOCITY_THRESHOLD).
  { intros ? ->. exists 0. split; [reflexivity|]. split; reflexivity. }
  unfold detectWave. destruct h as [l|]; [|intros [= <- _]; by apply Hno].
  destruct (Nat.ltb (length l) 21); [intros [= <- _]; by apply Hno|].
  destruct (getPalmCenter l) as [palm|]; [|discriminate].
  cbn [mbind option_bind]. cbv zeta.
  destruct (Nat.ltb _ 2); [intros [= <- _]; by apply Hno|].
  intros H. split_binds H. destruct (Qltb _ _); [injection H as <- _; by apply Hno|].
  apply (inj Some) in H. apply pair_equal_spec in H as [Hw _]. rewrite <- Hw.
  eexists. cbn [velocity direction isWaving]. split; [reflexivity|]. split; reflexivity.
Qed.

Section Waves.
Context {M : MathRuntime}.

(** X20: what a wave turns. Outside dual mode each waving hand adds to the
    rotation impulse [-0.5] times its signed palm velocity, so waves to the
    left and to the right turn the globe opposite ways. In dual mode the wave
    of a hand turns the instance of that hand by 0.15 times the absolute
    velocity: always the same way, whatever the direction of the wave. A
    waving hand has an absolute velocity above 0.02. *)
Theorem wave_turns l r prev nl nr hh gs hh' :
  getGestureState l r prev nl nr hh = Some (gs, hh') ->
  let turn (h : HandState) :=
    if isWaving (wave h) then velocity (wave h) * direction (wave h) else 0 in
  (forall m s,
     earthRotation_y (snd (single_mode gs (m, s)))
     == earthRotation_y s - 0.5 * turn (gs_left gs) - 0.5 * turn (gs_right gs)) /\
  (forall g, rotation_y (hand_controls (gs_left gs) g)
             == rotation_y g + 0.15 * Qabs (turn (gs_left gs))) /\
  (forall g, rotation_y (hand_controls (gs_right gs) g)
             == rotation_y g + 0.15 * Qabs (turn (gs_right gs))) /\
  (isWaving (wave (gs_left gs)) = true -> 0.02 < Qabs (turn (gs_left gs))) /\
  (isWaving (wave (gs_right gs)) = true -> 0.02 < Qabs (turn (gs_right gs))).
Proof.
  intros H. apply getGestureState_inv in H
    as (hh1 & _ & _ & _ & _ & Wl & Wr & _).
  apply detectWave_wave in Wl as (xl & Vl & Dl & Il).
  apply detectWave_wave in Wr as (xr & Vr & Dr & Ir).
  cbv zeta.
  assert (Hturn : forall (h : HandState) x,
            velocity (wave h) = Math_abs x -> direction (wave h) = Math_sign x ->
            isWaving (wave h) = Qgtb (Math_abs x) WAVE_VELOCITY_THRESHOLD ->
            (forall g, rotation_y (hand_controls h g)
                       == rotation_y g
                          + 0.15 * Qabs (if isWaving (wave h)
                                         then velocity (wave h) * direction (wave h)
                                         else 0)) /\
            (isWaving (wave h) = true ->
             0.02 < Qabs (if isWaving (wave h)
                          then velocity (wave h) * direction (wave h) else 0))).
  { intros h x Hv Hd Hi.
    assert (Ha : Qabs (velocity (wave h) * direction (wave h)) == velocity (wave h)).
    { rewrite Hv, Hd, abs_sign. reflexivity. }
    split.
    - intros g. unfold hand_controls. cbv zeta.
      assert (Hr : rotation_y (if open h
                               then disperseParticles
                                      (if grasping h then convergeParticles g 0.8 else g) 0.5
                               else if grasping h then convergeParticles g 0.8 else g)
                   = rotation_y g) by (destruct (grasping h), (open h); reflexivity).
      destruct (isWaving (wave h)).
      + cbn [rotation_y set_rotation_y set_rotation]. rewrite Ha, Hr. ring.
      + rewrite Hr. change (Qabs 0) with 0. ring.
    - intros Hw. rewrite Hw, Ha. rewrite Hw in Hi. symmetry in Hi.
      unfold Qgtb in Hi. apply Qltb_lt in Hi. rewrite Hv. exact Hi. }
  destruct (Hturn (gs_left gs) xl Vl Dl Il) as [L1 L2].
  destruct (Hturn (gs_right gs) xr Vr Dr Ir) as [R1 R2].
  split; [|done].
  intros m s. unfold single_mode, with_mainEarth, handlePinchZoom, handleWaveRotation.
  cbv zeta.
  destruct (grasping _ || grasping _), (open _ || open _),
    (isPinching (pinch (gs_left gs)) || isPinching (pinch (gs_right gs))),
    (Qgtb (previousPinchDistance m) 0), (isWaving (wave (gs_left gs))),
    (isWaving (wave (gs_right gs))); cbn;
    repeat (match goal with |- context [bool_decide ?P] => destruct (bool_decide P) end; cbn);
    ring.
Qed.

End Waves.

Lemma wave_turns_witness :
  exists gs hh',
    getGestureState (M := runtime_6) (Some (open_hand 0.5 0.5)) None None 100 100
      one_sample_history = Some (gs, hh') /\
    isWaving (wave (gs_left gs)) = true /\
    rotation_y (hand_controls (M := runtime_6) (gs_left gs)
                  (createEarthInstance generated_sample))
    == 0 + 0.15 * 2.5.
Proof.
  destruct (getGestureState (M := runtime_6) (Some (open_hand 0.5 0.5)) None None 100 100
              one_sample_history) as [[gs hh']|] eqn:E; [|vm_compute in E; discriminate E].
  destruct (wave_turns (M := runtime_6) _ _ _ _ _ _ _ _ E) as (_ & Hl & _).
  specialize (Hl (createEarthInstance generated_sample)). cbv zeta in Hl.
  exists gs, hh'. split; [reflexivity|].
  vm_compute in E. injection E as <- _.
  split; [reflexivity|]. rewrite Hl. reflexivity.
Defined.

(** ** Motion that is not reported *)

Lemma rd_zip_with (f : Q -> Q -> Q) (a b : list Q) (i : nat) :
  (i < length a)%nat -> (i < length b)%nat ->
  rd (zip_with f a b) i = f (rd a i) (rd b i).
Proof.
  intros Ha Hb. unfold rd. rewrite lookup_zip_with.
  destruct (lookup_lt_is_Some_2 a i Ha) as [x ->].
  destruct (lookup_lt_is_Some_2 b i Hb) as [y ->]. reflexivity.
Qed.

Lemma rd_map (f : Q -> Q) (a : list Q) (i : nat) :
  (i < length a)%nat -> rd (map f a) i = f (rd a i).
Proof.
  intros Ha. unfold rd. rewrite list_lookup_fmap.
  destruct (lookup_lt_is_Some_2 a i Ha) as [x ->]. reflexivity.
Qed.

Lemma rd_replicate (n i : nat) : rd (replicate n 0) i = 0.
Proof.
  unfold rd. destruct (replicate n 0 !! i) as [x|] eqn:E; [|reflexivity].
  apply lookup_replicate in E as [-> _]. reflexivity.
Qed.

Lemma x_components_rd (n : nat) (vel : list Q) :
  length vel = (3 * n)%nat -> x_components vel = map (λ k, rd vel (3 * k)) (seq 0 n).
Proof.
  revert vel. induction n as [|n IH]; intros vel Hl.
  - destruct vel; [reflexivity|discriminate Hl].
  - destruct vel as [|x [|y [|z rest]]]; cbn [length] in Hl; try lia.
    cbn [x_components seq map]. f_equal. rewrite (IH rest) by lia.
    rewrite <- fmap_S_seq, <- list_fmap_compose. apply list_fmap_ext. intros _ k _.
    cbn [compose]. replace (3 * S k)%nat with (S (S (S (3 * k)))) by lia. reflexivity.
Qed.

Lemma x_exceeds_rd (d : Q) (n : nat) (vel : list Q) :
  length vel = (3 * n)%nat ->
  (forall k, (k < n)%nat -> Qgtb (Math_abs (rd vel (3 * k) * d)) 0.0001 = false) ->
  x_exceeds d vel = false.
Proof.
  intros Hl H. unfold x_exceeds. rewrite (x_components_rd n vel Hl).
  apply not_true_is_false. intros He. apply existsb_exists in He as (v & Hin & Hv).
  apply in_map_iff in Hin as (k & <- & Hk). apply in_seq in Hk.
  rewrite H in Hv by lia. discriminate Hv.
Qed.

Lemma y_cloud_wf : wf_generated y_cloud.
Proof.
  split; [apply generated_sample_wf|]. unfold y_cloud. cbn [gen_outer].
  rewrite length_map, length_seq. apply triple_count.
Qed.

Lemma rd_y_cloud (k c : nat) :
  (k < OUTER_COUNT)%nat -> (c < 3)%nat ->
  rd (gen_outer y_cloud) (3 * k + c) = (if bool_decide (c = 1%nat) then 0.8 else 0).
Proof.
  intros Hk Hc. unfold y_cloud, rd. cbn [gen_outer].
  rewrite list_lookup_fmap, lookup_seq_lt by lia. cbn [fmap option_fmap option_map default].
  replace ((0 + (3 * k + c)) mod 3)%nat with c; [reflexivity|].
  rewrite Nat.add_0_l, Nat.add_comm, Nat.mul_comm, Nat.Div0.mod_add.
  symmetry. apply Nat.mod_small. exact Hc.
Qed.

(** The velocities of the outer cloud after the dispersal: every particle
    has got the same kick along [y] and none along [x] or [z]. *)
Lemma y_dispersed_velocity (k c : nat) :
  (k < OUTER_COUNT)%nat -> (c < 3)%nat ->
  rd (particleVelocities (userData y_dispersed)) (3 * k + c)
  = kicked (M := runtime_6) 0.03 0.5 [0; 0.8; 0] [0; 0; 0] 0 c.
Proof.
  intros Hk Hc. unfold y_dispersed.
  destruct (disperseParticles_pointwise (M := runtime_6) (createEarthInstance y_cloud) 0.5
              (proj1 (createEarthInstance_wf _ y_cloud_wf))) as (_ & Ho & _).
  rewrite (Ho k c Hk Hc). unfold kicked.
  change (positions (particles (userData (createEarthInstance y_cloud))))
    with (gen_outer y_cloud).
  change (particleVelocities (userData (createEarthInstance y_cloud)))
    with (replicate (OUTER_COUNT * 3) 0).
  assert (R0 : rd (gen_outer y_cloud) (3 * k) = 0).
  { replace (3 * k)%nat with (3 * k + 0)%nat by lia. apply (rd_y_cloud k 0); [exact Hk|lia]. }
  assert (R1 : rd (gen_outer y_cloud) (3 * k + 1) = 0.8) by (apply (rd_y_cloud k 1); [exact Hk|lia]).
  assert (R2 : rd (gen_outer y_cloud) (3 * k + 2) = 0) by (apply (rd_y_cloud k 2); [exact Hk|lia]).
  rewrite rd_replicate, (rd_y_cloud k c Hk Hc), R0, R1, R2.
  destruct c as [|[|[|c]]]; [reflexivity..|lia].
Qed.

Lemma y_dispersed_wf : wf_instance y_dispersed.
Proof. apply disperse_wf_instance, createEarthInstance_wf, y_cloud_wf. Qed.

(** The sample after the step of the frame: the outer particle 0 has moved
    from 0.8 to 0.815 along [y] and keeps the velocity 0.0147, and no upload
    of the outer positions is requested. *)
Lemma y_moved_facts :
  wf_instance y_moved /\
  rd (positions (particles (userData y_moved))) 1 == 0.815 /\
  rd (particlePositions (userData y_moved)) 1 = 0.8 /\
  rd (particleVelocities (userData y_moved)) 1
  = kicked (M := runtime_6) 0.03 0.5 [0; 0.8; 0] [0; 0; 0] 0 1 * 0.98 /\
  needsUpdate (particles (userData y_moved)) = false.
Proof.
  pose proof y_dispersed_wf as Hw. destruct (Hw) as ((H1 & H2 & H3 & H4) & H5 & H6).
  split; [apply updateParticles_wf_instance, Hw|].
  unfold y_moved.
  destruct (updateParticles_pointwise y_dispersed 0.016 (proj1 Hw))
    as (_ & _ & E3 & E4 & _ & E6).
  pose proof (updateParticles_frame y_dispersed 0.016) as Hf. cbv zeta in Hf.
  destruct Hf as (_ & _ & F2 & _).
  destruct (disperseParticles_pointwise (M := runtime_6) (createEarthInstance y_cloud) 0.5
              (proj1 (createEarthInstance_wf _ y_cloud_wf))) as (_ & _ & _ & P1 & _ & P2 & _).
  fold y_dispersed in P1, P2.
  assert (Hpos : rd (positions (particles (userData y_dispersed))) 1 = 0.8).
  { rewrite P1. exact (rd_y_cloud 0 1 ltac:(unfold OUTER_COUNT; lia) ltac:(lia)). }
  assert (Hvel : rd (particleVelocities (userData y_dispersed)) 1
                 = kicked (M := runtime_6) 0.03 0.5 [0; 0.8; 0] [0; 0; 0] 0 1).
  { exact (y_dispersed_velocity 0 1 ltac:(unfold OUTER_COUNT; lia) ltac:(lia)). }
  rewrite E3, E4, E6, F2. unfold OUTER_COUNT in H3, H4.
  rewrite rd_zip_with, rd_map by lia. rewrite Hpos, Hvel.
  split; [vm_compute; reflexivity|].
  split; [rewrite P2; exact (rd_y_cloud 0 1 ltac:(unfold OUTER_COUNT; lia) ltac:(lia))|].
  split; [reflexivity|].
  rewrite P1. cbn [orb]. rewrite orb_false_r.
  apply (x_exceeds_rd 0.98 OUTER_COUNT); [exact H4|].
  intros k Hk. replace (3 * k)%nat with (3 * k + 0)%nat by lia.
  rewrite (y_dispersed_velocity k 0 Hk) by lia. vm_compute. reflexivity.
Qed.

(** C5: motion is reported when some velocity component of some particle
    exceeds 0.0001. The code does not do this after a dispersal of an
    instance whose outer cloud lies on the [y] axis: [disperseParticles] with
    the intensity of a frame with an open hand gives every outer particle the
    velocity 0.015 along [y]; the [updateParticles] that follows moves
    particle 0 from 0.8 to 0.815 and leaves it the velocity 0.0147, above the
    threshold, yet requests no upload of the outer positions, because only
    the [x] component of each particle is compared with the threshold. *)
Theorem motion_along_y_unreported :
  let fresh := userData (createEarthInstance y_cloud) in
  let before := userData y_dispersed in
  let after := userData y_moved in
  wf_generated y_cloud /\
  rd (positions (particles fresh)) 1 = 0.8 /\
  rd (particleVelocities before) 1 == 0.015 /\
  rd (positions (particles before)) 1 = 0.8 /\
  needsUpdate (particles before) = false /\
  rd (positions (particles after)) 1 == 0.815 /\
  rd (particleVelocities after) 1 == 0.0147 /\
  Qgtb (Math_abs (rd (particleVelocities after) 1)) 0.0001 = true /\
  needsUpdate (particles after) = false.
Proof.
  cbv zeta. destruct y_moved_facts as (_ & M1 & _ & M3 & M4).
  destruct (disperseParticles_pointwise (M := runtime_6) (createEarthInstance y_cloud) 0.5
              (proj1 (createEarthInstance_wf _ y_cloud_wf))) as (_ & _ & _ & P1 & _).
  fold y_dispersed in P1.
  assert (Hfresh : rd (positions (particles (userData (createEarthInstance y_cloud)))) 1
                   = 0.8).
  { exact (rd_y_cloud 0 1 ltac:(unfold OUTER_COUNT; lia) ltac:(lia)). }
  assert (Hvel : rd (particleVelocities (userData y_dispersed)) 1
                 = kicked (M := runtime_6) 0.03 0.5 [0; 0.8; 0] [0; 0; 0] 0 1).
  { exact (y_dispersed_velocity 0 1 ltac:(unfold OUTER_COUNT; lia) ltac:(lia)). }
  split; [exact y_cloud_wf|]. split; [exact Hfresh|].
  split; [rewrite Hvel; vm_compute; reflexivity|].
  split; [rewrite P1; exact Hfresh|]. split; [rewrite P1; reflexivity|].
  split; [exact M1|]. rewrite M3.
  split; [vm_compute; reflexivity|]. split; [vm_compute; reflexivity|exact M4].
Qed.

(** ** Witnesses on a dispersed instance *)

Lemma converge_closed_form_witness :
  wf_instance y_moved /\
  rd (positions (particles (userData (convergeParticles y_moved 0.8)))) 1 == 0.8138.
Proof.
  destruct y_moved_facts as (Hw & M1 & M2 & _).
  split; [exact Hw|].
  pose proof (converge_closed_form y_moved 0.8 Hw) as Hc. cbv zeta in Hc.
  destruct Hc as (_ & Ho & _). rewrite Ho.
  destruct Hw as ((_ & _ & W3 & _) & _ & W6). unfold OUTER_COUNT in W3, W6.
  rewrite rd_zip_with by lia. rewrite M1, M2. reflexivity.
Defined.

Lemma converge_geometric_witness :
  wf_instance y_moved /\
  rd (positions (particles (userData (Nat.iter 3 (λ e, convergeParticles e 0.8) y_moved)))) 1
  - rd (particlePositions (userData (Nat.iter 3 (λ e, convergeParticles e 0.8) y_moved))) 1
  == 0.01168032.
Proof.
  destruct y_moved_facts as (Hw & M1 & M2 & _).
  split; [exact Hw|].
  destruct (converge_geometric y_moved 0.8 3 1 Hw) as (_ & Ho & _).
  rewrite Ho, M1, M2. reflexivity.
Defined.

